(** * NGO funding scraper: shallow embedding and verified properties

    The development follows the Python sources

    - [scraper/main.py]: [match_keywords], [is_closing_soon],
      [process_funding], [cleanup_old_funding], [main];
    - [scraper/sites/finantare_ro.py]: [parse_date];
    - [scraper/notifier.py]: [sanitize_header].

    Python strings are sequences of Unicode code points and are modelled
    as [list N].  The Unicode character database, which Python consults
    for [str.lower], the regular-expression classes and NFKD, is a record
    of tables the definitions are parametrised by; theorems that need to
    know a table entry assume it for the ASCII range or for the code
    points they name. *)

From Stdlib Require Import ZArith NArith Lia.
From stdpp Require Import base option list strings gmap.


(** ** Exceptions *)

Inductive exn := ValueError | TypeError.

Inductive result (A : Type) :=
| Ok (a : A)
| Raise (e : exn).
Arguments Ok {A} a.
Arguments Raise {A} e.

Definition rbind {A B} (c : result A) (k : A -> result B) : result B :=
  match c with
  | Ok a => k a
  | Raise e => Raise e
  end.

Notation "x <-r c ;; k" := (rbind c (fun x => k))
  (at level 100, c at next level, right associativity).

(** [try: c except ValueError: h] *)
Definition except_value_error {A} (c : result A) (h : result A) : result A :=
  match c with
  | Raise ValueError => h
  | other => other
  end.

(** ** Python strings *)

Definition str := list N.

(** A source literal, one code point per character. *)
Definition u (s : string) : str :=
  Ascii.N_of_ascii <$> String.list_ascii_of_string s.

Definition is_ascii (c : N) : bool := (c <? 128)%N.

(** ** The Unicode character database

    [uni_isword c]    : [c] is alphanumeric or an underscore (the class
                        [\w] of a [str] pattern);
    [uni_isspace c]   : [c] is Unicode whitespace (the class [\s], and
                        what [int] strips);
    [uni_decimal c]   : the value of a decimal digit (the class [\d], and
                        what [int] accepts);
    [uni_lower_at]    : the lower-case mapping of one code point, which
                        [str.lower] applies to every position; it sees
                        the text before and after because the mapping of
                        capital sigma depends on them;
    [uni_decomp c]    : the full compatibility decomposition of [c];
    [uni_ccc c]       : the canonical combining class of [c]. *)
Record unicode_db := {
  uni_isword : N -> bool;
  uni_isspace : N -> bool;
  uni_decimal : N -> option Z;
  uni_lower_at : str -> N -> str -> str;
  uni_decomp : N -> str;
  uni_ccc : N -> N
}.

Module Ascii7.
Local Open Scope N_scope.

Definition in_range (lo hi c : N) : bool := (lo <=? c) && (c <=? hi).

Definition isupper (c : N) : bool := in_range 65 90 c.
Definition islower (c : N) : bool := in_range 97 122 c.
Definition isdigit (c : N) : bool := in_range 48 57 c.

Definition isword (c : N) : bool :=
  isdigit c || isupper c || islower c || (c =? 95).

Definition isspace (c : N) : bool :=
  in_range 9 13 c || in_range 28 32 c.

Definition decimal (c : N) : option Z :=
  if isdigit c then Some (Z.of_N c - 48)%Z else None.

Definition lower (c : N) : N := if isupper c then c + 32 else c.

(** The database restricted to ASCII: every other code point is
    caseless, is neither a word character, a space nor a digit, and
    decomposes to itself. *)
Definition db : unicode_db := {|
  uni_isword c := is_ascii c && isword c;
  uni_isspace c := is_ascii c && isspace c;
  uni_decimal c := decimal c;
  uni_lower_at _ c _ := [lower c];
  uni_decomp c := [c];
  uni_ccc _ := 0
|}.
End Ascii7.

(** What the database says on ASCII code points. *)
Record ascii_faithful (U : unicode_db) : Prop := {
  af_isword : forall c, is_ascii c = true -> uni_isword U c = Ascii7.isword c;
  af_isspace : forall c, is_ascii c = true -> uni_isspace U c = Ascii7.isspace c;
  af_decimal : forall c, is_ascii c = true -> uni_decimal U c = Ascii7.decimal c;
  af_lower : forall pre c post, is_ascii c = true ->
    uni_lower_at U pre c post = [Ascii7.lower c]
}.

(** The lower-case mapping of a code point is never empty, and never
    makes a word character out of a character that is not one (the cased
    characters outside the letters, such as the circled capitals, map to
    characters of their own kind). *)
Definition lower_regular (U : unicode_db) : Prop :=
  forall pre c post,
    uni_lower_at U pre c post <> []
    /\ (uni_isword U c = false ->
        Forall (fun d => uni_isword U d = false) (uni_lower_at U pre c post)).

Section Text.
Context (U : unicode_db).

(** [str.lower]: position by position.  [lower_seg pre s post] is the
    lower-casing of the stretch [s] of the text [pre ++ s ++ post]. *)
Fixpoint lower_seg (pre s post : str) : str :=
  match s with
  | [] => []
  | c :: s' => uni_lower_at U pre c (s' ++ post) ++ lower_seg (pre ++ [c]) s' post
  end.

Definition lower (s : str) : str := lower_seg [] s [].

(** [str.strip] of whitespace. *)
Fixpoint lstrip (s : str) : str :=
  match s with
  | c :: s' => if uni_isspace U c then lstrip s' else s
  | [] => []
  end.

Definition strip (s : str) : str := reverse (lstrip (reverse (lstrip s))).

(** [int(s)] on text made of decimal digits, optionally surrounded by
    whitespace; anything else is a [ValueError].  (Signs and digit
    separators, which [int] also accepts, never reach it here: every
    call site passes text matched by digit classes.) *)
Fixpoint digits_value (acc : Z) (s : str) : option Z :=
  match s with
  | [] => Some acc
  | c :: s' =>
      match uni_decimal U c with
      | Some d => digits_value (10 * acc + d) s'
      | None => None
      end
  end.

Definition py_int (s : str) : result Z :=
  match strip s with
  | [] => Raise ValueError
  | ds => match digits_value 0 ds with
          | Some n => Ok n
          | None => Raise ValueError
          end
  end.
End Text.

(** ** Regular expressions

    The fragment of Python's [re] the sources use: literal characters,
    the classes [\d], [\s], [\w] and character ranges, the boundary
    [\b], concatenation, ordered alternation, greedy repetition of a
    class, and capturing groups.  The matcher backtracks in the order
    of Python's engine: the first alternative first, the longest
    repetition first. *)

Inductive cset :=
| CLit (c : N)
| CRange (lo hi : N)
| CDigit
| CSpace
| CWord.

Inductive regex :=
| Eps
| Chr (cs : cset)
| Bnd
| Cat (r1 r2 : regex)
| Alt (r1 r2 : regex)
| Rep (cs : cset) (lo : nat) (hi : option nat)
| Grp (r : regex).

(** The text left after a match and the groups, in the order they were
    closed. *)
Definition rmatch_result : Type := str * list str.

Section Regex.
Context (U : unicode_db).

Definition cset_mem (cs : cset) (c : N) : bool :=
  match cs with
  | CLit a => (c =? a)%N
  | CRange lo hi => Ascii7.in_range lo hi c
  | CDigit => bool_decide (is_Some (uni_decimal U c))
  | CSpace => uni_isspace U c
  | CWord => uni_isword U c
  end.

(** A position outside the text counts as a non-word character. *)
Definition word_at (c : option N) : bool :=
  match c with
  | Some a => uni_isword U a
  | None => false
  end.

Definition at_boundary (prev : option N) (s : str) : bool :=
  xorb (word_at prev) (word_at (head s)).

(** The matcher's position: the character before it, the text after it,
    the text consumed so far by each group still open (innermost first,
    last character first), and the groups already closed. *)
Definition cont : Type :=
  option N -> str -> list str -> list str -> option rmatch_result.

Definition consume (c : N) (opens : list str) : list str := (c ::.) <$> opens.

Definition close_group (opens caps : list str) : list str * list str :=
  match opens with
  | g :: opens' => (opens', caps ++ [reverse g])
  | [] => ([], caps)
  end.

Fixpoint rep_greedy (p : N -> bool) (lo : nat) (hi : option nat)
    (prev : option N) (s : str) (opens caps : list str) (k : cont)
    : option rmatch_result :=
  let stop := match lo with O => k prev s opens caps | S _ => None end in
  match s with
  | c :: s' =>
      if p c && (match hi with Some O => false | _ => true end) then
        match rep_greedy p (Nat.pred lo) (Nat.pred <$> hi) (Some c) s'
                (consume c opens) caps k with
        | Some r => Some r
        | None => stop
        end
      else stop
  | [] => stop
  end.

Fixpoint rmatch (r : regex) (prev : option N) (s : str) (opens caps : list str)
    (k : cont) : option rmatch_result :=
  match r with
  | Eps => k prev s opens caps
  | Chr cs =>
      match s with
      | c :: s' => if cset_mem cs c then k (Some c) s' (consume c opens) caps else None
      | [] => None
      end
  | Bnd => if at_boundary prev s then k prev s opens caps else None
  | Cat r1 r2 =>
      rmatch r1 prev s opens caps
        (fun prev' s' opens' caps' => rmatch r2 prev' s' opens' caps' k)
  | Alt r1 r2 =>
      match rmatch r1 prev s opens caps k with
      | Some x => Some x
      | None => rmatch r2 prev s opens caps k
      end
  | Rep cs lo hi => rep_greedy (cset_mem cs) lo hi prev s opens caps k
  | Grp r1 =>
      rmatch r1 prev s ([] :: opens) caps (fun prev' s' opens' caps' =>
        let oc := close_group opens' caps' in k prev' s' oc.1 oc.2)
  end.

Definition accept : cont := fun _ s _ caps => Some (s, caps).

(** [re.match]: at the start of the text only. *)
Definition re_match (r : regex) (s : str) : option rmatch_result :=
  rmatch r None s [] [] accept.

(** [re.search]: the leftmost position where the pattern matches. *)
Fixpoint search_from (r : regex) (prev : option N) (s : str)
    : option rmatch_result :=
  match rmatch r prev s [] [] accept with
  | Some x => Some x
  | None =>
      match s with
      | c :: s' => search_from r (Some c) s'
      | [] => None
      end
  end.

Definition re_search (r : regex) (s : str) : option rmatch_result :=
  search_from r None s.
End Regex.

(** A sequence of literal characters; [re.escape] turns its argument
    into a pattern that matches exactly that text. *)
Definition re_escape (s : str) : regex :=
  foldr (fun c r => Cat (Chr (CLit c)) r) Eps s.

Definition cat_all (rs : list regex) : regex := foldr Cat Eps rs.

(** ** [datetime] *)

Module DT.
Local Open Scope Z_scope.

(** [utcoffset] is [None] for a naive value, and the offset from UTC in
    microseconds for an aware one. *)
Record datetime := mk {
  year : Z; month : Z; day : Z;
  hour : Z; minute : Z; second : Z; microsecond : Z;
  utcoffset : option Z
}.

Record timedelta := mk_td { days : Z; seconds : Z; microseconds : Z }.

Definition MINYEAR := 1.
Definition MAXYEAR := 9999.

Definition _DAYS_IN_MONTH : list Z :=
  [-1; 31; 28; 31; 30; 31; 30; 31; 31; 30; 31; 30; 31].
Definition _DAYS_BEFORE_MONTH : list Z :=
  [-1; 0; 31; 59; 90; 120; 151; 181; 212; 243; 273; 304; 334].

Definition _is_leap (y : Z) : bool :=
  (y mod 4 =? 0) && (negb (y mod 100 =? 0) || (y mod 400 =? 0)).

Definition _days_before_year (year : Z) : Z :=
  let y := year - 1 in y * 365 + y / 4 - y / 100 + y / 400.

Definition _days_in_month (y m : Z) : Z :=
  if (m =? 2) && _is_leap y then 29
  else nth (Z.to_nat m) _DAYS_IN_MONTH 0.

Definition _days_before_month (y m : Z) : Z :=
  nth (Z.to_nat m) _DAYS_BEFORE_MONTH 0
  + (if (2 <? m) && _is_leap y then 1 else 0).

Definition _ymd2ord (y m d : Z) : Z :=
  _days_before_year y + _days_before_month y m + d.

Definition _check_date_fields (y m d : Z) : bool :=
  (MINYEAR <=? y) && (y <=? MAXYEAR) && (1 <=? m) && (m <=? 12)
  && (1 <=? d) && (d <=? _days_in_month y m).

Definition _check_time_fields (hh mm ss us : Z) : bool :=
  (0 <=? hh) && (hh <=? 23) && (0 <=? mm) && (mm <=? 59)
  && (0 <=? ss) && (ss <=? 59) && (0 <=? us) && (us <=? 999999).

(** The constructor [datetime(year, month, day, hour, ..., tzinfo)]. *)
Definition new (y m d hh mm ss us : Z) (tz : option Z) : result datetime :=
  if _check_date_fields y m d && _check_time_fields hh mm ss us
  then Ok (mk y m d hh mm ss us tz)
  else Raise ValueError.

(** [datetime(year, month, day)] *)
Definition of_ymd (y m d : Z) : result datetime := new y m d 0 0 0 0 None.

Definition toordinal (t : datetime) : Z := _ymd2ord (year t) (month t) (day t).

Definition us_per_day : Z := 86400 * 1000000.

(** [timedelta(days, seconds, microseconds)] normalises its fields. *)
Definition td_total (d s us : Z) : Z := (d * 86400 + s) * 1000000 + us.

Definition td_of_total (t : Z) : timedelta :=
  mk_td (t / us_per_day) ((t mod us_per_day) / 1000000) (t mod 1000000).

Definition td_new (d s us : Z) : timedelta := td_of_total (td_total d s us).

Definition td_us (t : timedelta) : Z :=
  td_total (days t) (seconds t) (microseconds t).

(** [self - other] on two datetimes. *)
Definition sub (self other : datetime) : result timedelta :=
  let secs1 := second self + minute self * 60 + hour self * 3600 in
  let secs2 := second other + minute other * 60 + hour other * 3600 in
  let base := td_new (toordinal self - toordinal other) (secs1 - secs2)
                     (microsecond self - microsecond other) in
  match utcoffset self, utcoffset other with
  | None, None => Ok base
  | Some myoff, Some otoff => Ok (td_of_total (td_us base + otoff - myoff))
  | _, _ => Raise TypeError
  end.

(** Microseconds since the start of 0001-01-01 on the value's own
    clock. *)
Definition to_us (t : datetime) : Z :=
  td_total (toordinal t)
    (second t + minute t * 60 + hour t * 3600) (microsecond t).
End DT.
Export DT(datetime).

(** ** [datetime.strptime]

    The format is compiled to a regular expression, one group per
    directive; the text must match it to its end, and the groups'
    numbers must form a date. *)

Inductive directive := DirDay | DirMonth | DirYear.

Inductive fmt_item :=
| FDir (d : directive)
| FLit (c : N).

(** [%d], [%m], [%Y]; any other directive is a bad one. *)
Fixpoint parse_format (f : str) : option (list fmt_item) :=
  match f with
  | [] => Some []
  | 37%N :: c :: rest =>
      d ← (if (c =? 100)%N then Some DirDay
           else if (c =? 109)%N then Some DirMonth
           else if (c =? 89)%N then Some DirYear
           else None);
      (FDir d ::.) <$> parse_format rest
  | c :: rest => (FLit c ::.) <$> parse_format rest
  end.

Definition digit_range (lo hi : N) : regex := Chr (CRange (48 + lo) (48 + hi)).
Definition lit_digit (d : N) : regex := Chr (CLit (48 + d)).

(** ["(?P<d>3[0-1]|[1-2]\d|0[1-9]|[1-9]| [1-9])"],
    ["(?P<m>1[0-2]|0[1-9]|[1-9])"], ["(?P<Y>\d\d\d\d)"] *)
Definition directive_regex (d : directive) : regex :=
  match d with
  | DirDay =>
      Grp (Alt (Cat (lit_digit 3) (digit_range 0 1))
          (Alt (Cat (digit_range 1 2) (Chr CDigit))
          (Alt (Cat (lit_digit 0) (digit_range 1 9))
          (Alt (digit_range 1 9)
               (Cat (Chr (CLit 32)) (digit_range 1 9))))))
  | DirMonth =>
      Grp (Alt (Cat (lit_digit 1) (digit_range 0 2))
          (Alt (Cat (lit_digit 0) (digit_range 1 9))
               (digit_range 1 9)))
  | DirYear =>
      Grp (Cat (Chr CDigit) (Cat (Chr CDigit) (Cat (Chr CDigit) (Chr CDigit))))
  end.

Definition format_regex (items : list fmt_item) : regex :=
  cat_all ((fun it => match it with
                      | FDir d => directive_regex d
                      | FLit c => Chr (CLit c)
                      end) <$> items).

Definition directives (items : list fmt_item) : list directive :=
  omap (fun it => match it with FDir d => Some d | FLit _ => None end) items.

Record ymd := mk_ymd { f_year : option Z; f_month : Z; f_day : Z }.

Section Strptime.
Context (U : unicode_db).

(** The loop over the groups found. *)
Fixpoint assign_groups (gs : list (directive * str)) (acc : ymd) : result ymd :=
  match gs with
  | [] => Ok acc
  | (d, text) :: gs' =>
      n <-r py_int U text ;;
      assign_groups gs'
        match d with
        | DirDay => mk_ymd (f_year acc) (f_month acc) n
        | DirMonth => mk_ymd (f_year acc) n (f_day acc)
        | DirYear => mk_ymd (Some n) (f_month acc) (f_day acc)
        end
  end.

Definition strptime (data_string format : str) : result datetime :=
  match parse_format format with
  | None => Raise ValueError
  | Some items =>
      match re_match U (format_regex items) data_string with
      | None => Raise ValueError
      | Some (rest, groups) =>
          match rest with
          | _ :: _ => Raise ValueError
          | [] =>
              f <-r assign_groups (zip (directives items) groups)
                                  (mk_ymd None 1 1) ;;
              let year := match f_year f with
                          | Some y => y
                          | None => 1900%Z
                          end in
              DT.of_ymd year (f_month f) (f_day f)
          end
      end
  end.
End Strptime.

(** ** [scraper/sites/finantare_ro.py]: the date normaliser *)

Definition ro_months : list (str * str) :=
  [ (u "ianuarie", u "01"); (u "februarie", u "02"); (u "martie", u "03");
    (u "aprilie", u "04"); (u "mai", u "05"); (u "iunie", u "06");
    (u "iulie", u "07"); (u "august", u "08"); (u "septembrie", u "09");
    (u "octombrie", u "10"); (u "noiembrie", u "11"); (u "decembrie", u "12") ].

(** [d.get(k)] on a dictionary literal. *)
Definition dict_get (d : list (str * str)) (k : str) : option str :=
  snd <$> List.find (fun p => bool_decide (p.1 = k)) d.

(** [r'(\d{1,2})\s+(\w+)\s+(\d{4})'] *)
Definition named_month_re : regex :=
  Cat (Grp (Rep CDigit 1 (Some 2)))
 (Cat (Rep CSpace 1 None)
 (Cat (Grp (Rep CWord 1 None))
 (Cat (Rep CSpace 1 None)
      (Grp (Rep CDigit 4 (Some 4)))))).

Definition numeric_formats : list str :=
  [u "%d.%m.%Y"; u "%d/%m/%Y"; u "%d-%m-%Y"; u "%Y-%m-%d"].

Section ParseDate.
Context (U : unicode_db).

(** The named-month attempt; [Ok None] when control falls through to the
    numeric formats. *)
Definition named_month_attempt (date_str : str) : result (option datetime) :=
  match re_match U named_month_re date_str with
  | Some (_, [day; month_name; year]) =>
      match dict_get ro_months (lower U month_name) with
      | Some (c :: month_num) =>
          except_value_error
            (y <-r py_int U year ;;
             m <-r py_int U (c :: month_num) ;;
             d <-r py_int U day ;;
             t <-r DT.of_ymd y m d ;;
             Ok (Some t))
            (Ok None)
      | _ => Ok None
      end
  | _ => Ok None
  end.

Fixpoint try_formats (fmts : list str) (date_str : str) : result (option datetime) :=
  match fmts with
  | [] => Ok None
  | fmt :: fmts' =>
      except_value_error
        (t <-r strptime U date_str fmt ;; Ok (Some t))
        (try_formats fmts' date_str)
  end.

Definition parse_date (date_str : str) : result (option datetime) :=
  r <-r named_month_attempt date_str ;;
  match r with
  | Some t => Ok (Some t)
  | None => try_formats numeric_formats date_str
  end.
End ParseDate.

(** ** [scraper/sites/fonduri_structurale.py]: the date normaliser

    [scrape] hands [parse_date] whatever value the page's JSON holds
    under [deadline], [termen] or [data_limita].  A falsy value gives no
    value; a string is tried against the numeric formats only; on any
    other value [strptime] raises [TypeError], which the handler for
    [ValueError] lets through. *)

Inductive json_value :=
| JNull
| JBool (b : bool)
| JInt (n : Z)
| JFloat (is_zero : bool)
| JStr (s : str)
| JArray (items : list json_value)
| JObject (members : list (str * json_value)).

(** [bool(v)] *)
Definition truthy (v : json_value) : bool :=
  match v with
  | JNull => false
  | JBool b => b
  | JInt n => negb (n =? 0)%Z
  | JFloat is_zero => negb is_zero
  | JStr s => negb (Nat.eqb (length s) 0)
  | JArray items => negb (Nat.eqb (length items) 0)
  | JObject members => negb (Nat.eqb (length members) 0)
  end.

Module FonduriStructurale.
Definition parse_date (U : unicode_db) (date_str : json_value) : result (option datetime) :=
  if negb (truthy date_str) then Ok None
  else match date_str with
       | JStr s => try_formats U numeric_formats s
       | _ => Raise TypeError
       end.
End FonduriStructurale.

(** ** [scraper/main.py] *)

Definition HIGH_PRIORITY_KEYWORDS : list str := u <$>
  [ "educatie"; "educatia"; "educational"; "educationale"; "educativ";
    "steam"; "stiinta"; "stiinte"; "science";
    "tineret"; "tineri"; "youth";
    "copii"; "elevi"; "studenti";
    "scoala"; "scoli"; "scolar";
    "ong"; "ngo"; "societate civila"; "civil society";
    "non-formal"; "nonformal";
    "nerambursabil"; "nerambursabila"; "grant"; "granturi" ]%string.

Definition MEDIUM_PRIORITY_KEYWORDS : list str := u <$>
  [ "cultura"; "cultural"; "culturale";
    "inovare"; "inovatie"; "innovation";
    "digital"; "digitalizare"; "tehnologie"; "technology";
    "capacitare"; "formare profesionala";
    "comunitate"; "comunitar"; "community";
    "incluziune"; "incluziv";
    "voluntariat"; "civic"; "civica";
    "sponsorizare"; "mecenatul";
    "sustenabil"; "dezvoltare durabila" ]%string.

Definition ALL_KEYWORDS : list str :=
  HIGH_PRIORITY_KEYWORDS ++ MEDIUM_PRIORITY_KEYWORDS.

(** The value stored under ['deadline_date']. *)
Inductive pyval :=
| PyNone
| PyDatetime (d : datetime)
| PyStr (s : str).

(** A funding dictionary.  The scrapers set the first seven keys;
    [process_funding] adds the last three.  An [option] around a field
    is [None] when the dictionary lacks the key; ['deadline'] holds
    Python's [None] or a string. *)
Record opportunity := {
  item_id : str;
  title : str;
  url : str;
  deadline : option str;
  deadline_date : option pyval;
  source : str;
  description : option str;
  matched_keywords : option (list str);
  is_high_priority : option bool;
  closing_soon : option bool
}.

(** An entry of [seen_data['funding']].  ['first_seen'] is the ISO text
    of a clock reading and is kept as the reading. *)
Record seen_record := {
  first_seen : datetime;
  seen_title : str;
  seen_url : str;
  seen_source : str;
  seen_deadline : option str;
  seen_matched_keywords : list str
}.

Record seen_data := {
  funding : gmap str seen_record;
  last_updated : option datetime
}.

(** The state a run works on: the database, mutated in place, and the
    number of clock readings taken so far. *)
Record world := { seen : seen_data; ticks : nat }.

(** Computations that read the clock, mutate the database and may raise;
    what was mutated before an exception stays mutated. *)
Definition M (A : Type) : Type := world -> result A * world.

Definition mret {A} (a : A) : M A := fun w => (Ok a, w).

Definition mbind {A B} (c : M A) (k : A -> M B) : M B :=
  fun w => match c w with
           | (Ok a, w') => k a w'
           | (Raise e, w') => (Raise e, w')
           end.

Notation "x <-m c ;; k" := (mbind c (fun x => k))
  (at level 100, c at next level, right associativity).

Definition lift {A} (r : result A) : M A := fun w => (r, w).

Definition get_funding : M (gmap str seen_record) :=
  fun w => (Ok (funding (seen w)), w).

Definition put_funding (m : gmap str seen_record) : M unit :=
  fun w => (Ok tt, {| seen := {| funding := m; last_updated := last_updated (seen w) |};
                      ticks := ticks w |}).

Definition put_last_updated (t : datetime) : M unit :=
  fun w => (Ok tt, {| seen := {| funding := funding (seen w); last_updated := Some t |};
                      ticks := ticks w |}).

Definition naive (t : datetime) : datetime :=
  DT.mk (DT.year t) (DT.month t) (DT.day t) (DT.hour t) (DT.minute t)
        (DT.second t) (DT.microsecond t) None.

Definition keyword_pattern (U : unicode_db) (keyword : str) : regex :=
  Cat Bnd (Cat (re_escape (lower U keyword)) Bnd).

(** The loop over [ALL_KEYWORDS]. *)
Definition keywords_in (U : unicode_db) (text : str) : list str :=
  List.filter
    (fun keyword => bool_decide (is_Some (re_search U (keyword_pattern U keyword) text)))
    ALL_KEYWORDS.

Definition match_keywords (U : unicode_db) (f : opportunity) : list str :=
  let text := lower U (title f ++ u " " ++ default [] (description f)) in
  keywords_in U text.

(** [scrape_all_sources]: the scrapers run in turn; what a scraper
    raises is logged and the scraper contributes nothing. *)
Definition scrape_all_sources (scrapers : list (result (list opportunity)))
    : list opportunity :=
  foldl (fun all_funding outcome =>
           match outcome with
           | Ok items => all_funding ++ items
           | Raise _ => all_funding
           end) [] scrapers.

Section Pipeline.
Context (U : unicode_db).
(** [datetime.fromisoformat], [None] for its [ValueError]. *)
Context (fromisoformat : str -> option datetime).
(** The readings of the system clock, in the order they are taken. *)
Context (clock : nat -> datetime).

(** [datetime.now()], which carries no time zone. *)
Definition now : M datetime :=
  fun w => (Ok (naive (clock (ticks w))), {| seen := seen w; ticks := S (ticks w) |}).

Definition within_14_days (deadline : datetime) : M bool :=
  t <-m now ;;
  delta <-m lift (DT.sub deadline t) ;;
  let days_left := DT.days delta in
  mret ((0 <=? days_left)%Z && (days_left <=? 14)%Z).

Definition is_closing_soon (f : opportunity) : M bool :=
  match deadline_date f with
  | Some (PyDatetime d) => within_14_days d
  | Some (PyStr (c :: s)) =>
      match fromisoformat (c :: s) with
      | Some d => within_14_days d
      | None => mret false
      end
  | _ => mret false
  end.

Definition any_high_priority (kws : list str) : bool :=
  existsb (fun k => bool_decide (k ∈ HIGH_PRIORITY_KEYWORDS)) kws.

Definition snapshot (item : opportunity) (kws : list str) (t : datetime) : seen_record :=
  {| first_seen := t;
     seen_title := title item;
     seen_url := url item;
     seen_source := source item;
     seen_deadline := deadline item;
     seen_matched_keywords := kws |}.

Definition annotate (item : opportunity) (kws : list str) (hp cs : bool) : opportunity :=
  {| item_id := item_id item; title := title item; url := url item;
     deadline := deadline item; deadline_date := deadline_date item;
     source := source item; description := description item;
     matched_keywords := Some kws;
     is_high_priority := Some hp;
     closing_soon := Some cs |}.

Fixpoint process_loop (all_funding new_matching all_matching : list opportunity)
    : M (list opportunity * list opportunity) :=
  match all_funding with
  | [] => mret (new_matching, all_matching)
  | item :: rest =>
      let fund_id := item_id item in
      match match_keywords U item with
      | [] => process_loop rest new_matching all_matching
      | k :: ks =>
          let kws := k :: ks in
          cs <-m is_closing_soon item ;;
          let item' := annotate item kws (any_high_priority kws) cs in
          let all_matching := all_matching ++ [item'] in
          db <-m get_funding ;;
          match db !! fund_id with
          | Some _ => process_loop rest new_matching all_matching
          | None =>
              t <-m now ;;
              _ <-m put_funding (<[fund_id := snapshot item kws t]> db) ;;
              process_loop rest (new_matching ++ [item']) all_matching
          end
      end
  end.

Definition process_funding (all_funding : list opportunity)
    : M (list opportunity * list opportunity) :=
  process_loop all_funding [] [].

Definition cleanup_old_funding (current_ids : gset str) : M nat :=
  db <-m get_funding ;;
  let old := List.filter (fun fid => bool_decide (fid ∉ current_ids))
                         (elements (dom db)) in
  _ <-m put_funding (foldl (fun m fid => delete fid m) db old) ;;
  mret (length old).

(** What a run hands to its collaborators. *)
Record run := {
  run_new_matching : list opportunity;
  run_all_matching : list opportunity;
  run_notified : list (opportunity * list str);
  run_notification_count : nat;
  run_removed : nat;
  run_dashboard : list opportunity
}.

(** [main], from the scraped list on; [send_notification] is the
    notifier's answer for each item it is handed. *)
Definition main (send_notification : opportunity -> list str -> bool)
    (all_funding : list opportunity) : M run :=
  let current_ids : gset str := list_to_set (item_id <$> all_funding) in
  r <-m process_funding all_funding ;;
  let new_matching := r.1 in
  let all_matching := r.2 in
  let calls := (fun item => (item, default [] (matched_keywords item))) <$> new_matching in
  let notification_count :=
    length (List.filter (fun c => send_notification c.1 c.2) calls) in
  removed <-m cleanup_old_funding current_ids ;;
  t <-m now ;;
  _ <-m put_last_updated t ;;
  mret {| run_new_matching := new_matching;
          run_all_matching := all_matching;
          run_notified := calls;
          run_notification_count := notification_count;
          run_removed := removed;
          run_dashboard := all_matching |}.
End Pipeline.

(** ** [scraper/notifier.py] *)

Definition replacements : list (N * N) :=
  [ (0x2013, 45); (0x2014, 45); (0x2018, 39); (0x2019, 39);
    (0x201c, 34); (0x201d, 34);
    (0x0103, 97); (0x00e2, 97); (0x00ee, 105); (0x0219, 115); (0x021b, 116);
    (0x0102, 65); (0x00c2, 65); (0x00ce, 73); (0x0218, 83); (0x021a, 84) ]%N.

(** [text.replace(old, new)] for one-character [old] and [new]. *)
Definition str_replace (old new : N) (text : str) : str :=
  (fun c => if (c =? old)%N then new else c) <$> text.

Definition encode_ascii_ignore (text : str) : str := List.filter is_ascii text.

Section Notifier.
Context (U : unicode_db).

(** Canonical ordering: a combining mark moves left past the marks of a
    higher combining class.  [acc] is the text so far, last character
    first. *)
Fixpoint reorder_insert (c : N) (acc : str) : str :=
  match acc with
  | d :: acc' =>
      if (0 <? uni_ccc U c)%N && (uni_ccc U c <? uni_ccc U d)%N
      then d :: reorder_insert c acc'
      else c :: acc
  | [] => [c]
  end.

Definition canonical_order (s : str) : str :=
  reverse (foldl (fun acc c => reorder_insert c acc) [] s).

(** [unicodedata.normalize('NFKD', text)] *)
Definition nfkd (text : str) : str :=
  canonical_order (text ≫= uni_decomp U).

Definition sanitize_header (text : str) : str :=
  let text := nfkd text in
  let text := foldl (fun t r => str_replace r.1 r.2 t) text replacements in
  encode_ascii_ignore text.
End Notifier.

(** [sep.join(parts)] *)
Fixpoint join (sep : str) (parts : list str) : str :=
  match parts with
  | [] => []
  | [x] => x
  | x :: rest => x ++ sep ++ join sep rest
  end.

(** What [send_notification] posts to the topic. *)
Record request := {
  req_data : str;
  req_title : str;
  req_click : str;
  req_tags : str;
  req_priority : str
}.

Definition source_names : list (str * str) :=
  [ (u "finantare_ro", u "Finantare.ro");
    (u "fonduri_structurale", u "Fonduri Structurale EU");
    (u "afcn", u "AFCN - Fond Cultural National");
    (u "fdsc", u "FDSC");
    (u "active_citizens", u "Active Citizens Fund") ].

(** The notifier's own list of high-priority keywords. *)
Definition notifier_high_priority : list str :=
  [ u "educatie"; u "educatia"; u "educational"; u "steam"; u "stiinta";
    u "tineret"; u "tineri"; u "copii"; u "elevi"; u "scoala"; u "scoli";
    u "ngo"; u "ong"; u "societate civila"; u "cultura"; u "cultural" ].

(** The keywords that raise the notification's priority. *)
Definition urgent_keywords : list str :=
  [ u "educatie"; u "educatia"; u "steam"; u "tineret"; u "copii"; u "ong" ].

Section SendNotification.
Context (U : unicode_db).
(** [requests.post] followed by [raise_for_status]: [true] when neither
    raises. *)
Context (post : request -> bool).

Definition notification_title (f : opportunity) : str :=
  let title_text := sanitize_header U (take 60 (title f)) in
  let title' := u "Finantare: " ++ title_text in
  if (60 <? length (title f))%nat then title' ++ u "..." else title'.

Definition keyword_lines (matched : list str) : list str :=
  match matched with
  | [] => []
  | _ :: _ =>
      let high := List.filter
        (fun k => bool_decide (lower U k ∈ notifier_high_priority)) matched in
      let medium := List.filter
        (fun k => negb (bool_decide (lower U k ∈ notifier_high_priority))) matched in
      (match high with
       | [] => []
       | _ :: _ => [u "Prioritate ridicata: " ++ join (u ", ") high]
       end)
      ++ (match medium with
          | [] => []
          | _ :: _ => [u "Relevante: " ++ join (u ", ") medium]
          end)
  end.

Definition notification_lines (f : opportunity) (matched : list str) : list str :=
  (match deadline f with
   | Some (c :: d) => [u "Termen limita: " ++ c :: d]
   | _ => []
   end)
  ++ [u "Sursa: " ++ default (source f) (dict_get source_names (source f))]
  ++ keyword_lines matched.

Definition notification_priority (matched : list str) : str :=
  if existsb (fun k => bool_decide (lower U k ∈ urgent_keywords)) matched
  then u "high" else u "default".

Definition notification_request (f : opportunity) (matched : list str) : request :=
  {| req_data := join [10%N] (notification_lines f matched);
     req_title := notification_title f;
     req_click := url f;
     req_tags := u "money_with_wings,romania";
     req_priority := notification_priority matched |}.

(** Whatever goes wrong is logged and answered with [False]. *)
Definition send_notification (f : opportunity) (matched : list str) : bool :=
  post (notification_request f matched).
End SendNotification.

(** ** The scrapers' detail pages: the description

    [' '.join(text.split())[:3000]] in [fetch_article_details] and
    [fetch_details]. *)

Section Description.
Context (U : unicode_db).

(** [text.split()]: the maximal stretches without whitespace.  The flag
    tells whether the text starts inside the first of them. *)
Fixpoint split_open (s : str) : list str * bool :=
  match s with
  | [] => ([], false)
  | c :: s' =>
      let r := split_open s' in
      if uni_isspace U c then (r.1, false)
      else match r.1, r.2 with
           | w :: ws, true => ((c :: w) :: ws, true)
           | ws, _ => ([c] :: ws, true)
           end
  end.

Definition split (s : str) : list str := (split_open s).1.

Definition description_of_text (text : str) : str :=
  take 3000 (join (u " ") (split text)).


(** The last character of the text is whitespace. *)
Definition ends_in_space (s : str) : bool :=
  from_option (uni_isspace U) false (last s).
End Description.

(** The numeric renderings of a date: [dd<sep>mm<sep>yyyy] and
    [yyyy-mm-dd], with leading zeros. *)
Definition digit_char (n : Z) : N := (48 + Z.to_N n)%N.

Definition render2 (n : Z) : str :=
  [digit_char (n / 10); digit_char (n mod 10)].

Definition render4 (n : Z) : str :=
  [digit_char (n / 1000); digit_char (n / 100 mod 10);
   digit_char (n / 10 mod 10); digit_char (n mod 10)].

Definition render_dmy (sep : N) (y m d : Z) : str :=
  render2 d ++ [sep] ++ render2 m ++ [sep] ++ render4 y.

Definition render_ymd (y m d : Z) : str :=
  render4 y ++ [45%N] ++ render2 m ++ [45%N] ++ render2 d.

(** The format strings ["%d.%m.%Y"], ["%d/%m/%Y"] and ["%d-%m-%Y"], by
    their separator. *)
Definition fmt_dmy (sep : N) : str := [37; 100; sep; 37; 109; sep; 37; 89]%N.

Definition fmt_ymd : str := u "%Y-%m-%d".

(** The number a text of decimal digits denotes. *)
Definition decimal_value (s : str) : Z :=
  foldl (fun acc c => 10 * acc + (Z.of_N c - 48))%Z 0%Z s.

(** The month names [parse_date] knows, January first. *)
Definition ro_month_names : list str := ro_months.*1.

(** [strptime] accepts [s] for the format [fmt]: the format's pattern
    matches [s] to its end. *)
Definition full_match (U : unicode_db) (fmt s : str) : Prop :=
  exists items groups,
    parse_format fmt = Some items
    /\ re_match U (format_regex items) s = Some ([], groups).

(** Text that is no date of a known form: where the named-month pattern
    matches, the word is no month name, and no numeric format accepts the
    text. *)
Definition matches_no_pattern (U : unicode_db) (s : str) : Prop :=
  (forall rest day name year,
      re_match U named_month_re s = Some (rest, [day; name; year]) ->
      lower U name ∉ ro_month_names)
  /\ (forall fmt, fmt ∈ numeric_formats -> ~ full_match U fmt s).

(** A date at midnight, without time zone, whose fields the [datetime]
    constructor accepts. *)
Definition calendar_date (t : datetime) : Prop :=
  DT._check_date_fields (DT.year t) (DT.month t) (DT.day t) = true
  /\ t = DT.mk (DT.year t) (DT.month t) (DT.day t) 0 0 0 0 None.

(** A day or month number as it is written without a leading zero. *)
Definition short (n : Z) : str :=
  if (n <? 10)%Z then [digit_char n] else render2 n.

(** A character of one of the three classes the named-month pattern is
    made of. *)
Definition named_class (U : unicode_db) (c : N) : bool :=
  cset_mem U CDigit c || cset_mem U CSpace c || cset_mem U CWord c.

(** Whitespace is neither a decimal digit nor a word character. *)
Definition space_regular (U : unicode_db) : Prop :=
  forall c, uni_isspace U c = true ->
            uni_decimal U c = None /\ uni_isword U c = false.

(** The numbers [parse_date] reads in [s]: the groups of the named-month
    pattern, when the word is a month name, or the groups of a numeric
    format that accepts [s]. *)
Definition matched_numbers (U : unicode_db) (s : str) (y m d : Z) : Prop :=
  (exists rest day name year c num,
      re_match U named_month_re s = Some (rest, [day; name; year])
      /\ dict_get ro_months (lower U name) = Some (c :: num)
      /\ py_int U year = Ok y /\ py_int U (c :: num) = Ok m /\ py_int U day = Ok d)
  \/ (exists fmt items groups f,
        fmt ∈ numeric_formats
        /\ parse_format fmt = Some items
        /\ re_match U (format_regex items) s = Some ([], groups)
        /\ assign_groups U (zip (directives items) groups) (mk_ymd None 1 1) = Ok f
        /\ y = default 1900%Z (f_year f) /\ m = f_month f /\ d = f_day f).

(** The two-character texts the groups of [%d] and [%m] accept whole,
    and the characters they accept alone. *)
Definition day2_ok (c1 c2 : N) : bool :=
  ((c1 =? 51) && (c2 <=? 49) || (49 <=? c1) && (c1 <=? 50)
   || (c1 =? 48) && (49 <=? c2))%N.

Definition month2_ok (c1 c2 : N) : bool :=
  ((c1 =? 49) && (c2 <=? 50) || (c1 =? 48) && (49 <=? c2))%N.

Definition nonzero_digit (c : N) : bool := ((49 <=? c) && (c <=? 57))%N.

(** The texts of one or two digits the groups of [%d] and [%m] accept. *)
Definition day_text_ok (ds : str) : bool :=
  match ds with
  | [c1] => nonzero_digit c1
  | [c1; c2] => day2_ok c1 c2
  | _ => false
  end.

Definition month_text_ok (ms : str) : bool :=
  match ms with
  | [c1] => nonzero_digit c1
  | [c1; c2] => month2_ok c1 c2
  | _ => false
  end.

(** The replacements and the final encoding, on one character. *)
Definition replace_char (c : N) : N :=
  foldl (fun d r => if (d =? r.1)%N then r.2 else d) c replacements.

Definition sanitize_char (c : N) : str :=
  if is_ascii (replace_char c) then [replace_char c] else [].

(** The Romanian letters with diacritics: the letter, its base letter
    and the combining mark of its decomposition. *)
Definition romanian_letters : list (N * (N * N)) :=
  [ (0x0103, (97, 0x0306)); (0x00e2, (97, 0x0302)); (0x00ee, (105, 0x0302));
    (0x0219, (115, 0x0326)); (0x021b, (116, 0x0326));
    (0x0102, (65, 0x0306)); (0x00c2, (65, 0x0302)); (0x00ce, (73, 0x0302));
    (0x0218, (83, 0x0326)); (0x021a, (84, 0x0326)) ]%N.

(** What the sanitizer needs of the database: combining marks (the only
    characters canonical ordering moves) are neither ASCII nor keys of
    the replacement table, and the Romanian letters decompose into base
    letter and mark. *)
Record latin_decomposition (U : unicode_db) : Prop := {
  ld_marks : forall c, uni_ccc U c <> 0%N -> sanitize_char c = [];
  ld_romanian : forall c b m, (c, (b, m)) ∈ romanian_letters ->
    uni_decomp U c = [b; m]
}.

(** ASCII characters have no decomposition. *)
Definition ascii_undecomposed (U : unicode_db) : Prop :=
  forall c, is_ascii c = true -> uni_decomp U c = [c].


(** ** Vocabulary of the statements *)

(** The deadline cannot make the subtraction from the naive clock
    reading fail: it is absent, a naive datetime (what [parse_date]
    builds), or a string that is refused or denotes a naive datetime. *)
Definition deadline_is_naive (fromisoformat : str -> option datetime)
    (f : opportunity) : bool :=
  match deadline_date f with
  | Some (PyDatetime d) => bool_decide (DT.utcoffset d = None)
  | Some (PyStr (c :: s)) =>
      match fromisoformat (c :: s) with
      | Some d => bool_decide (DT.utcoffset d = None)
      | None => true
      end
  | _ => true
  end.

(** [o] is the item [it] after classification. *)
Definition classified (U : unicode_db) (it o : opportunity) : Prop :=
  exists cs, o = annotate it (match_keywords U it)
                          (any_high_priority (match_keywords U it)) cs.

Definition matching (U : unicode_db) (it : opportunity) : bool :=
  match match_keywords U it with
  | [] => false
  | _ => true
  end.

(** [kw] stands in [text] as a whole word: the characters around the
    occurrence, if any, are not word characters. *)
Definition whole_word_in (U : unicode_db) (kw text : str) : Prop :=
  exists pre post,
    text = pre ++ kw ++ post
    /\ word_at U (last pre) = false
    /\ word_at U (head post) = false.

Definition ascii_str (s : str) : Prop := Forall (fun c => is_ascii c = true) s.

(** The character before the position reached after reading [s], when
    [prev] was the character before [s]. *)
Definition prev_after (prev : option N) (s : str) : option N :=
  match last s with
  | Some c => Some c
  | None => prev
  end.

(** What the open groups hold after the matcher has read [s]. *)
Definition consume_all (s : str) (opens : list str) : list str :=
  foldl (fun o c => consume c o) opens s.

Definition ascii_opt (c : option N) : Prop :=
  match c with
  | Some a => is_ascii a = true
  | None => True
  end.

(** Two continuations that agree wherever the matcher can be on ASCII
    text. *)
Definition cont_agree (k k' : cont) : Prop :=
  forall p s opens caps, ascii_opt p -> ascii_str s -> k p s opens caps = k' p s opens caps.

(** A keyword as the source writes them: ASCII, lower-case, not empty,
    with a word character at each end. *)
Definition keyword_ok (kw : str) : bool :=
  forallb is_ascii kw
  && bool_decide (Ascii7.lower <$> kw = kw)
  && from_option Ascii7.isword false (head kw)
  && from_option Ascii7.isword false (last kw).

(** The world after a first sighting of [item]. *)
Definition record_new (clock : nat -> datetime) (item : opportunity)
    (kws : list str) (w : world) : world :=
  {| seen := {| funding := <[item_id item := snapshot item kws (naive (clock (ticks w)))]>
                             (funding (seen w));
                last_updated := last_updated (seen w) |};
     ticks := S (ticks w) |}.

(** The text [match_keywords] searches, before lower-casing. *)
Definition searched_text (f : opportunity) : str :=
  title f ++ u " " ++ default [] (description f).

(** A continuation that refuses text starting with a digit, as one
    that starts with a separator does. *)
Definition refuses_digits (k : cont) : Prop :=
  forall c p rest opens caps,
    Ascii7.isdigit c = true -> k p (c :: rest) opens caps = None.

(** ** Concrete collaborators

    Instances of the parameters, for evaluating the definitions on
    concrete inputs. *)

(** [Ascii7.db] extended with the decompositions of the Romanian
    letters and the combining classes of their marks. *)
Definition romanian_db : unicode_db := {|
  uni_isword := uni_isword Ascii7.db;
  uni_isspace := uni_isspace Ascii7.db;
  uni_decimal := uni_decimal Ascii7.db;
  uni_lower_at := uni_lower_at Ascii7.db;
  uni_decomp c :=
    match List.find (fun e => (e.1 =? c)%N) romanian_letters with
    | Some (_, (b, m)) => [b; m]
    | None => [c]
    end;
  uni_ccc c :=
    if (c =? 0x0306)%N || (c =? 0x0302)%N then 230%N
    else if (c =? 0x0326)%N then 220%N else 0%N
|}.

(** [Ascii7.db] extended with the no-break space, which is whitespace. *)
Definition nbsp_db : unicode_db := {|
  uni_isword := uni_isword Ascii7.db;
  uni_isspace c := uni_isspace Ascii7.db c || (c =? 0x00a0)%N;
  uni_decimal := uni_decimal Ascii7.db;
  uni_lower_at := uni_lower_at Ascii7.db;
  uni_decomp := uni_decomp Ascii7.db;
  uni_ccc := uni_ccc Ascii7.db
|}.

(** [romanian_db] extended with the decomposition of é (e and the
    combining acute accent, of class 230). *)
Definition accented_db : unicode_db := {|
  uni_isword := uni_isword romanian_db;
  uni_isspace := uni_isspace romanian_db;
  uni_decimal := uni_decimal romanian_db;
  uni_lower_at := uni_lower_at romanian_db;
  uni_decomp c := if (c =? 0x00e9)%N then [101; 0x0301]%N else uni_decomp romanian_db c;
  uni_ccc c := if (c =? 0x0301)%N then 230%N else uni_ccc romanian_db c
|}.

Definition slice (i j : nat) (s : str) : str := take (j - i) (drop i s).

Definition ascii_int (s : str) : option Z :=
  match s with
  | [] => None
  | _ => if forallb Ascii7.isdigit s then digits_value Ascii7.db 0 s else None
  end.

Definition result_to_option {A} (r : result A) : option A :=
  match r with
  | Ok a => Some a
  | Raise _ => None
  end.

(** [+HH:MM] or [-HH:MM], in microseconds. *)
Definition basic_offset (s : str) : option Z :=
  match s with
  | sign :: rest =>
      sg ← (if (sign =? 43)%N then Some 1%Z
            else if (sign =? 45)%N then Some (-1)%Z else None);
      _ ← guard (length rest = 5 ∧ rest !! 2 = Some 58%N);
      oh ← ascii_int (slice 0 2 rest);
      om ← ascii_int (slice 3 5 rest);
      Some (sg * ((oh * 3600 + om * 60) * 1000000))%Z
  | [] => None
  end.

(** [datetime.fromisoformat] on the layouts [isoformat()] writes without
    a fraction: [YYYY-MM-DD], [YYYY-MM-DD?HH:MM:SS] and
    [YYYY-MM-DD?HH:MM:SS+HH:MM]; other text is refused. *)
Definition fromisoformat_basic (s : str) : option datetime :=
  y ← ascii_int (slice 0 4 s);
  _ ← guard (s !! 4%nat = Some 45%N ∧ s !! 7%nat = Some 45%N);
  m ← ascii_int (slice 5 7 s);
  d ← ascii_int (slice 8 10 s);
  if decide (length s = 10%nat) then result_to_option (DT.of_ymd y m d)
  else
    _ ← guard (19 ≤ length s ∧ s !! 13%nat = Some 58%N ∧ s !! 16%nat = Some 58%N);
    hh ← ascii_int (slice 11 13 s);
    mm ← ascii_int (slice 14 16 s);
    ss ← ascii_int (slice 17 19 s);
    tz ← (match drop 19 s with
          | [] => Some None
          | off => Some <$> basic_offset off
          end);
    result_to_option (DT.new y m d hh mm ss 0 tz).

(** A clock started at [t0] whose [n]-th reading is [n] microseconds
    later (within the same second). *)
Definition ticking_clock (t0 : datetime) (n : nat) : datetime :=
  DT.mk (DT.year t0) (DT.month t0) (DT.day t0) (DT.hour t0) (DT.minute t0)
        (DT.second t0) (DT.microsecond t0 + Z.of_nat n) None.

Definition frozen_clock (t0 : datetime) (n : nat) : datetime := t0.

Definition empty_db : seen_data := {| funding := ∅; last_updated := None |}.

Definition scraped (fund_id ttl desc : string) (dd : pyval) : opportunity :=
  {| item_id := u fund_id; title := u ttl; url := u "https://x.ro/a";
     deadline := None; deadline_date := Some dd; source := u "finantare_ro";
     description := Some (u desc);
     matched_keywords := None; is_high_priority := None; closing_soon := None |}.

Definition with_deadline_date (f : opportunity) (dd : option pyval) : opportunity :=
  {| item_id := item_id f; title := title f; url := url f;
     deadline := deadline f; deadline_date := dd; source := source f;
     description := description f;
     matched_keywords := matched_keywords f;
     is_high_priority := is_high_priority f;
     closing_soon := closing_soon f |}.

Definition at_time (y m d hh mm : Z) : datetime := DT.mk y m d hh mm 0 0 None.

Definition item_ong : opportunity :=
  scraped "finantare_ro_0123456789ab" "Granturi pentru ONG-uri mici" "" PyNone.

Definition item_festival : opportunity :=
  scraped "afcn_89abcdef0123" "Festival local" "eveniment cultural" PyNone.

Definition item_steam : opportunity :=
  scraped "fdsc_456789abcdef" "Apel de proiecte STEAM pentru elevi" ""
          (PyDatetime (at_time 2026 11 18 0 0)).

Definition item_general : opportunity :=
  scraped "ngohub_cdef01234567" "Anunt general" "" PyNone.

(** The first item under a new title, as a later scrape may find it. *)
Definition item_ong_retitled : opportunity :=
  scraped "finantare_ro_0123456789ab" "Granturi pentru tineri si elevi" ""
          (PyDatetime (at_time 2026 12 1 0 0)).

Definition clock_nov4 : nat -> datetime := ticking_clock (at_time 2026 11 4 10 0).

Definition fresh_world : world := {| seen := empty_db; ticks := 0 |}.

Definition old_record : seen_record :=
  snapshot item_ong [u "ong"; u "granturi"] (at_time 2026 10 1 9 30).

Definition world_with_ong : world :=
  {| seen := {| funding := {[ item_id item_ong := old_record ]};
                last_updated := Some (at_time 2026 10 1 9 30) |};
     ticks := 0 |}.

Definition always_delivered (item : opportunity) (kws : list str) : bool := true.

Definition never_delivered (item : opportunity) (kws : list str) : bool := false.

(** An item whose deadline carries a UTC offset of two hours. *)
Definition item_aware : opportunity :=
  scraped "fdsc_0f1e2d3c4b5a" "Granturi pentru scoli" ""
          (PyDatetime (DT.mk 2026 11 10 0 0 0 0 (Some 7200000000%Z))).

(** * Verified properties *)

(** ** The clock and [is_closing_soon] *)

Section ClosingSoon.
Context (fromisoformat : str -> option datetime) (clock : nat -> datetime).

Local Open Scope Z_scope.

Lemma to_us_naive t : DT.to_us (naive t) = DT.to_us t.
Proof. reflexivity. Qed.

Lemma sub_naive d t :
  DT.utcoffset d = None ->
  DT.sub d (naive t) = Ok (DT.td_of_total (DT.to_us d - DT.to_us t)).
Proof.
  intros Hd. unfold DT.sub. rewrite Hd. cbn [DT.utcoffset naive].
  do 2 f_equal. unfold DT.td_new, DT.to_us, DT.td_total, DT.toordinal.
  cbn [DT.year DT.month DT.day DT.hour DT.minute DT.second DT.microsecond naive].
  f_equal. ring.
Qed.

Lemma sub_mixed d t :
  is_Some (DT.utcoffset d) -> DT.sub d (naive t) = Raise TypeError.
Proof. intros [o Ho]. unfold DT.sub. rewrite Ho. reflexivity. Qed.

Lemma whole_days_window x :
  (0 <=? x / DT.us_per_day) && (x / DT.us_per_day <=? 14) = true
  <-> 0 <= x < 15 * DT.us_per_day.
Proof.
  unfold DT.us_per_day.
  pose proof (Z.div_mod x (86400 * 1000000) ltac:(lia)) as Hdm.
  pose proof (Z.mod_pos_bound x (86400 * 1000000) ltac:(lia)) as Hb.
  rewrite andb_true_iff, !Z.leb_le. lia.
Qed.

Lemma within_14_days_naive d w :
  DT.utcoffset d = None ->
  within_14_days clock d w =
    (Ok ((0 <=? (DT.to_us d - DT.to_us (clock (ticks w))) / DT.us_per_day)
         && ((DT.to_us d - DT.to_us (clock (ticks w))) / DT.us_per_day <=? 14)),
     {| seen := seen w; ticks := S (ticks w) |}).
Proof.
  intros Hd. unfold within_14_days, mbind, now, lift, mret.
  rewrite (sub_naive _ _ Hd). reflexivity.
Qed.

Lemma within_14_days_aware d w :
  is_Some (DT.utcoffset d) ->
  within_14_days clock d w =
    (Raise TypeError, {| seen := seen w; ticks := S (ticks w) |}).
Proof.
  intros Hd. unfold within_14_days, mbind, now, lift.
  rewrite (sub_mixed _ _ Hd). reflexivity.
Qed.

Lemma within_14_days_seen d w : seen (within_14_days clock d w).2 = seen w.
Proof.
  destruct (DT.utcoffset d) as [o|] eqn:Ho.
  - rewrite within_14_days_aware by (rewrite Ho; eauto). reflexivity.
  - rewrite within_14_days_naive by done. reflexivity.
Qed.

(** [is_closing_soon] never touches the database. *)
Lemma is_closing_soon_seen f w :
  seen (is_closing_soon fromisoformat clock f w).2 = seen w.
Proof.
  unfold is_closing_soon.
  destruct (deadline_date f) as [[|d|[|c s]]|]; try reflexivity.
  - apply within_14_days_seen.
  - destruct (fromisoformat (c :: s)); [apply within_14_days_seen | reflexivity].
Qed.

(** C3 (as amended).  For a deadline that is a naive datetime,
    [is_closing_soon] returns, and returns true exactly when the whole
    number of days from the clock reading to the deadline is between 0
    and 14, that is when [now <= deadline < now + 15 days]: a deadline
    exactly 14 days ahead is closing soon, one exactly 15 days ahead is
    not, and neither is one in the past. *)
Theorem closing_soon_whole_days (f : opportunity) (d : datetime) (w : world) :
  deadline_date f = Some (PyDatetime d) ->
  DT.utcoffset d = None ->
  let t := naive (clock (ticks w)) in
  exists b,
    (is_closing_soon fromisoformat clock f w).1 = Ok b
    /\ (b = true <-> DT.to_us t <= DT.to_us d < DT.to_us t + 15 * DT.us_per_day)
    /\ (DT.to_us d = DT.to_us t + 14 * DT.us_per_day -> b = true)
    /\ (DT.to_us d = DT.to_us t + 15 * DT.us_per_day -> b = false)
    /\ (DT.to_us d < DT.to_us t -> b = false).
Proof.
  intros Hf Hd t. unfold is_closing_soon. rewrite Hf.
  rewrite within_14_days_naive by done. cbn [fst].
  eexists; split; [reflexivity|].
  subst t. rewrite to_us_naive.
  set (b := (_ && _)%bool).
  assert (Hb : b = true <->
    DT.to_us (clock (ticks w)) <= DT.to_us d
      < DT.to_us (clock (ticks w)) + 15 * DT.us_per_day).
  { subst b. rewrite whole_days_window. lia. }
  split; [exact Hb|].
  unfold DT.us_per_day in *.
  repeat split; intros He.
  - apply Hb. lia.
  - destruct b; [|done]. destruct Hb as [Hb _]. specialize (Hb eq_refl). lia.
  - destruct b; [|done]. destruct Hb as [Hb _]. specialize (Hb eq_refl). lia.
Qed.

(** C10.  [is_closing_soon] answers false, without raising and without
    reading the clock, when ['deadline_date'] is missing or [None] and
    when it is a string [fromisoformat] refuses; a string it accepts is
    treated exactly like the datetime it denotes. *)
Theorem is_closing_soon_malformed (f : opportunity) (w : world) :
  fromisoformat [] = None ->
  (deadline_date f = None \/ deadline_date f = Some PyNone ->
     is_closing_soon fromisoformat clock f w = (Ok false, w))
  /\ (forall s, deadline_date f = Some (PyStr s) -> fromisoformat s = None ->
        is_closing_soon fromisoformat clock f w = (Ok false, w))
  /\ (forall s d, deadline_date f = Some (PyStr s) -> fromisoformat s = Some d ->
        is_closing_soon fromisoformat clock f w =
        is_closing_soon fromisoformat clock
          (with_deadline_date f (Some (PyDatetime d))) w).
Proof.
  intros Hempty. unfold is_closing_soon. repeat split.
  - intros [-> | ->]; reflexivity.
  - intros s -> Hs. destruct s; [reflexivity|]. rewrite Hs. reflexivity.
  - intros s d -> Hs. destruct s; [congruence|]. rewrite Hs. reflexivity.
Qed.
End ClosingSoon.

(** C3, as first stated, fails: with the clock at 2026-11-04 10:00, a
    deadline of 2026-11-19 00:00 is 14 days and 14 hours ahead, outside
    the 14-day window, and is still closing soon. *)
Lemma closing_soon_beyond_14_days :
  let t := at_time 2026 11 4 10 0 in
  let d := at_time 2026 11 19 0 0 in
  (is_closing_soon fromisoformat_basic (frozen_clock t)
     (scraped "finantare_ro_0123456789ab" "Granturi pentru ONG" "" (PyDatetime d))
     {| seen := empty_db; ticks := 0 |}).1 = Ok true
  /\ ~ (DT.to_us t <= DT.to_us d <= DT.to_us t + 14 * DT.us_per_day)%Z.
Proof. split; [reflexivity | vm_compute; intros [_ H]; apply H; reflexivity]. Qed.

Lemma closing_soon_whole_days_witness :
  let t := at_time 2026 11 4 10 0 in
  let d := at_time 2026 11 18 10 0 in
  let f := scraped "finantare_ro_0123456789ab" "Granturi pentru ONG" "" (PyDatetime d) in
  let w := {| seen := empty_db; ticks := 0 |} in
  exists b,
    (is_closing_soon fromisoformat_basic (frozen_clock t) f w).1 = Ok b
    /\ (b = true <-> DT.to_us t <= DT.to_us d < DT.to_us t + 15 * DT.us_per_day)%Z
    /\ (DT.to_us d = DT.to_us t + 14 * DT.us_per_day -> b = true)%Z
    /\ (DT.to_us d = DT.to_us t + 15 * DT.us_per_day -> b = false)%Z
    /\ (DT.to_us d < DT.to_us t -> b = false)%Z.
Proof.
  intros t d f w.
  apply (closing_soon_whole_days fromisoformat_basic (frozen_clock t) f d w);
    reflexivity.
Defined.

Lemma is_closing_soon_malformed_witness :
  let f := scraped "finantare_ro_0123456789ab" "Granturi pentru ONG" ""
             (PyStr (u "la sfarsitul lunii")) in
  let w := {| seen := empty_db; ticks := 0 |} in
  is_closing_soon fromisoformat_basic (frozen_clock (at_time 2026 11 4 10 0)) f w
  = (Ok false, w).
Proof.
  intros f w.
  refine (proj1 (proj2 (is_closing_soon_malformed fromisoformat_basic
            (frozen_clock (at_time 2026 11 4 10 0)) f w _)) _ _ _);
    reflexivity.
Defined.

(** An ISO string with a UTC offset denotes an aware datetime, and
    subtracting the naive clock reading from it raises [TypeError]. *)
Example is_closing_soon_offset_string :
  (is_closing_soon fromisoformat_basic (frozen_clock (at_time 2026 11 4 10 0))
     (scraped "finantare_ro_0123456789ab" "Granturi pentru ONG" ""
        (PyStr (u "2026-11-10T12:30:00+02:00")))
     {| seen := empty_db; ticks := 0 |}).1 = Raise TypeError.
Proof. reflexivity. Qed.

(** ** The seen-state tracker *)

Section Tracker.
Context (U : unicode_db) (fromisoformat : str -> option datetime)
        (clock : nat -> datetime).

Local Abbreviation closing := (is_closing_soon fromisoformat clock).
Local Abbreviation loop := (process_loop U fromisoformat clock).
Local Abbreviation safe := (fun it => deadline_is_naive fromisoformat it = true).

Lemma process_loop_cons item rest nm am w :
  loop (item :: rest) nm am w =
  match match_keywords U item with
  | [] => loop rest nm am w
  | kws =>
      match closing item w with
      | (Raise e, w') => (Raise e, w')
      | (Ok cs, w') =>
          let item' := annotate item kws (any_high_priority kws) cs in
          match funding (seen w') !! item_id item with
          | Some _ => loop rest nm (am ++ [item']) w'
          | None => loop rest (nm ++ [item']) (am ++ [item']) (record_new clock item kws w')
          end
      end
  end.
Proof.
  cbn [process_loop]. destruct (match_keywords U item) as [|k ks]; [done|].
  unfold mbind at 1. destruct (closing item w) as [[cs|e] w']; [|done].
  unfold mbind at 1, get_funding at 1.
  destruct (funding (seen w') !! item_id item); reflexivity.
Qed.

Lemma is_closing_soon_safe f w :
  deadline_is_naive fromisoformat f = true ->
  exists cs w', closing f w = (Ok cs, w') /\ seen w' = seen w.
Proof.
  unfold deadline_is_naive, is_closing_soon.
  destruct (deadline_date f) as [[|d|[|c s]]|]; intros H; eauto.
  - apply bool_decide_eq_true in H. rewrite within_14_days_naive by done. eauto.
  - destruct (fromisoformat (c :: s)) as [d|]; eauto.
    apply bool_decide_eq_true in H. rewrite within_14_days_naive by done. eauto.
Qed.

Lemma process_loop_app a b nm am w :
  loop (a ++ b) nm am w =
  match loop a nm am w with
  | (Ok r, w') => loop b r.1 r.2 w'
  | (Raise e, w') => (Raise e, w')
  end.
Proof.
  revert nm am w. induction a as [|item a IH]; intros nm am w; [done|].
  rewrite <- app_comm_cons, !process_loop_cons.
  destruct (match_keywords U item); [apply IH|].
  destruct (closing item w) as [[cs|e] w']; [|done].
  cbn zeta. destruct (funding (seen w') !! item_id item); apply IH.
Qed.

(** Whatever happens, a record that is in the database stays as it is. *)
Lemma process_loop_keeps items nm am w fid r :
  funding (seen w) !! fid = Some r ->
  funding (seen (loop items nm am w).2) !! fid = Some r.
Proof.
  revert nm am w. induction items as [|item rest IH]; intros nm am w Hr; [done|].
  rewrite process_loop_cons.
  destruct (match_keywords U item) as [|k ks]; [by apply IH|].
  pose proof (is_closing_soon_seen fromisoformat clock item w) as Hs.
  destruct (closing item w) as [[cs|e] w']; cbn [snd] in Hs.
  - cbn zeta. destruct (funding (seen w') !! item_id item) eqn:Hl.
    + apply IH. by rewrite Hs.
    + apply IH. unfold record_new; cbn [seen funding].
      rewrite lookup_insert_ne; [by rewrite Hs|].
      intros <-. rewrite Hs in Hl. congruence.
  - cbn. by rewrite Hs.
Qed.

(** An item that matches no keyword leaves no trace. *)
Lemma process_loop_skip pre item post nm am w :
  match_keywords U item = [] ->
  loop (pre ++ item :: post) nm am w = loop (pre ++ post) nm am w.
Proof.
  intros Hm. rewrite !process_loop_app.
  destruct (loop pre nm am w) as [[r|e] w']; [|done].
  rewrite process_loop_cons, Hm. done.
Qed.

Lemma matching_nil it : match_keywords U it = [] -> matching U it = false.
Proof. unfold matching. by intros ->. Qed.

Lemma matching_cons it k ks : match_keywords U it = k :: ks -> matching U it = true.
Proof. unfold matching. by intros ->. Qed.

Lemma filter_matching_cons it l :
  List.filter (matching U) (it :: l) =
  if matching U it then it :: List.filter (matching U) l
  else List.filter (matching U) l.
Proof. reflexivity. Qed.

Lemma classified_cons it k ks cs :
  match_keywords U it = k :: ks ->
  classified U it (annotate it (k :: ks) (any_high_priority (k :: ks)) cs).
Proof. intros H. exists cs. by rewrite H. Qed.

(** The loop on items whose deadlines are naive: it returns, the
    matching items are appended in order, the new ones among them, and
    the database changes only by first sightings. *)
Lemma process_loop_returns items nm am w :
  Forall safe items ->
  exists dn da w',
    loop items nm am w = (Ok (nm ++ dn, am ++ da), w')
    /\ Forall2 (classified U) (List.filter (matching U) items) da
    /\ dn `sublist_of` da
    /\ last_updated (seen w') = last_updated (seen w)
    /\ (forall fid,
          funding (seen w') !! fid = funding (seen w) !! fid
          \/ (funding (seen w) !! fid = None
              /\ exists it, it ∈ items /\ matching U it = true /\ item_id it = fid))
    /\ (forall it, it ∈ items -> matching U it = true ->
          is_Some (funding (seen w') !! item_id it)).
Proof.
  intros Hsafe. revert nm am w.
  induction Hsafe as [|item rest Hitem Hrest IH]; intros nm am w.
  { exists [], [], w. rewrite !app_nil_r. repeat split; eauto; try constructor.
    intros it Hin. by apply elem_of_nil in Hin. }
  rewrite process_loop_cons, filter_matching_cons.
  destruct (match_keywords U item) as [|k ks] eqn:Hkw.
  { rewrite (matching_nil _ Hkw).
    destruct (IH nm am w) as (dn & da & w' & -> & H1 & H2 & H3 & H4 & H5).
    exists dn, da, w'. repeat split; try done.
    - intros fid. destruct (H4 fid) as [?|(? & it & ? & ? & ?)]; [by left|].
      right. split; [done|]. exists it. by rewrite elem_of_cons; eauto.
    - intros it [->|Hin]%elem_of_cons Hm; [|by apply H5].
      by rewrite (matching_nil _ Hkw) in Hm. }
  rewrite (matching_cons _ _ _ Hkw).
  destruct (is_closing_soon_safe item w Hitem) as (cs & w1 & -> & Hs).
  cbn zeta. set (o := annotate item (k :: ks) (any_high_priority (k :: ks)) cs).
  pose proof (classified_cons item k ks cs Hkw) as Ho. fold o in Ho.
  pose proof (matching_cons _ _ _ Hkw) as Hmatch.
  destruct (funding (seen w1) !! item_id item) as [r|] eqn:Hl.
  - destruct (IH nm (am ++ [o]) w1) as (dn & da & w' & Heq & H1 & H2 & H3 & H4 & H5).
    exists dn, (o :: da), w'. rewrite Heq, <- app_assoc. repeat split; try done.
    + by constructor.
    + by apply sublist_cons.
    + by rewrite H3, Hs.
    + intros fid. rewrite <- Hs. destruct (H4 fid) as [?|(? & it & ? & ? & ?)]; [by left|].
      right. split; [done|]. exists it. by rewrite elem_of_cons; eauto.
    + intros it [->|Hin]%elem_of_cons Hm; [|by apply H5].
      pose proof (process_loop_keeps rest nm (am ++ [o]) w1 _ _ Hl) as Hk.
      rewrite Heq in Hk. eauto.
  - destruct (IH (nm ++ [o]) (am ++ [o]) (record_new clock item (k :: ks) w1))
      as (dn & da & w' & Heq & H1 & H2 & H3 & H4 & H5).
    exists (o :: dn), (o :: da), w'. rewrite Heq, <- !app_assoc. repeat split; try done.
    + by constructor.
    + by apply sublist_skip.
    + rewrite H3. unfold record_new; cbn [seen last_updated]. by rewrite Hs.
    + intros fid. rewrite <- Hs.
      destruct (decide (fid = item_id item)) as [->|Hne].
      * right. split; [done|]. exists item. by rewrite elem_of_cons; eauto.
      * destruct (H4 fid) as [Hsame|(Hnone & it & ? & ? & ?)].
        -- left. rewrite Hsame. unfold record_new; cbn [seen funding].
           by rewrite lookup_insert_ne.
        -- right. unfold record_new in Hnone; cbn [seen funding] in Hnone.
           rewrite lookup_insert_ne in Hnone by done.
           split; [done|]. exists it. by rewrite elem_of_cons; eauto.
    + intros it [->|Hin]%elem_of_cons Hm; [|by apply H5].
      pose proof (process_loop_keeps rest (nm ++ [o]) (am ++ [o])
                    (record_new clock item (k :: ks) w1) (item_id item)
                    (snapshot item (k :: ks) (naive (clock (ticks w1))))) as Hk.
      rewrite Heq in Hk. eapply mk_is_Some, Hk.
      unfold record_new; cbn [seen funding]. by rewrite lookup_insert_eq.
Qed.
End Tracker.

Lemma foldl_delete_lookup (old : list str) (m : gmap str seen_record) fid :
  foldl (fun m fid => delete fid m) m old !! fid =
  if bool_decide (fid ∈ old) then None else m !! fid.
Proof.
  revert m. induction old as [|a old IH]; intros m; [done|].
  cbn [foldl]. rewrite IH.
  destruct (decide (fid = a)) as [->|Hne].
  - rewrite lookup_delete_eq.
    rewrite (bool_decide_eq_true_2 (a ∈ (a :: old))) by (by left).
    by case_bool_decide.
  - rewrite lookup_delete_ne by done.
    destruct (decide (fid ∈ old)) as [Hin|Hnin].
    + rewrite !bool_decide_eq_true_2; try done. by right.
    + rewrite !bool_decide_eq_false_2; try done.
      by intros [?|?]%elem_of_cons.
Qed.

(** Pruning keeps exactly the records whose id was scraped this run. *)
Lemma cleanup_old_funding_lookup current_ids w fid :
  funding (seen (cleanup_old_funding current_ids w).2) !! fid =
  if bool_decide (fid ∈ current_ids) then funding (seen w) !! fid else None.
Proof.
  unfold cleanup_old_funding, mbind, get_funding, put_funding, mret.
  cbn [fst snd seen funding]. rewrite foldl_delete_lookup.
  set (old := List.filter _ _).
  assert (Hold : fid ∈ old <-> (fid ∉ current_ids) /\ is_Some (funding (seen w) !! fid)).
  { subst old. rewrite list_elem_of_In, filter_In, <- list_elem_of_In.
    rewrite elem_of_elements, elem_of_dom, bool_decide_eq_true. tauto. }
  destruct (decide (fid ∈ current_ids)) as [Hin|Hnin].
  - rewrite (bool_decide_eq_true_2 _ Hin), bool_decide_eq_false_2; [done|].
    rewrite Hold. tauto.
  - rewrite (bool_decide_eq_false_2 _ Hnin).
    destruct (funding (seen w) !! fid) as [r|] eqn:Hr.
    + rewrite bool_decide_eq_true_2; [done|]. apply Hold. eauto.
    + by case_bool_decide.
Qed.

Lemma cleanup_old_funding_returns current_ids w :
  exists n w', cleanup_old_funding current_ids w = (Ok n, w')
    /\ ticks w' = ticks w /\ last_updated (seen w') = last_updated (seen w).
Proof. unfold cleanup_old_funding, mbind, get_funding, put_funding, mret. eauto. Qed.

Section TrackerRuns.
Context (U : unicode_db) (fromisoformat : str -> option datetime)
        (clock : nat -> datetime).

Local Abbreviation closing := (is_closing_soon fromisoformat clock).
Local Abbreviation loop := (process_loop U fromisoformat clock).
Local Abbreviation safe := (fun it => deadline_is_naive fromisoformat it = true).


(** Items whose matching members are all in the database already:
    nothing is new and the database is left alone. *)
Lemma process_loop_all_seen items nm am w :
  Forall safe items ->
  (forall it, it ∈ items -> matching U it = true ->
     is_Some (funding (seen w) !! item_id it)) ->
  exists da w',
    loop items nm am w = (Ok (nm, am ++ da), w') /\ seen w' = seen w.
Proof.
  intros Hsafe. revert nm am w.
  induction Hsafe as [|item rest Hitem Hrest IH]; intros nm am w Hseen.
  { exists [], w. by rewrite app_nil_r. }
  rewrite process_loop_cons.
  destruct (match_keywords U item) as [|k ks] eqn:Hkw.
  { apply IH. intros it Hin. apply Hseen. by right. }
  destruct (is_closing_soon_safe fromisoformat clock item w Hitem) as (cs & w1 & -> & Hs).
  cbn zeta. rewrite Hs.
  destruct (Hseen item) as [r Hr]; [by left | by eapply matching_cons |].
  rewrite Hr.
  destruct (IH nm (am ++ [annotate item (k :: ks) (any_high_priority (k :: ks)) cs]) w1)
    as (da & w' & Heq & Hw).
  { intros it Hin. rewrite Hs. apply Hseen. by right. }
  eexists (_ :: da), w'. rewrite Heq, <- app_assoc. split; [done|]. by rewrite Hw.
Qed.

(** [main], unfolded after [process_funding] has returned. *)
Lemma main_after_process send items w r w1 :
  process_funding U fromisoformat clock items w = (Ok r, w1) ->
  exists removed w2,
    main U fromisoformat clock send items w =
      (Ok {| run_new_matching := r.1;
             run_all_matching := r.2;
             run_notified := (fun item => (item, default [] (matched_keywords item))) <$> r.1;
             run_notification_count :=
               length (List.filter (fun c => send c.1 c.2)
                 ((fun item => (item, default [] (matched_keywords item))) <$> r.1));
             run_removed := removed;
             run_dashboard := r.2 |}, w2)
    /\ funding (seen w2) =
       funding (seen (cleanup_old_funding (list_to_set (item_id <$> items)) w1).2).
Proof.
  intros Hp. unfold main. unfold mbind at 1. rewrite Hp.
  unfold cleanup_old_funding, mbind, get_funding, put_funding, put_last_updated,
    now, mret. cbn [fst snd seen funding ticks]. eauto.
Qed.

Lemma main_raises send items w e w1 :
  process_funding U fromisoformat clock items w = (Raise e, w1) ->
  main U fromisoformat clock send items w = (Raise e, w1).
Proof. intros Hp. unfold main. unfold mbind at 1. by rewrite Hp. Qed.
End TrackerRuns.

(** ** The tracker: first sightings, immutability, discarded items *)

Section TrackerProperties.
Context (U : unicode_db) (fromisoformat : str -> option datetime)
        (clock : nat -> datetime).

Local Abbreviation safe := (fun it => deadline_is_naive fromisoformat it = true).

Lemma matching_true_inv it :
  matching U it = true -> exists k ks, match_keywords U it = k :: ks.
Proof. unfold matching. destruct (match_keywords U it); [done | eauto]. Qed.

Lemma match_keywords_annotate it kws hp cs :
  match_keywords U (annotate it kws hp cs) = match_keywords U it.
Proof. unfold match_keywords. cbn [title description annotate]. reflexivity. Qed.

Lemma classified_matching it o :
  classified U it o -> matching U o = matching U it.
Proof. intros [cs ->]. unfold matching. by rewrite match_keywords_annotate. Qed.


(** C8.  A record already in the database is never rewritten: whatever
    items are processed, and whatever their titles, deadlines or
    keywords, the record stored under an id stays the same; a whole run
    keeps it as it is as long as the id is among the scraped ones. *)
Theorem seen_record_immutable (items : list opportunity) (w : world)
    (fid : str) (r : seen_record) :
  funding (seen w) !! fid = Some r ->
  funding (seen (process_funding U fromisoformat clock items w).2) !! fid = Some r
  /\ (forall send, fid ∈ item_id <$> items ->
        funding (seen (main U fromisoformat clock send items w).2) !! fid = Some r).
Proof.
  intros Hr.
  pose proof (process_loop_keeps U fromisoformat clock items [] [] w fid r Hr) as Hk.
  split; [exact Hk|]. intros send Hin. fold (process_funding U fromisoformat clock items w) in Hk.
  destruct (process_funding U fromisoformat clock items w) as [[res|e] w1] eqn:Hp.
  - destruct (main_after_process U fromisoformat clock send items w res w1 Hp)
      as (removed & w2 & -> & Hf).
    cbn [snd] in Hk |- *. rewrite Hf, cleanup_old_funding_lookup.
    rewrite bool_decide_eq_true_2; [done|]. by apply elem_of_list_to_set.
  - rewrite (main_raises U fromisoformat clock send items w e w1 Hp). exact Hk.
Qed.


(** C6.  An item that matches no keyword is discarded: the run goes as
    if the item had not been scraped, the item is in neither result
    list, it is not handed to the notifier nor to the dashboard, and no
    record appears under its id on its account. *)
Theorem unmatched_item_discarded (send : opportunity -> list str -> bool)
    (pre post : list opportunity) (item : opportunity) (w : world) :
  match_keywords U item = [] ->
  Forall safe (pre ++ item :: post) ->
  process_funding U fromisoformat clock (pre ++ item :: post) w
  = process_funding U fromisoformat clock (pre ++ post) w
  /\ exists r w',
       main U fromisoformat clock send (pre ++ item :: post) w = (Ok r, w')
       /\ Forall (fun o => matching U o = true) (run_all_matching r)
       /\ run_new_matching r `sublist_of` run_all_matching r
       /\ (run_notified r).*1 = run_new_matching r
       /\ run_dashboard r = run_all_matching r
       /\ (item ∉ run_all_matching r)
       /\ (item ∉ run_new_matching r)
       /\ (item ∉ (run_notified r).*1)
       /\ (funding (seen w) !! item_id item = None ->
           (forall p, p ∈ pre ++ post -> matching U p = true ->
              item_id p <> item_id item) ->
           funding (seen w') !! item_id item = None).
Proof.
  intros Hkw Hsafe. split; [by apply process_loop_skip|].
  destruct (process_loop_returns U fromisoformat clock _ [] [] w Hsafe)
    as (new & all & w1 & Heq & Hall & Hsub & _ & Hkeys & _).
  cbn [app] in Heq.
  destruct (main_after_process U fromisoformat clock send _ w _ w1 Heq)
    as (removed & w2 & -> & Hf).
  eexists _, w2. split; [reflexivity|]. cbn [run_all_matching run_new_matching
    run_notified run_dashboard fst snd].
  assert (Hm : Forall (fun o => matching U o = true) all).
  { clear -Hall. remember (List.filter (matching U) (pre ++ item :: post)) as l eqn:Hl.
    assert (Hl' : Forall (fun it => matching U it = true) l).
    { subst l. apply Forall_forall. intros x Hx.
      apply list_elem_of_In, filter_In in Hx. tauto. }
    clear Hl. induction Hall as [|it o l da Hc _ IH]; [constructor|].
    apply Forall_cons in Hl' as [Hit Hl']. constructor; [|by apply IH].
    by rewrite (classified_matching it o Hc). }
  assert (Hnotin : item ∉ all).
  { intros Hin. rewrite Forall_forall in Hm. specialize (Hm _ Hin).
    by rewrite (matching_nil U _ Hkw) in Hm. }
  assert (Hfst : ((fun it : opportunity => (it, default [] (matched_keywords it))) <$> new).*1 = new).
  { rewrite <- list_fmap_compose. clear. induction new as [|x l IH]; [done|].
    cbn. by rewrite IH. }
  repeat split; try done.
  - intros Hin. apply Hnotin. by eapply elem_of_sublist.
  - rewrite Hfst. intros Hin. apply Hnotin. by eapply elem_of_sublist.
  - intros Hnone Hothers. rewrite Hf, cleanup_old_funding_lookup.
    case_bool_decide; [|done].
    destruct (Hkeys (item_id item)) as [->|(_ & p & Hin & Hpm & Hid)]; [done|].
    apply elem_of_app in Hin as [Hin|[->|Hin]%elem_of_cons].
    + destruct (Hothers p); [set_solver|done..].
    + by rewrite (matching_nil U _ Hkw) in Hpm.
    + destruct (Hothers p); [set_solver|done..].
Qed.
End TrackerProperties.

(** ** The tracker on a concrete run *)

Lemma seen_record_immutable_witness :
  funding (seen (process_funding Ascii7.db fromisoformat_basic clock_nov4
                   [item_ong_retitled; item_steam] world_with_ong).2)
    !! item_id item_ong = Some old_record
  /\ (forall send, item_id item_ong ∈ item_id <$> [item_ong_retitled; item_steam] ->
        funding (seen (main Ascii7.db fromisoformat_basic clock_nov4 send
                         [item_ong_retitled; item_steam] world_with_ong).2)
          !! item_id item_ong = Some old_record).
Proof.
  apply (seen_record_immutable Ascii7.db fromisoformat_basic clock_nov4
           [item_ong_retitled; item_steam] world_with_ong (item_id item_ong) old_record).
  vm_compute. reflexivity.
Defined.


Lemma unmatched_item_discarded_witness :
  process_funding Ascii7.db fromisoformat_basic clock_nov4
    ([item_ong] ++ item_general :: [item_steam]) fresh_world
  = process_funding Ascii7.db fromisoformat_basic clock_nov4
      ([item_ong] ++ [item_steam]) fresh_world.
Proof.
  refine (proj1 (unmatched_item_discarded Ascii7.db fromisoformat_basic clock_nov4
                   always_delivered [item_ong] [item_steam] item_general fresh_world _ _)).
  - vm_compute. reflexivity.
  - repeat constructor.
Defined.

(** ** Facts about the matcher *)

Lemma prev_after_nil prev : prev_after prev [] = prev.
Proof. reflexivity. Qed.

Lemma prev_after_cons prev c s : prev_after prev (c :: s) = prev_after (Some c) s.
Proof. unfold prev_after. rewrite last_cons. by destruct (last s). Qed.

Lemma prev_after_app prev a b : prev_after prev (a ++ b) = prev_after (prev_after prev a) b.
Proof.
  revert prev. induction a as [|c a IH]; intros prev; [done|].
  by rewrite <- app_comm_cons, !prev_after_cons, IH.
Qed.

Lemma consume_all_nil s : consume_all s [] = [].
Proof. induction s as [|c s IH]; [done|]. exact IH. Qed.

Section RegexFacts.
Context (U : unicode_db).

Lemma rmatch_escape_app kw prev post opens caps k :
  rmatch U (re_escape kw) prev (kw ++ post) opens caps k
  = k (prev_after prev kw) post (consume_all kw opens) caps.
Proof.
  revert prev opens. induction kw as [|c kw IH]; intros prev opens; [done|].
  cbn [re_escape foldr rmatch app cset_mem]. rewrite N.eqb_refl.
  fold (re_escape kw). rewrite IH. by rewrite prev_after_cons.
Qed.

Lemma rmatch_escape_inv kw prev s opens caps k x :
  rmatch U (re_escape kw) prev s opens caps k = Some x ->
  exists post, s = kw ++ post
    /\ k (prev_after prev kw) post (consume_all kw opens) caps = Some x.
Proof.
  revert prev s opens. induction kw as [|c kw IH]; intros prev s opens H.
  { exists s. by split. }
  cbn [re_escape foldr rmatch cset_mem] in H. fold (re_escape kw) in H.
  destruct s as [|c' s]; [done|].
  destruct (N.eqb_spec c' c) as [->|]; [|done].
  apply IH in H as (post & -> & H). exists post. split; [done|].
  by rewrite prev_after_cons.
Qed.

Lemma search_from_is_Some r prev s :
  is_Some (search_from U r prev s) <->
  exists a b, s = a ++ b /\ is_Some (rmatch U r (prev_after prev a) b [] [] accept).
Proof.
  revert prev. induction s as [|c s IH]; intros prev.
  - cbn [search_from]. split.
    + intros H. exists [], []. split; [done|]. rewrite prev_after_nil.
      destruct (rmatch U r prev [] [] [] accept); [eauto|]. by destruct H.
    + intros (a & b & Hab & H). symmetry in Hab. apply app_eq_nil in Hab as [-> ->].
      rewrite prev_after_nil in H. destruct H as [x ->]. eauto.
  - cbn [search_from]. split.
    + intros H. destruct (rmatch U r prev (c :: s) [] [] accept) as [x|] eqn:Hm.
      * exists [], (c :: s). split; [done|]. rewrite prev_after_nil, Hm. eauto.
      * apply IH in H as (a & b & -> & H). exists (c :: a), b.
        split; [done|]. by rewrite prev_after_cons.
    + intros (a & b & Hab & H). destruct a as [|c' a].
      * cbn [app] in Hab. subst b. rewrite prev_after_nil in H.
        destruct H as [x ->]. eauto.
      * injection Hab as <- ->. rewrite prev_after_cons in H.
        destruct (rmatch U r prev (c :: a ++ b) [] [] accept); [eauto|].
        apply IH. eauto.
Qed.

(** The keyword pattern at one position. *)
Lemma keyword_pattern_at kw prev b :
  word_at U (head kw) = true ->
  word_at U (last kw) = true ->
  is_Some (rmatch U (Cat Bnd (Cat (re_escape kw) Bnd)) prev b [] [] accept)
  <-> word_at U prev = false
      /\ exists post, b = kw ++ post /\ word_at U (head post) = false.
Proof.
  intros Hh Hl.
  assert (Hne : exists c kw', kw = c :: kw').
  { destruct kw; [done|eauto]. }
  assert (Hlast : forall p, word_at U (prev_after p kw) = true).
  { intros p. unfold prev_after. by destruct (last kw). }
  cbn [rmatch]. split.
  - destruct (at_boundary U prev b) eqn:Hb; [|by intros [? ?]].
    intros [x Hx]. apply rmatch_escape_inv in Hx as (post & -> & Hx).
    destruct (at_boundary U (prev_after prev kw) post) eqn:Hb2; [|done].
    unfold at_boundary in Hb, Hb2. rewrite Hlast in Hb2.
    destruct Hne as (c & kw' & ->). cbn [app head] in Hb. cbn [head] in Hh.
    rewrite Hh in Hb. split.
    + by destruct (word_at U prev).
    + exists post. split; [done|]. by destruct (word_at U (head post)).
  - intros (Hp & post & -> & Hpost).
    assert (Hb : at_boundary U prev (kw ++ post) = true).
    { unfold at_boundary. destruct Hne as (c & kw' & ->). cbn [app head] in *.
      by rewrite Hp, Hh. }
    rewrite Hb, rmatch_escape_app. unfold at_boundary.
    rewrite Hlast, Hpost. cbn. eauto.
Qed.

Lemma elem_of_keywords_in kw text :
  kw ∈ keywords_in U text <->
  kw ∈ ALL_KEYWORDS /\ is_Some (re_search U (keyword_pattern U kw) text).
Proof.
  unfold keywords_in. rewrite list_elem_of_In, filter_In, <- list_elem_of_In.
  by rewrite bool_decide_eq_true.
Qed.

(** *** Lower-casing *)

Lemma lower_seg_app p a b q :
  lower_seg U p (a ++ b) q = lower_seg U p a (b ++ q) ++ lower_seg U (p ++ a) b q.
Proof.
  revert p. induction a as [|c a IH]; intros p.
  { by rewrite app_nil_r. }
  cbn [app lower_seg]. rewrite IH, <- !app_assoc. done.
Qed.

Lemma lower_seg_ascii p s q :
  ascii_faithful U -> ascii_str s -> lower_seg U p s q = Ascii7.lower <$> s.
Proof.
  intros HU Hs. revert p. induction Hs as [|c s Hc Hs IH]; intros p; [done|].
  cbn [lower_seg]. by rewrite (af_lower U HU), IH.
Qed.

Lemma lower_seg_last_nonword p a q :
  lower_regular U -> word_at U (last a) = false ->
  word_at U (last (lower_seg U p a q)) = false.
Proof.
  intros HL. destruct a as [|c a _] using rev_ind; [done|].
  rewrite last_snoc. cbn [word_at]. intros Hc.
  rewrite lower_seg_app. cbn [lower_seg]. rewrite app_nil_r.
  destruct (HL (p ++ a) c ([] ++ q)) as [Hne Hall]. specialize (Hall Hc).
  destruct (uni_lower_at U (p ++ a) c ([] ++ q)) as [|d l _] using rev_ind; [done|].
  rewrite app_assoc, last_snoc. cbn [word_at].
  rewrite Forall_app, Forall_singleton in Hall. by destruct Hall.
Qed.

Lemma lower_seg_head_nonword p a q :
  lower_regular U -> word_at U (head a) = false ->
  word_at U (head (lower_seg U p a q)) = false.
Proof.
  intros HL. destruct a as [|c a]; [done|]. cbn [head word_at lower_seg]. intros Hc.
  destruct (HL p c (a ++ q)) as [Hne Hall]. specialize (Hall Hc).
  destruct (uni_lower_at U p c (a ++ q)) as [|d l]; [done|].
  cbn [app head word_at]. by apply Forall_cons in Hall as [Hd _].
Qed.
End RegexFacts.

(** ** A faithful database on ASCII text

    On ASCII text every database that is faithful on ASCII behaves like
    [Ascii7.db], on which the definitions evaluate. *)

Lemma ascii7_faithful : ascii_faithful Ascii7.db.
Proof.
  split; cbn [Ascii7.db uni_isword uni_isspace uni_decimal uni_lower_at].
  - by intros c ->.
  - by intros c ->.
  - done.
  - done.
Qed.

Lemma ascii_str_forallb s : forallb is_ascii s = true -> ascii_str s.
Proof.
  intros H. apply Forall_forall. intros c Hc.
  rewrite forallb_forall in H. apply H. by apply list_elem_of_In.
Qed.

Lemma ascii_lower_is_ascii c : is_ascii c = true -> is_ascii (Ascii7.lower c) = true.
Proof.
  unfold is_ascii, Ascii7.lower, Ascii7.isupper, Ascii7.in_range.
  intros H%N.ltb_lt. destruct (_ && _) eqn:Hu; apply N.ltb_lt; [|done].
  apply andb_true_iff in Hu as [_ Hu%N.leb_le]. lia.
Qed.

Lemma all_keywords_ok : forallb keyword_ok ALL_KEYWORDS = true.
Proof. vm_compute. reflexivity. Qed.

Lemma keyword_ok_elem kw : kw ∈ ALL_KEYWORDS -> keyword_ok kw = true.
Proof.
  intros Hin. pose proof all_keywords_ok as H. rewrite forallb_forall in H.
  apply H. by apply list_elem_of_In.
Qed.

Section Faithful.
Context (U : unicode_db) (HU : ascii_faithful U).

Lemma cset_mem_agree cs c :
  is_ascii c = true -> cset_mem U cs c = cset_mem Ascii7.db cs c.
Proof.
  intros Hc. destruct cs; cbn [cset_mem Ascii7.db uni_isword uni_isspace uni_decimal];
    rewrite ?(af_decimal U HU), ?(af_isspace U HU), ?(af_isword U HU), ?Hc by done; done.
Qed.

Lemma word_at_agree p : ascii_opt p -> word_at U p = word_at Ascii7.db p.
Proof.
  destruct p as [c|]; [|done]. cbn [ascii_opt word_at Ascii7.db uni_isword].
  intros Hc. by rewrite (af_isword U HU), Hc.
Qed.

Lemma ascii_opt_head s : ascii_str s -> ascii_opt (head s).
Proof. by intros [|c s' Hc _]. Qed.

Lemma at_boundary_agree p s :
  ascii_opt p -> ascii_str s -> at_boundary U p s = at_boundary Ascii7.db p s.
Proof.
  intros Hp Hs. unfold at_boundary.
  by rewrite !word_at_agree by (done || by apply ascii_opt_head).
Qed.

Lemma rep_greedy_agree cs lo hi p s opens caps k k' :
  ascii_opt p -> ascii_str s -> cont_agree k k' ->
  rep_greedy (cset_mem U cs) lo hi p s opens caps k
  = rep_greedy (cset_mem Ascii7.db cs) lo hi p s opens caps k'.
Proof.
  intros Hp Hs Hk. revert lo hi p opens Hp.
  induction Hs as [|c s Hc Hs IH]; intros lo hi p opens Hp.
  - cbn [rep_greedy]. destruct lo; [by apply Hk; [|constructor]|done].
  - cbn [rep_greedy]. rewrite (cset_mem_agree cs c Hc).
    rewrite (IH (Nat.pred lo) (Nat.pred <$> hi) (Some c) (consume c opens) Hc).
    rewrite (Hk p (c :: s) opens caps Hp) by (by constructor). done.
Qed.

Lemma rmatch_agree r p s opens caps k k' :
  ascii_opt p -> ascii_str s -> cont_agree k k' ->
  rmatch U r p s opens caps k = rmatch Ascii7.db r p s opens caps k'.
Proof.
  revert p s opens caps k k'.
  induction r as [|cs| |r1 IH1 r2 IH2|r1 IH1 r2 IH2|cs lo hi|r1 IH1];
    intros p s opens caps k k' Hp Hs Hk; cbn [rmatch].
  - by apply Hk.
  - destruct Hs as [|c s Hc Hs]; [done|].
    rewrite (cset_mem_agree cs c Hc). destruct (cset_mem Ascii7.db cs c); [|done].
    by apply Hk.
  - rewrite (at_boundary_agree p s Hp Hs). destruct (at_boundary _ p s); [|done].
    by apply Hk.
  - apply IH1; [done..|]. intros p' s' o' c' Hp' Hs'. by apply IH2.
  - rewrite (IH1 p s opens caps k k'), (IH2 p s opens caps k k'); done.
  - by apply rep_greedy_agree.
  - apply IH1; [done..|]. intros p' s' o' c' Hp' Hs'. by apply Hk.
Qed.

Lemma accept_agree : cont_agree accept accept.
Proof. by intros p s opens caps _ _. Qed.

Lemma re_match_agree r s :
  ascii_str s -> re_match U r s = re_match Ascii7.db r s.
Proof. intros Hs. by apply rmatch_agree; [| |apply accept_agree]. Qed.

Lemma search_from_agree r p s :
  ascii_opt p -> ascii_str s -> search_from U r p s = search_from Ascii7.db r p s.
Proof.
  intros Hp Hs. revert p Hp. induction Hs as [|c s Hc Hs IH]; intros p Hp.
  - cbn [search_from]. by rewrite (rmatch_agree r p [] [] [] accept accept)
      by (done || constructor || apply accept_agree).
  - cbn [search_from]. rewrite (rmatch_agree r p (c :: s) [] [] accept accept)
      by (done || by constructor || apply accept_agree).
    by rewrite (IH (Some c) Hc).
Qed.

Lemma re_search_agree r s :
  ascii_str s -> re_search U r s = re_search Ascii7.db r s.
Proof. intros Hs. by apply search_from_agree. Qed.

Lemma lower_ascii s : ascii_str s -> lower U s = Ascii7.lower <$> s.
Proof. intros Hs. by apply lower_seg_ascii. Qed.

Lemma lower_ascii_str s : ascii_str s -> ascii_str (Ascii7.lower <$> s).
Proof.
  intros Hs. apply Forall_fmap. eapply Forall_impl; [exact Hs|].
  intros c Hc. by apply ascii_lower_is_ascii.
Qed.

Lemma keyword_facts kw :
  kw ∈ ALL_KEYWORDS ->
  ascii_str kw /\ lower U kw = kw
  /\ word_at U (head kw) = true /\ word_at U (last kw) = true.
Proof.
  intros Hok%keyword_ok_elem. unfold keyword_ok in Hok.
  apply andb_true_iff in Hok as [Hok Hl]. apply andb_true_iff in Hok as [Hok Hh].
  apply andb_true_iff in Hok as [Ha Hlow]. apply bool_decide_eq_true in Hlow.
  apply ascii_str_forallb in Ha. split; [done|]. split.
  { by rewrite lower_ascii. }
  split.
  - destruct kw as [|c kw]; [done|]. cbn [head from_option word_at] in *.
    apply Forall_cons in Ha as [Hc _]. by rewrite (af_isword U HU).
  - destruct (last kw) as [c|] eqn:Hlast; [|done]. cbn [from_option word_at] in *.
    rewrite (af_isword U HU); [done|].
    unfold ascii_str in Ha. rewrite Forall_forall in Ha. apply Ha.
    by apply last_Some_elem_of.
Qed.

Lemma keywords_in_agree text :
  ascii_str text -> keywords_in U text = keywords_in Ascii7.db text.
Proof.
  intros Ht. unfold keywords_in. apply filter_ext_in. intros kw Hin%list_elem_of_In.
  unfold keyword_pattern.
  destruct (keyword_facts kw Hin) as (Ha & -> & _).
  rewrite re_search_agree by done.
  pose proof (keyword_ok_elem kw Hin) as Hok. unfold keyword_ok in Hok.
  apply andb_true_iff in Hok as [Hok _]. apply andb_true_iff in Hok as [Hok _].
  apply andb_true_iff in Hok as [_ Hlow]. apply bool_decide_eq_true in Hlow.
  unfold lower. cbn [Ascii7.db]. 
  rewrite (lower_seg_ascii Ascii7.db [] kw [] ascii7_faithful Ha), Hlow. done.
Qed.

(** On ASCII text [match_keywords] is the same under every faithful
    database. *)
Lemma match_keywords_agree f :
  ascii_str (searched_text f) ->
  match_keywords U f
  = keywords_in Ascii7.db (Ascii7.lower <$> searched_text f).
Proof.
  intros Ht. unfold match_keywords. fold (searched_text f).
  rewrite lower_ascii by done. apply keywords_in_agree. by apply lower_ascii_str.
Qed.
End Faithful.

Lemma ascii7_lower_regular : lower_regular Ascii7.db.
Proof.
  intros pre c post. cbn [Ascii7.db uni_lower_at uni_isword]. split; [done|].
  intros Hc. constructor; [|constructor]. unfold Ascii7.lower.
  destruct (Ascii7.isupper c) eqn:Hu; [|exact Hc]. exfalso.
  unfold Ascii7.isword in Hc. rewrite Hu, orb_true_r, andb_true_r in Hc.
  unfold Ascii7.isupper, Ascii7.in_range in Hu. unfold is_ascii in Hc.
  apply andb_true_iff in Hu as [_ Hu%N.leb_le]. apply N.ltb_ge in Hc. lia.
Qed.

Lemma ascii_of_lower c : is_ascii (Ascii7.lower c) = true -> is_ascii c = true.
Proof.
  unfold Ascii7.lower. destruct (Ascii7.isupper c) eqn:Hu; [|done]. intros _.
  unfold Ascii7.isupper, Ascii7.in_range in Hu. unfold is_ascii.
  apply andb_true_iff in Hu as [_ Hu%N.leb_le]. apply N.ltb_lt. lia.
Qed.

Lemma ascii_str_of_lower s : ascii_str (Ascii7.lower <$> s) -> ascii_str s.
Proof.
  induction s as [|c s IH]; [constructor|]. rewrite fmap_cons.
  intros [Hc Hs]%Forall_cons. constructor; [by apply ascii_of_lower | by apply IH].
Qed.

Lemma prev_after_None a : prev_after None a = last a.
Proof. unfold prev_after. by destruct (last a). Qed.

(** ** Keyword matching *)

Section Keywords.
Context (U : unicode_db) (HU : ascii_faithful U).

Lemma keyword_search_whole_word kw text :
  kw ∈ ALL_KEYWORDS ->
  is_Some (re_search U (keyword_pattern U kw) text) <-> whole_word_in U kw text.
Proof.
  intros Hin. destruct (keyword_facts U HU kw Hin) as (_ & Hlow & Hh & Hl).
  unfold keyword_pattern, re_search, whole_word_in. rewrite Hlow, search_from_is_Some.
  split.
  - intros (a & b & -> & H). apply keyword_pattern_at in H as (Hp & post & -> & Hpost);
      [|done..].
    exists a, post. by rewrite <- prev_after_None.
  - intros (pre & post & -> & Hp & Hpost). exists pre, (kw ++ post). split; [done|].
    apply keyword_pattern_at; [done..|]. rewrite prev_after_None. eauto.
Qed.

(** C2.  A keyword is matched exactly when it stands in the lower-cased
    title and description as a whole word, with no word character next
    to it on either side, so never inside a longer word: "prelungire"
    and "long" do not match "ong", while a keyword standing alone in the
    text, in any mix of upper and lower case, is matched. *)
Theorem keyword_match_whole_word (f : opportunity) :
  lower_regular U ->
  (forall kw, kw ∈ match_keywords U f <->
     kw ∈ ALL_KEYWORDS /\ whole_word_in U kw (lower U (searched_text f)))
  /\ ((title f = u "prelungire" \/ title f = u "long") ->
      (description f = None \/ description f = Some []) ->
      u "ong" ∉ match_keywords U f)
  /\ (forall kw pre X post,
        kw ∈ ALL_KEYWORDS ->
        searched_text f = pre ++ X ++ post ->
        Ascii7.lower <$> X = kw ->
        word_at U (last pre) = false ->
        word_at U (head post) = false ->
        kw ∈ match_keywords U f).
Proof.
  intros HL.
  assert (Hiff : forall kw, kw ∈ match_keywords U f <->
     kw ∈ ALL_KEYWORDS /\ whole_word_in U kw (lower U (searched_text f))).
  { intros kw. unfold match_keywords. fold (searched_text f).
    rewrite elem_of_keywords_in. split.
    - intros [Hin H]. split; [done|]. by apply keyword_search_whole_word.
    - intros [Hin H]. split; [done|]. by apply keyword_search_whole_word. }
  split; [exact Hiff|]. split.
  - intros Ht Hd.
    assert (Htext : searched_text f = u "prelungire " \/ searched_text f = u "long ").
    { unfold searched_text. destruct Ht as [-> | ->], Hd as [-> | ->]; cbn; auto. }
    assert (Hascii : ascii_str (searched_text f)).
    { destruct Htext as [-> | ->]; apply ascii_str_forallb; reflexivity. }
    rewrite (match_keywords_agree U HU f Hascii).
    destruct Htext as [-> | ->].
    + assert (Hnone : keywords_in Ascii7.db (Ascii7.lower <$> u "prelungire ") = [])
        by (vm_compute; reflexivity).
      rewrite Hnone. apply not_elem_of_nil.
    + assert (Hnone : keywords_in Ascii7.db (Ascii7.lower <$> u "long ") = [])
        by (vm_compute; reflexivity).
      rewrite Hnone. apply not_elem_of_nil.
  - intros kw pre X post Hin Htext HX Hpre Hpost. apply Hiff. split; [done|].
    destruct (keyword_facts U HU kw Hin) as (Hakw & _).
    assert (HaX : ascii_str X) by (apply ascii_str_of_lower; by rewrite HX).
    unfold lower. rewrite Htext, lower_seg_app, lower_seg_app.
    rewrite (lower_seg_ascii U _ X _ HU HaX), HX.
    eexists _, _. split; [reflexivity|]. split.
    + by apply lower_seg_last_nonword.
    + by apply lower_seg_head_nonword.
Qed.
End Keywords.

Lemma keyword_match_whole_word_witness :
  u "ong" ∈ match_keywords Ascii7.db item_ong <->
    u "ong" ∈ ALL_KEYWORDS
    /\ whole_word_in Ascii7.db (u "ong") (lower Ascii7.db (searched_text item_ong)).
Proof.
  exact (proj1 (keyword_match_whole_word Ascii7.db ascii7_faithful item_ong
                  ascii7_lower_regular) (u "ong")).
Defined.

(** "ONG" standing alone, in capitals, is matched; "prelungire" is not. *)
Example match_keywords_ong :
  match_keywords Ascii7.db item_ong = [u "ong"; u "granturi"]
  /\ match_keywords Ascii7.db (scraped "afcn_0" "Prelungire termen" "un drum long" PyNone) = [].
Proof. split; vm_compute; reflexivity. Qed.

(** ** Priority *)

Lemma any_high_priority_true kws :
  any_high_priority kws = true <->
  exists k, k ∈ kws /\ k ∈ HIGH_PRIORITY_KEYWORDS.
Proof.
  unfold any_high_priority. rewrite existsb_exists. split.
  - intros (k & Hin & Hk). exists k. split; [by apply list_elem_of_In|].
    by apply bool_decide_eq_true in Hk.
  - intros (k & Hin & Hk). exists k. split; [by apply list_elem_of_In|].
    by apply bool_decide_eq_true.
Qed.

Lemma Forall2_classified_elem U (its os : list opportunity) it :
  Forall2 (classified U) its os -> it ∈ its -> exists o, o ∈ os /\ classified U it o.
Proof.
  induction 1 as [|x o l os Hc _ IH]; intros Hin; [by apply elem_of_nil in Hin|].
  apply elem_of_cons in Hin as [->|Hin].
  - exists o. split; [by left | done].
  - destruct (IH Hin) as (o' & Ho' & Hc'). exists o'. split; [by right | done].
Qed.

Lemma Forall2_classified_inv U (its os : list opportunity) o :
  Forall2 (classified U) its os -> o ∈ os -> exists it, it ∈ its /\ classified U it o.
Proof.
  induction 1 as [|x o' l os Hc _ IH]; intros Hin; [by apply elem_of_nil in Hin|].
  apply elem_of_cons in Hin as [->|Hin].
  - exists x. split; [by left | done].
  - destruct (IH Hin) as (it & Hit & Hc'). exists it. split; [by right | done].
Qed.

Section Priority.
Context (U : unicode_db) (HU : ascii_faithful U)
        (fromisoformat : str -> option datetime) (clock : nat -> datetime).

(** C7.  Every matching opportunity carries the keywords matched in its
    text, and its [is_high_priority] is true exactly when one of them is
    a high-priority keyword; the festival that matches only "cultural"
    is not high priority, the STEAM call that matches "steam" and
    "elevi" is. *)
Theorem high_priority_iff (items : list opportunity) (w : world) :
  Forall (fun it => deadline_is_naive fromisoformat it = true) items ->
  exists new all w',
    process_funding U fromisoformat clock items w = (Ok (new, all), w')
    /\ Forall (fun o =>
         exists kws b,
           matched_keywords o = Some kws
           /\ kws = match_keywords U o
           /\ is_high_priority o = Some b
           /\ (b = true <-> exists k, k ∈ kws /\ k ∈ HIGH_PRIORITY_KEYWORDS)) all
    /\ (forall it, it ∈ items ->
          title it = u "Festival local" ->
          description it = Some (u "eveniment cultural") ->
          exists o, o ∈ all /\ classified U it o
            /\ matched_keywords o = Some [u "cultural"]
            /\ is_high_priority o = Some false)
    /\ (forall it, it ∈ items ->
          title it = u "Apel de proiecte STEAM pentru elevi" ->
          description it = Some [] ->
          exists o, o ∈ all /\ classified U it o
            /\ matched_keywords o = Some [u "steam"; u "elevi"]
            /\ is_high_priority o = Some true).
Proof.
  intros Hsafe.
  destruct (process_loop_returns U fromisoformat clock items [] [] w Hsafe)
    as (new & all & w' & Heq & Hall & _).
  cbn [app] in Heq. exists new, all, w'. split; [exact Heq|].
  assert (Hex : forall it kws, it ∈ items ->
            match_keywords U it = kws -> kws <> [] ->
            exists o, o ∈ all /\ classified U it o
              /\ matched_keywords o = Some kws
              /\ is_high_priority o = Some (any_high_priority kws)).
  { intros it kws Hin Hkw Hne.
    destruct (Forall2_classified_elem U _ _ it Hall) as (o & Ho & Hc).
    { apply list_elem_of_In, filter_In. split; [by apply list_elem_of_In|].
      unfold matching. rewrite Hkw. by destruct kws. }
    exists o. split; [done|]. split; [done|].
    destruct Hc as [cs ->]. rewrite Hkw. done. }
  split; [|split].
  - apply Forall_forall. intros o Ho.
    destruct (Forall2_classified_inv U _ _ o Hall Ho) as (it & _ & [cs ->]).
    exists (match_keywords U it), (any_high_priority (match_keywords U it)).
    cbn [matched_keywords is_high_priority annotate].
    rewrite match_keywords_annotate. repeat split; try done.
    + intros H. by apply any_high_priority_true in H.
    + intros H. by apply any_high_priority_true.
  - intros it Hin Ht Hd.
    assert (Htext : searched_text it = u "Festival local eveniment cultural").
    { unfold searched_text. by rewrite Ht, Hd. }
    assert (Hkw : match_keywords U it = [u "cultural"]).
    { rewrite (match_keywords_agree U HU it), Htext.
      - vm_compute. reflexivity.
      - rewrite Htext. apply ascii_str_forallb. reflexivity. }
    destruct (Hex it _ Hin Hkw) as (o & ? & ? & ? & ?); [done|]. eauto.
  - intros it Hin Ht Hd.
    assert (Htext : searched_text it = u "Apel de proiecte STEAM pentru elevi ").
    { unfold searched_text. by rewrite Ht, Hd. }
    assert (Hkw : match_keywords U it = [u "steam"; u "elevi"]).
    { rewrite (match_keywords_agree U HU it), Htext.
      - vm_compute. reflexivity.
      - rewrite Htext. apply ascii_str_forallb. reflexivity. }
    destruct (Hex it _ Hin Hkw) as (o & ? & ? & ? & ?); [done|]. eauto.
Qed.
End Priority.

Lemma high_priority_iff_witness :
  exists new all w',
    process_funding Ascii7.db fromisoformat_basic clock_nov4
      [item_festival; item_general; item_steam] fresh_world = (Ok (new, all), w')
    /\ (is_high_priority <$> all) = [Some false; Some true].
Proof.
  destruct (high_priority_iff Ascii7.db ascii7_faithful fromisoformat_basic clock_nov4
              [item_festival; item_general; item_steam] fresh_world)
    as (new & all & w' & Heq & _).
  { repeat constructor. }
  exists new, all, w'. split; [exact Heq|].
  assert (Hrun : (process_funding Ascii7.db fromisoformat_basic clock_nov4
             [item_festival; item_general; item_steam] fresh_world).1
          = Ok (new, all)) by (by rewrite Heq).
  vm_compute in Hrun. injection Hrun as <- <-. reflexivity.
Defined.

(** ** The notification title *)

Lemma bind_nil {A B} (f : A -> list B) : [] ≫= f = [].
Proof. reflexivity. Qed.

Lemma replacements_fold text rs :
  foldl (fun t (r : N * N) => str_replace r.1 r.2 t) text rs
  = (fun c => foldl (fun d (r : N * N) => if (d =? r.1)%N then r.2 else d) c rs) <$> text.
Proof.
  revert text. induction rs as [|r rs IH]; intros text.
  { cbn [foldl]. by rewrite list_fmap_id. }
  cbn [foldl]. rewrite IH. unfold str_replace.
  rewrite <- list_fmap_compose. done.
Qed.

Lemma encode_replace_bind text :
  encode_ascii_ignore (foldl (fun t (r : N * N) => str_replace r.1 r.2 t) text replacements)
  = text ≫= sanitize_char.
Proof.
  rewrite replacements_fold. fold replace_char.
  induction text as [|c text IH]; [done|].
  rewrite fmap_cons. unfold encode_ascii_ignore in *. cbn [List.filter].
  rewrite IH, bind_cons.
  change (sanitize_char c) with (if is_ascii (replace_char c) then [replace_char c] else []).
  by destruct (is_ascii (replace_char c)).
Qed.

Section Sanitizer.
Context (U : unicode_db).

Lemma reorder_insert_bind (g : N -> str) c acc :
  (forall d, uni_ccc U d <> 0%N -> g d = []) ->
  reverse (reorder_insert U c acc) ≫= g = (reverse acc ≫= g) ++ g c.
Proof.
  intros Hg. induction acc as [|d acc IH].
  { cbn [reorder_insert reverse]. rewrite reverse_singleton, reverse_nil.
    by rewrite bind_cons, !bind_nil, app_nil_r. }
  cbn [reorder_insert].
  destruct ((0 <? uni_ccc U c)%N && (uni_ccc U c <? uni_ccc U d)%N) eqn:Hswap.
  - apply andb_true_iff in Hswap as [Hc%N.ltb_lt Hd%N.ltb_lt].
    rewrite !reverse_cons, !bind_app, IH, !bind_cons, !bind_nil.
    rewrite (Hg c), (Hg d) by lia. done.
  - rewrite (reverse_cons _ c), bind_app, bind_cons, bind_nil.
    by rewrite app_nil_r.
Qed.

Lemma canonical_order_bind (g : N -> str) s :
  (forall d, uni_ccc U d <> 0%N -> g d = []) ->
  canonical_order U s ≫= g = s ≫= g.
Proof.
  intros Hg. unfold canonical_order.
  assert (H : forall acc,
    reverse (foldl (fun acc c => reorder_insert U c acc) acc s) ≫= g
    = (reverse acc ≫= g) ++ (s ≫= g)).
  { induction s as [|c s IH]; intros acc.
    - cbn [foldl]. by rewrite bind_nil, app_nil_r.
    - cbn [foldl]. rewrite IH, reorder_insert_bind, bind_cons by done.
      by rewrite <- app_assoc. }
  by rewrite H, reverse_nil, bind_nil.
Qed.

(** The output holds ASCII characters only. *)
Lemma sanitize_header_ascii text : ascii_str (sanitize_header U text).
Proof.
  unfold sanitize_header, encode_ascii_ignore, ascii_str.
  apply Forall_forall. intros c Hc. apply list_elem_of_In, filter_In in Hc. tauto.
Qed.

(** The sanitizer works character by character. *)
Lemma sanitize_header_bind text :
  latin_decomposition U ->
  sanitize_header U text = text ≫= (fun c => uni_decomp U c ≫= sanitize_char).
Proof.
  intros HL. unfold sanitize_header, nfkd. rewrite encode_replace_bind.
  rewrite canonical_order_bind by apply (ld_marks U HL).
  induction text as [|c text IH]; [done|].
  by rewrite !bind_cons, bind_app, IH.
Qed.



End Sanitizer.

Lemma romanian_db_latin : latin_decomposition romanian_db.
Proof.
  split.
  - intros c. cbn [romanian_db uni_ccc].
    destruct (N.eqb_spec c 0x306) as [->|_]; [done|].
    destruct (N.eqb_spec c 0x302) as [->|_]; [done|].
    destruct (N.eqb_spec c 0x326) as [->|_]; [done|]. done.
  - intros c b m Hin. unfold romanian_letters in Hin.
    repeat (apply elem_of_cons in Hin as [[= -> -> ->]|Hin]; [reflexivity|]).
    by apply elem_of_nil in Hin.
Qed.

(** "Științe și artă – 中" comes out as "Stiinte si arta - ". *)
Example sanitize_header_stiinte :
  sanitize_header romanian_db
    ([0x0218]%N ++ u "tiin" ++ [0x021b]%N ++ u "e " ++ [0x0219]%N ++ u "i art"
     ++ [0x0103; 32; 0x2013; 32; 0x4e2d]%N)
  = u "Stiinte si arta - ".
Proof. vm_compute. reflexivity. Qed.


Lemma accented_db_latin : latin_decomposition accented_db.
Proof.
  split.
  - intros c. cbn [accented_db romanian_db uni_ccc].
    destruct (N.eqb_spec c 0x301) as [->|_]; [done|].
    destruct (N.eqb_spec c 0x306) as [->|_]; [done|].
    destruct (N.eqb_spec c 0x302) as [->|_]; [done|].
    destruct (N.eqb_spec c 0x326) as [->|_]; [done|]. done.
  - intros c b m Hin. unfold romanian_letters in Hin.
    repeat (apply elem_of_cons in Hin as [[= -> -> ->]|Hin]; [reflexivity|]).
    by apply elem_of_nil in Hin.
Qed.


(** ** The date patterns on digit text *)

Lemma isdigit_cases c :
  Ascii7.isdigit c = true ->
  c = 48%N \/ c = 49%N \/ c = 50%N \/ c = 51%N \/ c = 52%N \/ c = 53%N
  \/ c = 54%N \/ c = 55%N \/ c = 56%N \/ c = 57%N.
Proof.
  unfold Ascii7.isdigit, Ascii7.in_range.
  intros [H1%N.leb_le H2%N.leb_le]%andb_true_iff. lia.
Qed.

Ltac digit_cases H :=
  apply isdigit_cases in H;
  destruct H as [->|[->|[->|[->|[->|[->|[->|[->|[->| ->]]]]]]]]].

Section DatePatterns.
Local Abbreviation A := Ascii7.db.

Lemma rmatch_day_ok c1 c2 prev rest caps k x :
  Ascii7.isdigit c1 = true -> Ascii7.isdigit c2 = true ->
  day2_ok c1 c2 = true ->
  k (Some c2) rest [] (caps ++ [[c1; c2]]) = Some x ->
  rmatch A (directive_regex DirDay) prev (c1 :: c2 :: rest) [] caps k = Some x.
Proof.
  intros H1 H2 Hok Hk. digit_cases H1; digit_cases H2;
    first [discriminate Hok | vm_compute in Hk |- *; rewrite Hk; reflexivity].
Qed.

Lemma rmatch_day_fail c1 c2 prev rest caps k :
  Ascii7.isdigit c1 = true -> Ascii7.isdigit c2 = true ->
  (day2_ok c1 c2 = true -> k (Some c2) rest [] (caps ++ [[c1; c2]]) = None) ->
  (nonzero_digit c1 = true -> k (Some c1) (c2 :: rest) [] (caps ++ [[c1]]) = None) ->
  rmatch A (directive_regex DirDay) prev (c1 :: c2 :: rest) [] caps k = None.
Proof.
  intros H1 H2 Hk2 Hk1. digit_cases H1; digit_cases H2;
    try (specialize (Hk2 eq_refl)); try (specialize (Hk1 eq_refl));
    vm_compute in Hk2, Hk1 |- *; rewrite ?Hk2, ?Hk1; reflexivity.
Qed.

Lemma rmatch_month_ok c1 c2 prev rest caps k x :
  Ascii7.isdigit c1 = true -> Ascii7.isdigit c2 = true ->
  month2_ok c1 c2 = true ->
  k (Some c2) rest [] (caps ++ [[c1; c2]]) = Some x ->
  rmatch A (directive_regex DirMonth) prev (c1 :: c2 :: rest) [] caps k = Some x.
Proof.
  intros H1 H2 Hok Hk. digit_cases H1; digit_cases H2;
    first [discriminate Hok | vm_compute in Hk |- *; rewrite Hk; reflexivity].
Qed.

Lemma rmatch_month_fail c1 c2 prev rest caps k :
  Ascii7.isdigit c1 = true -> Ascii7.isdigit c2 = true ->
  (month2_ok c1 c2 = true -> k (Some c2) rest [] (caps ++ [[c1; c2]]) = None) ->
  (nonzero_digit c1 = true -> k (Some c1) (c2 :: rest) [] (caps ++ [[c1]]) = None) ->
  rmatch A (directive_regex DirMonth) prev (c1 :: c2 :: rest) [] caps k = None.
Proof.
  intros H1 H2 Hk2 Hk1. digit_cases H1; digit_cases H2;
    try (specialize (Hk2 eq_refl)); try (specialize (Hk1 eq_refl));
    vm_compute in Hk2, Hk1 |- *; rewrite ?Hk2, ?Hk1; reflexivity.
Qed.
End DatePatterns.

Section DateText.
Local Abbreviation A := Ascii7.db.

Lemma cset_mem_digit c : Ascii7.isdigit c = true -> cset_mem A CDigit c = true.
Proof.
  intros H. cbn [cset_mem Ascii7.db uni_decimal]. unfold Ascii7.decimal. rewrite H.
  by apply bool_decide_eq_true_2.
Qed.

Lemma cset_mem_nondigit c : Ascii7.isdigit c = false -> cset_mem A CDigit c = false.
Proof.
  intros H. cbn [cset_mem Ascii7.db uni_decimal]. unfold Ascii7.decimal. rewrite H.
  apply bool_decide_eq_false_2. by intros [? ?].
Qed.

Lemma digit_not_space c : Ascii7.isdigit c = true -> cset_mem A CSpace c = false.
Proof. intros H. by digit_cases H. Qed.

Lemma digit_neq c a : Ascii7.isdigit c = true -> Ascii7.isdigit a = false -> (c =? a)%N = false.
Proof. intros Hc Ha. apply N.eqb_neq. intros ->. congruence. Qed.

Lemma rmatch_year c1 c2 c3 c4 prev rest caps k :
  Ascii7.isdigit c1 = true -> Ascii7.isdigit c2 = true ->
  Ascii7.isdigit c3 = true -> Ascii7.isdigit c4 = true ->
  rmatch A (directive_regex DirYear) prev (c1 :: c2 :: c3 :: c4 :: rest) [] caps k
  = k (Some c4) rest [] (caps ++ [[c1; c2; c3; c4]]).
Proof.
  intros H1 H2 H3 H4. cbn [directive_regex rmatch].
  by rewrite !cset_mem_digit by done.
Qed.

Lemma rmatch_year_fail c1 c2 c3 prev rest caps k :
  Ascii7.isdigit c3 = false ->
  rmatch A (directive_regex DirYear) prev (c1 :: c2 :: c3 :: rest) [] caps k = None.
Proof.
  intros H3. cbn [directive_regex rmatch]. rewrite (cset_mem_nondigit c3 H3).
  by destruct (cset_mem A CDigit c1), (cset_mem A CDigit c2).
Qed.

Lemma rmatch_lit a r prev c rest caps k :
  rmatch A (Cat (Chr (CLit a)) r) prev (c :: rest) [] caps k
  = if (c =? a)%N then rmatch A r (Some c) rest [] caps k else None.
Proof. reflexivity. Qed.

(** The named-month pattern needs whitespace after one or two digits. *)
Lemma named_month_no_space c1 c2 c3 rest :
  Ascii7.isdigit c1 = true -> Ascii7.isdigit c2 = true ->
  cset_mem A CSpace c3 = false ->
  re_match A named_month_re (c1 :: c2 :: c3 :: rest) = None.
Proof.
  intros H1 H2 H3. unfold re_match, named_month_re.
  cbn [rmatch rep_greedy Nat.pred fmap option_fmap option_map].
  rewrite (cset_mem_digit c1 H1), (cset_mem_digit c2 H2), andb_false_r.
  cbn [andb consume fmap list_fmap close_group fst snd rep_greedy].
  by rewrite H3, (digit_not_space c2 H2).
Qed.

(** [%d<sep'>%m<sep'>%Y] on [dd<sep>mm<sep>yyyy]. *)
Lemma re_match_dmy sep sep' d1 d2 m1 m2 y1 y2 y3 y4 :
  Ascii7.isdigit d1 = true -> Ascii7.isdigit d2 = true ->
  Ascii7.isdigit m1 = true -> Ascii7.isdigit m2 = true ->
  Ascii7.isdigit y1 = true -> Ascii7.isdigit y2 = true ->
  Ascii7.isdigit y3 = true -> Ascii7.isdigit y4 = true ->
  Ascii7.isdigit sep' = false ->
  re_match A (format_regex [FDir DirDay; FLit sep'; FDir DirMonth; FLit sep'; FDir DirYear])
    [d1; d2; sep; m1; m2; sep; y1; y2; y3; y4]
  = if (sep =? sep')%N && day2_ok d1 d2 && month2_ok m1 m2
    then Some ([], [[d1; d2]; [m1; m2]; [y1; y2; y3; y4]])
    else None.
Proof.
  intros Hd1 Hd2 Hm1 Hm2 Hy1 Hy2 Hy3 Hy4 Hsep'.
  unfold re_match, format_regex. cbn [fmap list_fmap cat_all foldr].
  set (tail := Cat (Chr (CLit sep')) (Cat (directive_regex DirYear) Eps)).
  set (mid := Cat (directive_regex DirMonth) tail).
  assert (Htail : forall p caps,
    rmatch A tail p [sep; y1; y2; y3; y4] [] caps accept
    = if (sep =? sep')%N then Some ([], caps ++ [[y1; y2; y3; y4]]) else None).
  { intros p caps. subst tail. rewrite rmatch_lit. destruct (sep =? sep')%N; [|done].
    cbn [rmatch]. by rewrite rmatch_year. }
  assert (Hdigit : forall c p rest caps r, Ascii7.isdigit c = true ->
    rmatch A (Cat (Chr (CLit sep')) r) p (c :: rest) [] caps accept = None).
  { intros c p rest caps r Hc. by rewrite rmatch_lit, digit_neq. }
  assert (Hmid : forall p caps,
    rmatch A mid p [m1; m2; sep; y1; y2; y3; y4] [] caps accept
    = if (sep =? sep')%N && month2_ok m1 m2
      then Some ([], (caps ++ [[m1; m2]]) ++ [[y1; y2; y3; y4]]) else None).
  { intros p caps. subst mid. cbn [rmatch].
    destruct (month2_ok m1 m2) eqn:Hm.
    - destruct (sep =? sep')%N eqn:Hs; cbn [andb].
      + eapply rmatch_month_ok; [done..|]. by rewrite Htail, ?Hs.
      + apply rmatch_month_fail; [done..| |].
        * intros _. by rewrite Htail, ?Hs.
        * intros _. subst tail. by apply Hdigit.
    - rewrite andb_false_r. apply rmatch_month_fail; [done..| |].
      + intros ?. congruence.
      + intros _. subst tail. by apply Hdigit. }
  cbn [rmatch]. fold tail. fold mid.
  destruct (day2_ok d1 d2) eqn:Hd.
  - destruct ((sep =? sep')%N && month2_ok m1 m2) eqn:Hsm.
    + apply andb_true_iff in Hsm as [Hs Hm]. rewrite Hs, Hm. cbn [andb].
      eapply rmatch_day_ok; [done..|]. cbv beta. cbn [cset_mem consume fmap list_fmap].
      by rewrite Hs, Hmid, ?Hs, ?Hm.
    + replace ((sep =? sep')%N && true && month2_ok m1 m2) with false
        by (by rewrite andb_true_r, Hsm).
      apply rmatch_day_fail; [done..| |].
      * intros _. cbv beta. cbn [cset_mem consume fmap list_fmap].
        destruct (sep =? sep')%N eqn:Hs; [|done]. by rewrite Hmid, ?Hs, ?Hsm.
      * intros _. cbv beta. cbn [cset_mem]. by rewrite digit_neq.
  - rewrite andb_false_r. cbn [andb]. apply rmatch_day_fail; [done..| |].
    + intros ?. congruence.
    + intros _. cbv beta. cbn [cset_mem]. by rewrite digit_neq.
Qed.
End DateText.

Section DateText2.
Local Abbreviation A := Ascii7.db.

Lemma rmatch_day_single c1 c2 prev rest caps k x :
  Ascii7.isdigit c1 = true -> Ascii7.isdigit c2 = true ->
  day2_ok c1 c2 = false -> nonzero_digit c1 = true ->
  k (Some c1) (c2 :: rest) [] (caps ++ [[c1]]) = Some x ->
  rmatch A (directive_regex DirDay) prev (c1 :: c2 :: rest) [] caps k = Some x.
Proof.
  intros H1 H2 Hok Hnz Hk. digit_cases H1; digit_cases H2;
    first [discriminate Hok | discriminate Hnz
          | vm_compute in Hk |- *; rewrite Hk; reflexivity].
Qed.

(** [%Y-%m-%d] on [yyyy-mm-dd]: the match ends the text exactly when
    month and day are two-digit texts their groups accept. *)
Lemma re_match_ymd y1 y2 y3 y4 m1 m2 d1 d2 :
  Ascii7.isdigit d1 = true -> Ascii7.isdigit d2 = true ->
  Ascii7.isdigit m1 = true -> Ascii7.isdigit m2 = true ->
  Ascii7.isdigit y1 = true -> Ascii7.isdigit y2 = true ->
  Ascii7.isdigit y3 = true -> Ascii7.isdigit y4 = true ->
  re_match A (format_regex [FDir DirYear; FLit 45; FDir DirMonth; FLit 45; FDir DirDay])
    [y1; y2; y3; y4; 45; m1; m2; 45; d1; d2]%N
  = if month2_ok m1 m2
    then if day2_ok d1 d2
         then Some ([], [[y1; y2; y3; y4]; [m1; m2]; [d1; d2]])
         else if nonzero_digit d1
              then Some ([d2], [[y1; y2; y3; y4]; [m1; m2]; [d1]])
              else None
    else None.
Proof.
  intros Hd1 Hd2 Hm1 Hm2 Hy1 Hy2 Hy3 Hy4.
  unfold re_match, format_regex. cbn [fmap list_fmap cat_all foldr].
  set (dayr := Cat (directive_regex DirDay) Eps).
  assert (Hday : forall p caps,
    rmatch A dayr p [d1; d2] [] caps accept
    = if day2_ok d1 d2 then Some ([], caps ++ [[d1; d2]])
      else if nonzero_digit d1 then Some ([d2], caps ++ [[d1]]) else None).
  { intros p caps. subst dayr. cbn [rmatch].
    destruct (day2_ok d1 d2) eqn:Hd.
    - by eapply rmatch_day_ok.
    - destruct (nonzero_digit d1) eqn:Hnz.
      + by eapply rmatch_day_single.
      + apply rmatch_day_fail; [done..| |]; intros ?; congruence. }
  cbn [rmatch]. fold dayr. rewrite rmatch_year by done. cbv beta.
  cbn [cset_mem consume fmap list_fmap]. rewrite N.eqb_refl.
  destruct (month2_ok m1 m2) eqn:Hm.
  - destruct (if day2_ok d1 d2 then _ else _) as [x|] eqn:Hx.
    + eapply rmatch_month_ok; [done..|]. cbv beta.
      cbn [cset_mem consume fmap list_fmap]. rewrite N.eqb_refl.
      rewrite Hday. cbn [app]. exact Hx.
    + apply rmatch_month_fail; [done..| |].
      * intros _. cbv beta. cbn [cset_mem consume fmap list_fmap]. rewrite N.eqb_refl.
        rewrite Hday. cbn [app]. exact Hx.
      * intros _. cbv beta. cbn [cset_mem]. by rewrite digit_neq.
  - apply rmatch_month_fail; [done..| |].
    + intros ?. congruence.
    + intros _. cbv beta. cbn [cset_mem]. by rewrite digit_neq.
Qed.

(** A day-first format on text that starts with three digits. *)
Lemma re_match_dmy_on_digits sep' c1 c2 c3 rest :
  Ascii7.isdigit c1 = true -> Ascii7.isdigit c2 = true -> Ascii7.isdigit c3 = true ->
  Ascii7.isdigit sep' = false ->
  re_match A (format_regex [FDir DirDay; FLit sep'; FDir DirMonth; FLit sep'; FDir DirYear])
    (c1 :: c2 :: c3 :: rest) = None.
Proof.
  intros H1 H2 H3 Hsep. unfold re_match, format_regex.
  cbn [fmap list_fmap cat_all foldr rmatch].
  apply rmatch_day_fail; [done..| |]; intros _; cbv beta; cbn [cset_mem];
    by rewrite digit_neq.
Qed.

(** The year-first format on text whose third character is no digit. *)
Lemma re_match_ymd_on_dmy c1 c2 c3 rest :
  Ascii7.isdigit c3 = false ->
  re_match A (format_regex [FDir DirYear; FLit 45; FDir DirMonth; FLit 45; FDir DirDay])
    (c1 :: c2 :: c3 :: rest) = None.
Proof.
  intros H3. unfold re_match, format_regex.
  cbn [fmap list_fmap cat_all foldr rmatch]. by apply rmatch_year_fail.
Qed.
End DateText2.

(** ** [parse_date] on the numeric renderings *)

Lemma of_ymd_check y m d :
  DT.of_ymd y m d
  = if DT._check_date_fields y m d then Ok (DT.mk y m d 0 0 0 0 None)
    else Raise ValueError.
Proof.
  unfold DT.of_ymd, DT.new.
  change (DT._check_time_fields 0 0 0 0) with true. by rewrite andb_true_r.
Qed.

Lemma digit_is_ascii c : Ascii7.isdigit c = true -> is_ascii c = true.
Proof. intros H. by digit_cases H. Qed.

Lemma digit_isspace c : Ascii7.isdigit c = true -> Ascii7.isspace c = false.
Proof. intros H. by digit_cases H. Qed.

Lemma digit_char_isdigit k : (0 <= k <= 9)%Z -> Ascii7.isdigit (digit_char k) = true.
Proof.
  intros Hk. unfold digit_char, Ascii7.isdigit, Ascii7.in_range.
  apply andb_true_iff. split; apply N.leb_le; lia.
Qed.

Lemma digit_char_value k : (0 <= k)%Z -> (Z.of_N (digit_char k) - 48 = k)%Z.
Proof. intros Hk. unfold digit_char. lia. Qed.

Lemma day2_ok_render d :
  (0 <= d < 100)%Z ->
  day2_ok (digit_char (d / 10)) (digit_char (d mod 10)) = ((1 <=? d) && (d <=? 31))%Z.
Proof.
  intros Hd. unfold day2_ok, digit_char.
  assert (Ha : (0 <= d / 10 <= 9)%Z) by (Z.div_mod_to_equations; lia).
  assert (Hb : (0 <= d mod 10 <= 9)%Z) by (Z.div_mod_to_equations; lia).
  assert (Hab : (d = 10 * (d / 10) + d mod 10)%Z) by (Z.div_mod_to_equations; lia).
  revert Ha Hb Hab. generalize (d / 10)%Z (d mod 10)%Z. intros a b Ha Hb ->.
  apply eq_true_iff_eq.
  rewrite !orb_true_iff, !andb_true_iff, !N.eqb_eq, !N.leb_le, !Z.leb_le. lia.
Qed.

Lemma month2_ok_render m :
  (0 <= m < 100)%Z ->
  month2_ok (digit_char (m / 10)) (digit_char (m mod 10)) = ((1 <=? m) && (m <=? 12))%Z.
Proof.
  intros Hd. unfold month2_ok, digit_char.
  assert (Ha : (0 <= m / 10 <= 9)%Z) by (Z.div_mod_to_equations; lia).
  assert (Hb : (0 <= m mod 10 <= 9)%Z) by (Z.div_mod_to_equations; lia).
  assert (Hab : (m = 10 * (m / 10) + m mod 10)%Z) by (Z.div_mod_to_equations; lia).
  revert Ha Hb Hab. generalize (m / 10)%Z (m mod 10)%Z. intros a b Ha Hb ->.
  apply eq_true_iff_eq.
  rewrite !orb_true_iff, !andb_true_iff, !N.eqb_eq, !N.leb_le, !Z.leb_le. lia.
Qed.

Ltac ascii_text :=
  repeat (constructor; [first [assumption | reflexivity | by apply digit_is_ascii]|]);
  first [assumption | constructor].

Section DateParse.
Context (U : unicode_db) (HU : ascii_faithful U).
Local Open Scope Z_scope.

Local Abbreviation dv c := (Z.of_N c - 48).

Lemma uni_digit_not_space c : Ascii7.isdigit c = true -> uni_isspace U c = false.
Proof.
  intros H. rewrite (af_isspace U HU) by by apply digit_is_ascii.
  by apply digit_isspace.
Qed.

Lemma uni_digit_decimal c : Ascii7.isdigit c = true -> uni_decimal U c = Some (dv c).
Proof.
  intros H. rewrite (af_decimal U HU) by by apply digit_is_ascii.
  unfold Ascii7.decimal. by rewrite H.
Qed.

Lemma py_int_2 c1 c2 :
  Ascii7.isdigit c1 = true -> Ascii7.isdigit c2 = true ->
  py_int U [c1; c2] = Ok (10 * dv c1 + dv c2).
Proof.
  intros H1 H2. unfold py_int, strip. cbn [lstrip].
  rewrite (uni_digit_not_space c1 H1). change (reverse [c1; c2]) with [c2; c1].
  cbn [lstrip]. rewrite (uni_digit_not_space c2 H2).
  change (reverse [c2; c1]) with [c1; c2]. cbn [digits_value].
  rewrite (uni_digit_decimal c1 H1), (uni_digit_decimal c2 H2). f_equal; lia.
Qed.

Lemma py_int_4 c1 c2 c3 c4 :
  Ascii7.isdigit c1 = true -> Ascii7.isdigit c2 = true ->
  Ascii7.isdigit c3 = true -> Ascii7.isdigit c4 = true ->
  py_int U [c1; c2; c3; c4] = Ok (1000 * dv c1 + 100 * dv c2 + 10 * dv c3 + dv c4).
Proof.
  intros H1 H2 H3 H4. unfold py_int, strip. cbn [lstrip].
  rewrite (uni_digit_not_space c1 H1). change (reverse [c1; c2; c3; c4]) with [c4; c3; c2; c1].
  cbn [lstrip]. rewrite (uni_digit_not_space c4 H4).
  change (reverse [c4; c3; c2; c1]) with [c1; c2; c3; c4]. cbn [digits_value].
  rewrite (uni_digit_decimal c1 H1), (uni_digit_decimal c2 H2),
    (uni_digit_decimal c3 H3), (uni_digit_decimal c4 H4). f_equal; lia.
Qed.

Lemma numeric_formats_eq :
  numeric_formats = [fmt_dmy 46; fmt_dmy 47; fmt_dmy 45; fmt_ymd].
Proof. reflexivity. Qed.

Lemma parse_format_dmy sep :
  sep ∈ [46; 47; 45]%N ->
  parse_format (fmt_dmy sep)
  = Some [FDir DirDay; FLit sep; FDir DirMonth; FLit sep; FDir DirYear].
Proof.
  intros Hsep. repeat (apply elem_of_cons in Hsep as [->|Hsep]; [reflexivity|]).
  by apply elem_of_nil in Hsep.
Qed.

Lemma separator_facts sep :
  sep ∈ [46; 47; 45]%N ->
  Ascii7.isdigit sep = false /\ is_ascii sep = true /\ Ascii7.isspace sep = false.
Proof.
  intros Hsep. repeat (apply elem_of_cons in Hsep as [->|Hsep]; [done|]).
  by apply elem_of_nil in Hsep.
Qed.

Lemma strptime_dmy sep sep' d1 d2 m1 m2 y1 y2 y3 y4 :
  Ascii7.isdigit d1 = true -> Ascii7.isdigit d2 = true ->
  Ascii7.isdigit m1 = true -> Ascii7.isdigit m2 = true ->
  Ascii7.isdigit y1 = true -> Ascii7.isdigit y2 = true ->
  Ascii7.isdigit y3 = true -> Ascii7.isdigit y4 = true ->
  sep ∈ [46; 47; 45]%N -> sep' ∈ [46; 47; 45]%N ->
  strptime U [d1; d2; sep; m1; m2; sep; y1; y2; y3; y4] (fmt_dmy sep')
  = if (sep =? sep')%N && day2_ok d1 d2 && month2_ok m1 m2
    then DT.of_ymd (1000 * dv y1 + 100 * dv y2 + 10 * dv y3 + dv y4)
                   (10 * dv m1 + dv m2) (10 * dv d1 + dv d2)
    else Raise ValueError.
Proof.
  intros Hd1 Hd2 Hm1 Hm2 Hy1 Hy2 Hy3 Hy4 Hsep Hsep'.
  destruct (separator_facts sep Hsep) as (_ & Ha & _).
  destruct (separator_facts sep' Hsep') as (Hnd & _ & _).
  unfold strptime. rewrite (parse_format_dmy sep' Hsep').
  rewrite (re_match_agree U HU).
  2:{ ascii_text. }
  rewrite re_match_dmy by done.
  destruct ((sep =? sep')%N && day2_ok d1 d2 && month2_ok m1 m2); [|done].
  change (zip (directives _) _)
    with [(DirDay, [d1; d2]); (DirMonth, [m1; m2]); (DirYear, [y1; y2; y3; y4])].
  cbn [assign_groups].
  rewrite (py_int_2 d1 d2), (py_int_2 m1 m2), (py_int_4 y1 y2 y3 y4) by done.
  reflexivity.
Qed.

Lemma strptime_ymd_on_dmy c1 c2 c3 rest :
  Ascii7.isdigit c3 = false -> ascii_str (c1 :: c2 :: c3 :: rest) ->
  strptime U (c1 :: c2 :: c3 :: rest) fmt_ymd = Raise ValueError.
Proof.
  intros H3 Ha. unfold strptime.
  change (parse_format fmt_ymd)
    with (Some [FDir DirYear; FLit 45%N; FDir DirMonth; FLit 45%N; FDir DirDay]).
  cbv beta iota.
  rewrite (re_match_agree U HU) by done. by rewrite re_match_ymd_on_dmy.
Qed.

Lemma strptime_dmy_on_digits sep' c1 c2 c3 rest :
  Ascii7.isdigit c1 = true -> Ascii7.isdigit c2 = true -> Ascii7.isdigit c3 = true ->
  sep' ∈ [46; 47; 45]%N -> ascii_str rest ->
  strptime U (c1 :: c2 :: c3 :: rest) (fmt_dmy sep') = Raise ValueError.
Proof.
  intros H1 H2 H3 Hsep' Ha.
  destruct (separator_facts sep' Hsep') as (Hnd & _ & _).
  unfold strptime. rewrite (parse_format_dmy sep' Hsep').
  rewrite (re_match_agree U HU).
  2:{ ascii_text. }
  by rewrite re_match_dmy_on_digits.
Qed.

Lemma strptime_ymd y1 y2 y3 y4 m1 m2 d1 d2 :
  Ascii7.isdigit d1 = true -> Ascii7.isdigit d2 = true ->
  Ascii7.isdigit m1 = true -> Ascii7.isdigit m2 = true ->
  Ascii7.isdigit y1 = true -> Ascii7.isdigit y2 = true ->
  Ascii7.isdigit y3 = true -> Ascii7.isdigit y4 = true ->
  strptime U [y1; y2; y3; y4; 45; m1; m2; 45; d1; d2]%N fmt_ymd
  = if month2_ok m1 m2 && day2_ok d1 d2
    then DT.of_ymd (1000 * dv y1 + 100 * dv y2 + 10 * dv y3 + dv y4)
                   (10 * dv m1 + dv m2) (10 * dv d1 + dv d2)
    else Raise ValueError.
Proof.
  intros Hd1 Hd2 Hm1 Hm2 Hy1 Hy2 Hy3 Hy4. unfold strptime.
  change (parse_format fmt_ymd)
    with (Some [FDir DirYear; FLit 45%N; FDir DirMonth; FLit 45%N; FDir DirDay]).
  cbv beta iota.
  rewrite (re_match_agree U HU).
  2:{ ascii_text. }
  rewrite re_match_ymd by done.
  destruct (month2_ok m1 m2); [|done].
  destruct (day2_ok d1 d2); [|by destruct (nonzero_digit d1)].
  change (zip (directives _) _)
    with [(DirYear, [y1; y2; y3; y4]); (DirMonth, [m1; m2]); (DirDay, [d1; d2])].
  cbn [andb assign_groups].
  rewrite (py_int_2 d1 d2), (py_int_2 m1 m2), (py_int_4 y1 y2 y3 y4) by done.
  reflexivity.
Qed.

Lemma named_month_attempt_digits c1 c2 c3 rest :
  Ascii7.isdigit c1 = true -> Ascii7.isdigit c2 = true ->
  is_ascii c3 = true -> Ascii7.isspace c3 = false -> ascii_str rest ->
  named_month_attempt U (c1 :: c2 :: c3 :: rest) = Ok None.
Proof.
  intros H1 H2 Ha Hs Hrest. unfold named_month_attempt.
  rewrite (re_match_agree U HU).
  2:{ ascii_text. }
  rewrite named_month_no_space; [done..|].
  cbn [cset_mem Ascii7.db uni_isspace]. by rewrite Ha, Hs.
Qed.

(** [parse_date] on [dd<sep>mm<sep>yyyy]. *)
Lemma parse_date_dmy_digits sep d1 d2 m1 m2 y1 y2 y3 y4 :
  Ascii7.isdigit d1 = true -> Ascii7.isdigit d2 = true ->
  Ascii7.isdigit m1 = true -> Ascii7.isdigit m2 = true ->
  Ascii7.isdigit y1 = true -> Ascii7.isdigit y2 = true ->
  Ascii7.isdigit y3 = true -> Ascii7.isdigit y4 = true ->
  sep ∈ [46; 47; 45]%N ->
  let y := 1000 * dv y1 + 100 * dv y2 + 10 * dv y3 + dv y4 in
  let m := 10 * dv m1 + dv m2 in
  let d := 10 * dv d1 + dv d2 in
  parse_date U [d1; d2; sep; m1; m2; sep; y1; y2; y3; y4]
  = Ok (if day2_ok d1 d2 && month2_ok m1 m2 && DT._check_date_fields y m d
        then Some (DT.mk y m d 0 0 0 0 None) else None).
Proof.
  intros Hd1 Hd2 Hm1 Hm2 Hy1 Hy2 Hy3 Hy4 Hsep y m d.
  destruct (separator_facts sep Hsep) as (Hnd & Ha & Hns).
  assert (Hrest : ascii_str [m1; m2; sep; y1; y2; y3; y4]).
  { ascii_text. }
  unfold parse_date. rewrite named_month_attempt_digits by done.
  cbn [rbind]. rewrite numeric_formats_eq. cbn [try_formats].
  rewrite !strptime_dmy by (done || set_solver).
  rewrite strptime_ymd_on_dmy.
  2: done.
  2:{ ascii_text. }
  fold y m d. rewrite of_ymd_check.
  destruct (day2_ok d1 d2), (month2_ok m1 m2), (DT._check_date_fields y m d);
    repeat (apply elem_of_cons in Hsep as [->|Hsep]; [reflexivity|]);
    by apply elem_of_nil in Hsep.
Qed.

(** [parse_date] on [yyyy-mm-dd]. *)
Lemma parse_date_ymd_digits y1 y2 y3 y4 m1 m2 d1 d2 :
  Ascii7.isdigit d1 = true -> Ascii7.isdigit d2 = true ->
  Ascii7.isdigit m1 = true -> Ascii7.isdigit m2 = true ->
  Ascii7.isdigit y1 = true -> Ascii7.isdigit y2 = true ->
  Ascii7.isdigit y3 = true -> Ascii7.isdigit y4 = true ->
  let y := 1000 * dv y1 + 100 * dv y2 + 10 * dv y3 + dv y4 in
  let m := 10 * dv m1 + dv m2 in
  let d := 10 * dv d1 + dv d2 in
  parse_date U [y1; y2; y3; y4; 45; m1; m2; 45; d1; d2]%N
  = Ok (if day2_ok d1 d2 && month2_ok m1 m2 && DT._check_date_fields y m d
        then Some (DT.mk y m d 0 0 0 0 None) else None).
Proof.
  intros Hd1 Hd2 Hm1 Hm2 Hy1 Hy2 Hy3 Hy4 y m d.
  assert (Hrest : ascii_str [y4; 45; m1; m2; 45; d1; d2]%N).
  { ascii_text. }
  unfold parse_date. rewrite named_month_attempt_digits; [|try done..].
  2: by apply digit_is_ascii.
  2: by apply digit_isspace.
  cbn [rbind]. rewrite numeric_formats_eq. cbn [try_formats].
  rewrite !strptime_dmy_on_digits by (done || set_solver).
  rewrite strptime_ymd by done.
  fold y m d. rewrite of_ymd_check.
  by destruct (day2_ok d1 d2), (month2_ok m1 m2), (DT._check_date_fields y m d).
Qed.
End DateParse.

(** ** Greedy repetition *)

Lemma consume_all_single s g : consume_all s [g] = [reverse s ++ g].
Proof.
  revert g. induction s as [|c s IH]; intros g; [done|].
  unfold consume_all in *. cbn [foldl consume fmap list_fmap]. rewrite IH.
  by rewrite reverse_cons, <- app_assoc.
Qed.

(** A repetition takes the whole of a stretch of characters of its
    class when the stretch ends the text, is followed by a character
    outside the class, or is as long as the repetition may be. *)
Lemma rep_greedy_span p lo hi prev s1 s2 opens caps k x :
  Forall (fun c => p c = true) s1 ->
  (lo <= length s1)%nat ->
  match hi with Some h => (length s1 <= h)%nat | None => True end ->
  from_option (fun c => p c = false) True (head s2) \/ hi = Some (length s1) ->
  k (prev_after prev s1) s2 (consume_all s1 opens) caps = Some x ->
  rep_greedy p lo hi prev (s1 ++ s2) opens caps k = Some x.
Proof.
  revert lo hi prev opens.
  induction s1 as [|c s1 IH]; intros lo hi prev opens Hall Hlo Hhi Hstop Hk.
  - cbn [length] in Hlo. assert (lo = 0%nat) as -> by lia.
    cbn [app]. destruct s2 as [|c s2]; [exact Hk|]. cbn [rep_greedy].
    destruct Hstop as [Hc | ->].
    + cbn in Hc. rewrite Hc. exact Hk.
    + cbn [length]. rewrite andb_false_r. exact Hk.
  - apply Forall_cons in Hall as [Hc Hall]. cbn [app rep_greedy]. rewrite Hc.
    assert (Hnz : match hi with Some 0%nat => false | _ => true end = true).
    { destruct hi as [[|h]|]; cbn [length] in Hhi; [lia|done..]. }
    rewrite Hnz. cbn [andb].
    rewrite (IH (Nat.pred lo) (Nat.pred <$> hi) (Some c) (consume c opens)); [done|done|..].
    + cbn [length] in Hlo. lia.
    + destruct hi as [h|]; [|done]. cbn [length fmap option_fmap option_map] in *. lia.
    + destruct Hstop as [Hs | ->]; [by left|]. by right.
    + by rewrite prev_after_cons in Hk.
Qed.

Section RepFacts.
Context (U : unicode_db).

Lemma rmatch_rep_span cs lo hi prev s1 s2 caps k x :
  Forall (fun c => cset_mem U cs c = true) s1 ->
  (lo <= length s1)%nat ->
  match hi with Some h => (length s1 <= h)%nat | None => True end ->
  from_option (fun c => cset_mem U cs c = false) True (head s2) \/ hi = Some (length s1) ->
  k (prev_after prev s1) s2 [] caps = Some x ->
  rmatch U (Rep cs lo hi) prev (s1 ++ s2) [] caps k = Some x.
Proof.
  intros Hall Hlo Hhi Hstop Hk. cbn [rmatch].
  apply rep_greedy_span; [done..|]. by rewrite consume_all_nil.
Qed.

Lemma rmatch_grp_rep_span cs lo hi prev s1 s2 caps k x :
  Forall (fun c => cset_mem U cs c = true) s1 ->
  (lo <= length s1)%nat ->
  match hi with Some h => (length s1 <= h)%nat | None => True end ->
  from_option (fun c => cset_mem U cs c = false) True (head s2) \/ hi = Some (length s1) ->
  k (prev_after prev s1) s2 [] (caps ++ [s1]) = Some x ->
  rmatch U (Grp (Rep cs lo hi)) prev (s1 ++ s2) [] caps k = Some x.
Proof.
  intros Hall Hlo Hhi Hstop Hk. cbn [rmatch].
  apply rep_greedy_span; [done..|]. rewrite consume_all_single.
  cbn [close_group fst snd]. by rewrite app_nil_r, reverse_involutive.
Qed.

(** The named-month pattern on digits, whitespace, a word, whitespace
    and four digits. *)
Lemma re_match_named_month ds ws1 name ws2 ys rest :
  Forall (fun c => cset_mem U CDigit c = true) ds -> (1 <= length ds <= 2)%nat ->
  Forall (fun c => cset_mem U CSpace c = true) ws1 -> ws1 <> [] ->
  Forall (fun c => cset_mem U CWord c = true) name -> name <> [] ->
  Forall (fun c => cset_mem U CSpace c = true) ws2 -> ws2 <> [] ->
  Forall (fun c => cset_mem U CDigit c = true) ys -> length ys = 4%nat ->
  from_option (fun c => cset_mem U CDigit c = false) True (head ws1) ->
  from_option (fun c => cset_mem U CSpace c = false) True (head name) ->
  from_option (fun c => cset_mem U CWord c = false) True (head ws2) ->
  from_option (fun c => cset_mem U CSpace c = false) True (head ys) ->
  re_match U named_month_re (ds ++ ws1 ++ name ++ ws2 ++ ys ++ rest)
  = Some (rest, [ds; name; ys]).
Proof.
  intros Hds Hlds Hws1 Hn1 Hname Hnn Hws2 Hn2 Hys Hlys H1 H2 H3 H4.
  assert (Hlen : forall (s : str), s <> [] -> (1 <= length s)%nat).
  { intros [|? ?] ?; [done|cbn [length]; lia]. }
  assert (Hhead : forall (P : N -> Prop) (s t : str), s <> [] ->
            from_option P True (head s) -> from_option P True (head (s ++ t))).
  { intros P [|? ?] t ? ?; done. }
  unfold re_match, named_month_re.
  change (rmatch U (Cat ?r1 ?r2) ?p ?s ?o ?c ?k)
    with (rmatch U r1 p s o c (fun p' s' o' c' => rmatch U r2 p' s' o' c' k)).
  apply rmatch_grp_rep_span; [done|lia|lia|left; by apply Hhead|].
  change (rmatch U (Cat ?r1 ?r2) ?p ?s ?o ?c ?k)
    with (rmatch U r1 p s o c (fun p' s' o' c' => rmatch U r2 p' s' o' c' k)).
  apply rmatch_rep_span; [done|by apply Hlen|done|left; by apply Hhead|].
  change (rmatch U (Cat ?r1 ?r2) ?p ?s ?o ?c ?k)
    with (rmatch U r1 p s o c (fun p' s' o' c' => rmatch U r2 p' s' o' c' k)).
  apply rmatch_grp_rep_span; [done|by apply Hlen|done|left; by apply Hhead|].
  change (rmatch U (Cat ?r1 ?r2) ?p ?s ?o ?c ?k)
    with (rmatch U r1 p s o c (fun p' s' o' c' => rmatch U r2 p' s' o' c' k)).
  apply rmatch_rep_span; [done|by apply Hlen|done|left|].
  { apply Hhead; [|done]. by destruct ys. }
  apply rmatch_grp_rep_span; [done|lia|lia|right; by rewrite Hlys|].
  reflexivity.
Qed.
End RepFacts.

(** ** The numeric formats on text that is no numeric rendering *)

Section DateMismatch.
Local Abbreviation A := Ascii7.db.

Lemma nondigit_in_range lo hi c :
  Ascii7.isdigit c = false -> (48 <= lo)%N -> (hi <= 57)%N ->
  Ascii7.in_range lo hi c = false.
Proof.
  unfold Ascii7.isdigit, Ascii7.in_range. intros H Hlo Hhi.
  apply andb_false_iff in H. apply andb_false_iff.
  rewrite !N.leb_gt in *. lia.
Qed.

Lemma rmatch_day_nondigit c1 c2 prev rest caps k :
  Ascii7.isdigit c1 = true -> Ascii7.isdigit c2 = false ->
  (nonzero_digit c1 = true -> k (Some c1) (c2 :: rest) [] (caps ++ [[c1]]) = None) ->
  rmatch A (directive_regex DirDay) prev (c1 :: c2 :: rest) [] caps k = None.
Proof.
  intros H1 H2 Hk.
  pose proof (nondigit_in_range 48 49 c2 H2 ltac:(lia) ltac:(lia)) as E1.
  pose proof (nondigit_in_range 49 57 c2 H2 ltac:(lia) ltac:(lia)) as E2.
  pose proof (cset_mem_nondigit c2 H2) as E3. cbn [cset_mem] in E3.
  assert (E4 : rmatch A (directive_regex DirDay) prev (c1 :: c2 :: rest) [] caps k
               = if nonzero_digit c1 then k (Some c1) (c2 :: rest) [] (caps ++ [[c1]])
                 else None).
  { unfold directive_regex, lit_digit, digit_range.
    change (48 + 0)%N with 48%N. change (48 + 1)%N with 49%N.
    change (48 + 2)%N with 50%N. change (48 + 3)%N with 51%N.
    change (48 + 9)%N with 57%N.
    cbn [rmatch cset_mem consume fmap list_fmap close_group fst snd].
    rewrite E1, E2, E3.
    digit_cases H1; cbn [N.eqb Pos.eqb Ascii7.in_range N.leb N.compare Pos.compare
      Pos.compare_cont andb reverse rev_append fst snd nonzero_digit];
      try reflexivity; by destruct (k _ _ _ _). }
  rewrite E4. destruct (nonzero_digit c1); [by apply Hk|done].
Qed.

(** A day-first format when the day is not followed by the format's
    separator. *)
Lemma re_match_dmy_no_separator sep' c1 c2 rest :
  Ascii7.isdigit c1 = true -> Ascii7.isdigit sep' = false ->
  (c2 =? sep')%N = false ->
  (Ascii7.isdigit c2 = true -> from_option (fun c => (c =? sep')%N = false) True (head rest)) ->
  re_match A (format_regex [FDir DirDay; FLit sep'; FDir DirMonth; FLit sep'; FDir DirYear])
    (c1 :: c2 :: rest) = None.
Proof.
  intros H1 Hsep Hc2 Hrest. unfold re_match, format_regex.
  cbn [fmap list_fmap cat_all foldr rmatch].
  destruct (Ascii7.isdigit c2) eqn:H2.
  - apply rmatch_day_fail; [done..| |]; intros _; cbv beta.
    + destruct rest as [|c3 rest]; [done|]. cbn [cset_mem]. cbn in Hrest.
      by rewrite Hrest.
    + cbn [cset_mem]. by rewrite Hc2.
  - apply rmatch_day_nondigit; [done..|]. intros _. cbv beta. cbn [cset_mem].
    by rewrite Hc2.
Qed.

(** The year-first format on text with a character that is no digit
    among its first four. *)
Lemma re_match_ymd_no_year c1 c2 rest :
  Ascii7.isdigit c2 = false
  \/ from_option (fun c => Ascii7.isdigit c = false) True (head rest) ->
  re_match A (format_regex [FDir DirYear; FLit 45; FDir DirMonth; FLit 45; FDir DirDay])
    (c1 :: c2 :: rest) = None.
Proof.
  intros H. unfold re_match, format_regex.
  cbn [fmap list_fmap cat_all foldr rmatch directive_regex].
  destruct H as [H2|H3].
  - rewrite (cset_mem_nondigit c2 H2). by destruct (cset_mem A CDigit c1).
  - destruct rest as [|c3 rest].
    + by destruct (cset_mem A CDigit c1), (cset_mem A CDigit c2).
    + cbn in H3. rewrite (cset_mem_nondigit c3 H3).
      by destruct (cset_mem A CDigit c1), (cset_mem A CDigit c2).
Qed.
End DateMismatch.

(** ** [parse_date] on dates with a named month *)

Ltac range_cases :=
  unfold Ascii7.isword, Ascii7.isspace, Ascii7.isdigit, Ascii7.isupper,
    Ascii7.islower, Ascii7.lower, Ascii7.in_range, is_ascii in *;
  repeat match goal with
         | H : context [(?a <=? ?b)%N] |- _ => destruct (N.leb_spec a b)
         | |- context [(?a <=? ?b)%N] => destruct (N.leb_spec a b)
         | H : context [(?a <? ?b)%N] |- _ => destruct (N.ltb_spec a b)
         | |- context [(?a <? ?b)%N] => destruct (N.ltb_spec a b)
         | H : context [(?a =? ?b)%N] |- _ => destruct (N.eqb_spec a b)
         | |- context [(?a =? ?b)%N] => destruct (N.eqb_spec a b)
         end;
  cbn in *; try done; try lia.

Lemma space_facts c :
  Ascii7.isspace c = true ->
  is_ascii c = true /\ Ascii7.isdigit c = false /\ Ascii7.isword c = false.
Proof. intros H. repeat split; range_cases. Qed.

Lemma letter_facts c :
  Ascii7.islower (Ascii7.lower c) = true ->
  is_ascii c = true /\ Ascii7.isword c = true /\ Ascii7.isspace c = false.
Proof.
  unfold Ascii7.lower. intros H.
  destruct (Ascii7.isupper c) eqn:Hu; repeat split; range_cases.
Qed.

Lemma ro_month_names_lower key :
  key ∈ ro_month_names -> key <> [] /\ Forall (fun c => Ascii7.islower c = true) key.
Proof.
  intros H. unfold ro_month_names in H.
  repeat (apply elem_of_cons in H as [->|H];
          [split; [done|apply Forall_forall; intros c Hc; apply list_elem_of_In in Hc;
                       revert c Hc; apply forallb_forall; vm_compute; reflexivity]|]).
  by apply elem_of_nil in H.
Qed.

Lemma ro_month_number U key i :
  ascii_faithful U ->
  ro_month_names !! i = Some key ->
  exists c num, dict_get ro_months key = Some (c :: num)
                /\ py_int U (c :: num) = Ok (Z.of_nat i + 1)%Z.
Proof.
  intros HU Hi.
  do 12 (destruct i as [|i];
         [injection Hi as <-; eexists _, _; split; [vm_compute; reflexivity|];
          by rewrite (py_int_2 U HU)|]).
  done.
Qed.

Section NamedMonth.
Context (U : unicode_db) (HU : ascii_faithful U).
Local Open Scope Z_scope.

Lemma strip_no_space s :
  Forall (fun c => uni_isspace U c = false) s -> strip U s = s.
Proof.
  intros Hs. unfold strip.
  assert (Hl : forall t, Forall (fun c => uni_isspace U c = false) t -> lstrip U t = t).
  { intros [|c t] Ht; [done|]. apply Forall_cons in Ht as [Hc _]. cbn [lstrip]. by rewrite Hc. }
  rewrite (Hl s Hs), Hl by by apply Forall_reverse. apply reverse_involutive.
Qed.

Lemma digits_value_digits acc s :
  Forall (fun c => Ascii7.isdigit c = true) s ->
  digits_value U acc s = Some (foldl (fun a c => 10 * a + (Z.of_N c - 48)) acc s).
Proof.
  revert acc. induction s as [|c s IH]; intros acc Hs; [done|].
  apply Forall_cons in Hs as [Hc Hs]. cbn [digits_value foldl].
  by rewrite (uni_digit_decimal U HU c Hc), IH.
Qed.

Lemma py_int_digits s :
  s <> [] -> Forall (fun c => Ascii7.isdigit c = true) s ->
  py_int U s = Ok (decimal_value s).
Proof.
  intros Hne Hs. unfold py_int. rewrite strip_no_space.
  - destruct s as [|c s]; [done|]. by rewrite digits_value_digits.
  - eapply Forall_impl; [exact Hs|]. intros c Hc. by apply (uni_digit_not_space U HU).
Qed.

Lemma cset_digit c : Ascii7.isdigit c = true -> cset_mem U CDigit c = true.
Proof.
  intros H. cbn [cset_mem]. rewrite (uni_digit_decimal U HU c H).
  by apply bool_decide_eq_true_2.
Qed.

Lemma cset_space c :
  Ascii7.isspace c = true ->
  cset_mem U CSpace c = true /\ cset_mem U CDigit c = false /\ cset_mem U CWord c = false.
Proof.
  intros H. destruct (space_facts c H) as (Ha & Hd & Hw). cbn [cset_mem].
  rewrite (af_isspace U HU c Ha), (af_isword U HU c Ha), (af_decimal U HU c Ha).
  unfold Ascii7.decimal. rewrite Hd. split; [done|]. split; [|done].
  apply bool_decide_eq_false_2. by intros [? ?].
Qed.

Lemma cset_letter c :
  Ascii7.islower (Ascii7.lower c) = true ->
  cset_mem U CWord c = true /\ cset_mem U CSpace c = false.
Proof.
  intros H. destruct (letter_facts c H) as (Ha & Hw & Hs). cbn [cset_mem].
  by rewrite (af_isspace U HU c Ha), (af_isword U HU c Ha).
Qed.

(** The four numeric formats refuse text that starts with one or two
    digits and whitespace. *)
Lemma try_formats_after_day c1 c2 rest :
  ascii_str (c1 :: c2 :: rest) ->
  Ascii7.isdigit c1 = true ->
  Ascii7.isspace c2 = true
  \/ (Ascii7.isdigit c2 = true
      /\ from_option (fun c => Ascii7.isspace c = true) False (head rest)) ->
  try_formats U numeric_formats (c1 :: c2 :: rest) = Ok None.
Proof.
  intros Ha H1 H2.
  assert (Hdmy : forall sep', sep' ∈ [46; 47; 45]%N ->
            strptime U (c1 :: c2 :: rest) (fmt_dmy sep') = Raise ValueError).
  { intros sep' Hsep'. destruct (separator_facts sep' Hsep') as (Hnd & _ & Hns).
    unfold strptime. rewrite (parse_format_dmy sep' Hsep').
    rewrite (re_match_agree U HU) by done.
    rewrite re_match_dmy_no_separator; [done..| |].
    - apply N.eqb_neq. intros ->. destruct H2 as [H2|[H2 _]]; congruence.
    - intros Hd. destruct H2 as [H2|[_ H2]].
      + destruct (space_facts c2 H2) as (_ & ? & _). congruence.
      + destruct rest as [|c3 rest]; [done|]. cbn in *.
        apply N.eqb_neq. intros ->. congruence. }
  assert (Hymd : strptime U (c1 :: c2 :: rest) fmt_ymd = Raise ValueError).
  { unfold strptime.
    change (parse_format fmt_ymd)
      with (Some [FDir DirYear; FLit 45%N; FDir DirMonth; FLit 45%N; FDir DirDay]).
    cbv beta iota. rewrite (re_match_agree U HU) by done.
    rewrite re_match_ymd_no_year; [done|].
    destruct H2 as [H2|[_ H2]].
    - left. by destruct (space_facts c2 H2) as (_ & ? & _).
    - right. destruct rest as [|c3 rest]; [done|]. cbn in *.
      by destruct (space_facts c3 H2) as (_ & ? & _). }
  rewrite numeric_formats_eq. cbn [try_formats].
  rewrite !Hdmy by set_solver. by rewrite Hymd.
Qed.

(** A day of one or two digits, whitespace, a month name in any case,
    whitespace, a year of four digits, and whatever follows. *)
Lemma parse_date_named_text ds ws1 name ws2 ys rest i :
  Forall (fun c => Ascii7.isdigit c = true) ds -> (1 <= length ds <= 2)%nat ->
  Forall (fun c => Ascii7.isspace c = true) ws1 -> ws1 <> [] ->
  ro_month_names !! i = Some (Ascii7.lower <$> name) ->
  Forall (fun c => Ascii7.isspace c = true) ws2 -> ws2 <> [] ->
  Forall (fun c => Ascii7.isdigit c = true) ys -> length ys = 4%nat ->
  ascii_str rest ->
  let y := decimal_value ys in
  let m := Z.of_nat i + 1 in
  let d := decimal_value ds in
  parse_date U (ds ++ ws1 ++ name ++ ws2 ++ ys ++ rest)
  = Ok (if DT._check_date_fields y m d then Some (DT.mk y m d 0 0 0 0 None) else None).
Proof.
  intros Hds Hlds Hws1 Hn1 Hi Hws2 Hn2 Hys Hlys Hrest y m d.
  destruct (ro_month_names_lower (Ascii7.lower <$> name)) as [Hkn Hkey].
  { by eapply list_elem_of_lookup_2. }
  apply Forall_fmap in Hkey.
  assert (Hnn : name <> []) by by intros ->.
  assert (Haname : ascii_str name).
  { eapply Forall_impl; [exact Hkey|]. intros c Hc. by apply letter_facts. }
  assert (Hads : ascii_str ds).
  { eapply Forall_impl; [exact Hds|]. intros c Hc. by apply digit_is_ascii. }
  assert (Hays : ascii_str ys).
  { eapply Forall_impl; [exact Hys|]. intros c Hc. by apply digit_is_ascii. }
  assert (Haws1 : ascii_str ws1).
  { eapply Forall_impl; [exact Hws1|]. intros c Hc. by apply space_facts. }
  assert (Haws2 : ascii_str ws2).
  { eapply Forall_impl; [exact Hws2|]. intros c Hc. by apply space_facts. }
  assert (Hnamed : named_month_attempt U (ds ++ ws1 ++ name ++ ws2 ++ ys ++ rest)
            = Ok (if DT._check_date_fields y m d
                  then Some (DT.mk y m d 0 0 0 0 None) else None)).
  { unfold named_month_attempt. rewrite re_match_named_month; try done.
    - rewrite (lower_ascii U HU) by done.
      destruct (ro_month_number U _ i HU Hi) as (c & num & -> & Hnum).
      rewrite Hnum, !py_int_digits; try done.
      + cbn [rbind]. fold y m d. rewrite of_ymd_check.
        by destruct (DT._check_date_fields y m d).
      + intros ->. cbn [length] in Hlds. lia.
      + by intros ->.
    - eapply Forall_impl; [exact Hds|]. intros c Hc. by apply cset_digit.
    - eapply Forall_impl; [exact Hws1|]. intros c Hc. by apply cset_space.
    - eapply Forall_impl; [exact Hkey|]. intros c Hc. by apply cset_letter.
    - eapply Forall_impl; [exact Hws2|]. intros c Hc. by apply cset_space.
    - eapply Forall_impl; [exact Hys|]. intros c Hc. by apply cset_digit.
    - destruct ws1 as [|w ws1]; [done|]. apply Forall_cons in Hws1 as [Hw _].
      cbn. by apply cset_space.
    - destruct name as [|a name]; [done|]. apply Forall_cons in Hkey as [Hk _].
      cbn. by apply cset_letter.
    - destruct ws2 as [|w ws2]; [done|]. apply Forall_cons in Hws2 as [Hw _].
      cbn. by apply cset_space.
    - destruct ys as [|a ys]; [done|]. apply Forall_cons in Hys as [Hk _].
      cbn. cbn [cset_mem]. by apply (uni_digit_not_space U HU). }
  unfold parse_date. rewrite Hnamed. cbn [rbind].
  destruct (DT._check_date_fields y m d); [done|].
  destruct ws1 as [|w ws1]; [done|]. apply Forall_cons in Hws1 as [Hw Hws1].
  assert (Hatail : ascii_str (ws1 ++ name ++ ws2 ++ ys ++ rest)).
  { apply Forall_cons in Haws1 as [_ ?]. by repeat apply Forall_app_2. }
  assert (Haw : is_ascii w = true) by by apply space_facts.
  destruct ds as [|c1 [|c2 [|c3 ds]]]; cbn [length] in Hlds; [lia| | |lia].
  - apply Forall_cons in Hds as [H1 _]. apply try_formats_after_day.
    + constructor; [by apply digit_is_ascii|]. by constructor.
    + done.
    + by left.
  - apply Forall_cons in Hds as [H1 [H2 _]%Forall_cons]. apply try_formats_after_day.
    + constructor; [by apply digit_is_ascii|]. constructor; [by apply digit_is_ascii|].
      by constructor.
    + done.
    + right. by split.
Qed.
End NamedMonth.

(** ** [parse_date]: what it returns *)

Lemma of_ymd_inv y m d t :
  DT.of_ymd y m d = Ok t ->
  DT._check_date_fields y m d = true /\ t = DT.mk y m d 0 0 0 0 None.
Proof.
  rewrite of_ymd_check. destruct (DT._check_date_fields y m d); [|done].
  by intros [= <-].
Qed.

Lemma of_ymd_calendar y m d t : DT.of_ymd y m d = Ok t -> calendar_date t.
Proof. intros [Hc ->]%of_ymd_inv. by split. Qed.

Lemma of_ymd_raises y m d e : DT.of_ymd y m d = Raise e -> e = ValueError.
Proof.
  rewrite of_ymd_check. destruct (DT._check_date_fields y m d); [done|].
  by intros [= <-].
Qed.

Lemma check_date_fields_bounds y m d :
  DT._check_date_fields y m d = true ->
  (1 <= y <= 9999 /\ 1 <= m <= 12 /\ 1 <= d <= 31)%Z.
Proof.
  unfold DT._check_date_fields, DT.MINYEAR, DT.MAXYEAR.
  rewrite !andb_true_iff, !Z.leb_le. intros (((((? & ?) & ?) & ?) & ?) & Hd).
  assert (DT._days_in_month y m <= 31)%Z; [|lia].
  unfold DT._days_in_month. destruct ((m =? 2)%Z && DT._is_leap y); [lia|].
  assert (m = 1 \/ m = 2 \/ m = 3 \/ m = 4 \/ m = 5 \/ m = 6 \/ m = 7 \/ m = 8
          \/ m = 9 \/ m = 10 \/ m = 11 \/ m = 12)%Z as Hm by lia.
  repeat (destruct Hm as [->|Hm]; [vm_compute; discriminate|]).
  subst m. vm_compute. discriminate.
Qed.

Lemma dict_get_unknown (d : list (str * str)) k : k ∉ d.*1 -> dict_get d k = None.
Proof.
  unfold dict_get. induction d as [|[k' v] d IH]; intros Hk; [done|].
  cbn [List.find fst]. rewrite bool_decide_eq_false_2.
  - apply IH. intros ?. apply Hk. by apply list_elem_of_further.
  - intros ->. apply Hk. apply list_elem_of_here.
Qed.

Lemma lower_of_islower c : Ascii7.islower c = true -> Ascii7.lower c = c.
Proof.
  intros H. unfold Ascii7.lower.
  destruct (Ascii7.isupper c) eqn:Hu; [|done]. exfalso. range_cases.
Qed.

Section ParseDateResults.
Context (U : unicode_db).

Lemma py_int_raises s e : py_int U s = Raise e -> e = ValueError.
Proof.
  unfold py_int. destruct (strip U s); [by intros [= <-]|].
  destruct (digits_value U 0 _); [done|]. by intros [= <-].
Qed.

Lemma assign_groups_raises gs acc e :
  assign_groups U gs acc = Raise e -> e = ValueError.
Proof.
  revert acc. induction gs as [|[d text] gs IH]; intros acc; [done|].
  cbn [assign_groups]. destruct (py_int U text) as [n|e'] eqn:Hn; cbn [rbind].
  - apply IH.
  - intros [= <-]. by eapply py_int_raises.
Qed.

Lemma strptime_raises s fmt e : strptime U s fmt = Raise e -> e = ValueError.
Proof.
  unfold strptime. destruct (parse_format fmt) as [items|]; [|by intros [= <-]].
  destruct (re_match U _ s) as [[rest groups]|]; [|by intros [= <-]].
  destruct rest; [|by intros [= <-]].
  destruct (assign_groups U _ _) as [f|e'] eqn:Hf; cbn [rbind].
  - apply of_ymd_raises.
  - intros [= <-]. by eapply assign_groups_raises.
Qed.

Lemma strptime_calendar s fmt t : strptime U s fmt = Ok t -> calendar_date t.
Proof.
  unfold strptime. destruct (parse_format fmt) as [items|]; [|done].
  destruct (re_match U _ s) as [[rest groups]|]; [|done].
  destruct rest; [|done].
  destruct (assign_groups U _ _) as [f|e'] eqn:Hf; cbn [rbind]; [|done].
  apply of_ymd_calendar.
Qed.

Lemma strptime_no_match s fmt :
  ~ full_match U fmt s -> strptime U s fmt = Raise ValueError.
Proof.
  intros Hno. unfold strptime. destruct (parse_format fmt) as [items|] eqn:Hf; [|done].
  destruct (re_match U _ s) as [[rest groups]|] eqn:Hm; [|done].
  destruct rest; [|done]. destruct Hno. by exists items, groups.
Qed.

Lemma try_formats_returns fmts s :
  exists o, try_formats U fmts s = Ok o
            /\ from_option calendar_date True o.
Proof.
  induction fmts as [|fmt fmts IH]; [by exists None|]. cbn [try_formats].
  destruct (strptime U s fmt) as [t|e] eqn:Ht; cbn [rbind except_value_error].
  - exists (Some t). split; [done|]. by eapply strptime_calendar.
  - apply strptime_raises in Ht as ->. exact IH.
Qed.

Lemma named_month_attempt_returns s :
  exists o, named_month_attempt U s = Ok o
            /\ from_option calendar_date True o.
Proof.
  unfold named_month_attempt.
  destruct (re_match U named_month_re s) as [[rest [|day [|name [|year [|? ?]]]]]|];
    try by exists None.
  destruct (dict_get ro_months (lower U name)) as [[|c num]|]; try by exists None.
  destruct (py_int U year) as [y|e] eqn:Hy; cbn [rbind except_value_error].
  2:{ apply py_int_raises in Hy as ->. by exists None. }
  destruct (py_int U (c :: num)) as [m|e] eqn:Hm; cbn [rbind except_value_error].
  2:{ apply py_int_raises in Hm as ->. by exists None. }
  destruct (py_int U day) as [d|e] eqn:Hd; cbn [rbind except_value_error].
  2:{ apply py_int_raises in Hd as ->. by exists None. }
  destruct (DT.of_ymd y m d) as [t|e] eqn:Ht; cbn [rbind except_value_error].
  - exists (Some t). split; [done|]. by eapply of_ymd_calendar.
  - apply of_ymd_raises in Ht as ->. by exists None.
Qed.

Lemma parse_date_returns s :
  exists o, parse_date U s = Ok o /\ from_option calendar_date True o.
Proof.
  unfold parse_date.
  destruct (named_month_attempt_returns s) as ([t|] & -> & Ht); cbn [rbind].
  - by exists (Some t).
  - apply try_formats_returns.
Qed.

Lemma parse_date_no_pattern s :
  matches_no_pattern U s -> parse_date U s = Ok None.
Proof.
  intros [Hnamed Hnum]. unfold parse_date.
  assert (named_month_attempt U s = Ok None) as ->.
  { unfold named_month_attempt.
    destruct (re_match U named_month_re s) as [[rest [|day [|name [|year [|? ?]]]]]|]
      eqn:Hm; try done.
    rewrite dict_get_unknown; [done|]. by eapply Hnamed. }
  cbn [rbind]. revert Hnum. generalize numeric_formats.
  intros fmts. induction fmts as [|fmt fmts IH]; intros Hnum; [done|].
  cbn [try_formats]. rewrite strptime_no_match.
  - apply IH. intros f Hf. apply Hnum. by apply list_elem_of_further.
  - apply Hnum. apply list_elem_of_here.
Qed.

Context (HU : ascii_faithful U).
Local Open Scope Z_scope.

Lemma render_digits n :
  0 <= n < 100 ->
  Ascii7.isdigit (digit_char (n / 10)) = true
  /\ Ascii7.isdigit (digit_char (n mod 10)) = true
  /\ 10 * (Z.of_N (digit_char (n / 10)) - 48) + (Z.of_N (digit_char (n mod 10)) - 48) = n.
Proof.
  intros Hn.
  assert (0 <= n / 10 <= 9) by (Z.div_mod_to_equations; lia).
  assert (0 <= n mod 10 <= 9) by (Z.div_mod_to_equations; lia).
  split; [by apply digit_char_isdigit|]. split; [by apply digit_char_isdigit|].
  rewrite !digit_char_value by lia. Z.div_mod_to_equations; lia.
Qed.

Lemma render4_digits n :
  0 <= n < 10000 ->
  Ascii7.isdigit (digit_char (n / 1000)) = true
  /\ Ascii7.isdigit (digit_char (n / 100 mod 10)) = true
  /\ Ascii7.isdigit (digit_char (n / 10 mod 10)) = true
  /\ Ascii7.isdigit (digit_char (n mod 10)) = true
  /\ 1000 * (Z.of_N (digit_char (n / 1000)) - 48)
     + 100 * (Z.of_N (digit_char (n / 100 mod 10)) - 48)
     + 10 * (Z.of_N (digit_char (n / 10 mod 10)) - 48)
     + (Z.of_N (digit_char (n mod 10)) - 48) = n.
Proof.
  intros Hn.
  assert (0 <= n / 1000 <= 9) by (Z.div_mod_to_equations; lia).
  assert (0 <= n / 100 mod 10 <= 9) by (Z.div_mod_to_equations; lia).
  assert (0 <= n / 10 mod 10 <= 9) by (Z.div_mod_to_equations; lia).
  assert (0 <= n mod 10 <= 9) by (Z.div_mod_to_equations; lia).
  repeat (split; [by apply digit_char_isdigit|]).
  rewrite !digit_char_value by lia. Z.div_mod_to_equations; lia.
Qed.

Lemma render_ok_of_check y m d :
  0 <= m < 100 -> 0 <= d < 100 ->
  day2_ok (digit_char (d / 10)) (digit_char (d mod 10))
  && month2_ok (digit_char (m / 10)) (digit_char (m mod 10))
  && DT._check_date_fields y m d
  = DT._check_date_fields y m d.
Proof.
  intros Hm Hd. rewrite day2_ok_render, month2_ok_render by done.
  destruct (DT._check_date_fields y m d) eqn:Hc; [|by rewrite andb_false_r].
  apply check_date_fields_bounds in Hc as (_ & ? & ?).
  rewrite andb_true_r, !andb_true_iff, !Z.leb_le. lia.
Qed.

Lemma parse_date_render_dmy sep y m d :
  sep ∈ [46; 47; 45]%N -> 0 <= y < 10000 -> 0 <= m < 100 -> 0 <= d < 100 ->
  parse_date U (render_dmy sep y m d)
  = Ok (if DT._check_date_fields y m d then Some (DT.mk y m d 0 0 0 0 None) else None).
Proof.
  intros Hsep Hy Hm Hd.
  destruct (render_digits d Hd) as (Hd1 & Hd2 & Hdv).
  destruct (render_digits m Hm) as (Hm1 & Hm2 & Hmv).
  destruct (render4_digits y Hy) as (Hy1 & Hy2 & Hy3 & Hy4 & Hyv).
  unfold render_dmy, render2, render4. cbn [app].
  rewrite (parse_date_dmy_digits U HU) by done. cbv zeta.
  rewrite Hdv, Hmv, Hyv. by rewrite render_ok_of_check.
Qed.

Lemma parse_date_render_ymd y m d :
  0 <= y < 10000 -> 0 <= m < 100 -> 0 <= d < 100 ->
  parse_date U (render_ymd y m d)
  = Ok (if DT._check_date_fields y m d then Some (DT.mk y m d 0 0 0 0 None) else None).
Proof.
  intros Hy Hm Hd.
  destruct (render_digits d Hd) as (Hd1 & Hd2 & Hdv).
  destruct (render_digits m Hm) as (Hm1 & Hm2 & Hmv).
  destruct (render4_digits y Hy) as (Hy1 & Hy2 & Hy3 & Hy4 & Hyv).
  unfold render_ymd, render2, render4. cbn [app].
  rewrite (parse_date_ymd_digits U HU) by done. cbv zeta.
  rewrite Hdv, Hmv, Hyv. by rewrite render_ok_of_check.
Qed.

Lemma parse_date_render_named i name y d :
  ro_month_names !! i = Some name -> 0 <= y < 10000 -> 0 <= d < 100 ->
  parse_date U (render2 d ++ [32%N] ++ name ++ [32%N] ++ render4 y)
  = Ok (if DT._check_date_fields y (Z.of_nat i + 1) d
        then Some (DT.mk y (Z.of_nat i + 1) d 0 0 0 0 None) else None).
Proof.
  intros Hi Hy Hd.
  destruct (render_digits d Hd) as (Hd1 & Hd2 & Hdv).
  destruct (render4_digits y Hy) as (Hy1 & Hy2 & Hy3 & Hy4 & Hyv).
  destruct (ro_month_names_lower name) as [_ Hlow]; [by eapply list_elem_of_lookup_2|].
  assert (Hname : Ascii7.lower <$> name = name).
  { clear Hi. induction Hlow as [|c name Hc _ IH]; [done|]. cbn [fmap list_fmap].
    f_equal; [by apply lower_of_islower|exact IH]. }
  pose proof (parse_date_named_text U HU (render2 d) [32%N] name [32%N] (render4 y) [] i)
    as H.
  assert (Ed : decimal_value (render2 d) = d).
  { unfold decimal_value, render2. cbn [foldl]. lia. }
  assert (Ey : decimal_value (render4 y) = y).
  { unfold decimal_value, render4. cbn [foldl]. lia. }
  cbv zeta in H. rewrite app_nil_r, Ed, Ey in H. apply H; clear H.
  - by repeat constructor.
  - cbn [render2 length]. lia.
  - by repeat constructor.
  - done.
  - by rewrite Hname.
  - by repeat constructor.
  - done.
  - by repeat constructor.
  - done.
  - constructor.
Qed.
End ParseDateResults.

(** ** What a match tells about the text *)

Lemma rep_greedy_inv p lo hi prev s opens caps k x :
  rep_greedy p lo hi prev s opens caps k = Some x ->
  exists s1 s2,
    s = s1 ++ s2 /\ Forall (fun c => p c = true) s1 /\ (lo <= length s1)%nat
    /\ k (prev_after prev s1) s2 (consume_all s1 opens) caps = Some x.
Proof.
  revert lo hi prev opens. induction s as [|c s IH]; intros lo hi prev opens H.
  { cbn [rep_greedy] in H. destruct lo; [|done]. exists [], []. by repeat split. }
  cbn [rep_greedy] in H.
  assert (Hstop : match lo with O => k prev (c :: s) opens caps | S _ => None end = Some x ->
            exists s1 s2, c :: s = s1 ++ s2 /\ Forall (fun c => p c = true) s1
              /\ (lo <= length s1)%nat
              /\ k (prev_after prev s1) s2 (consume_all s1 opens) caps = Some x).
  { intros Hs. destruct lo; [|done]. exists [], (c :: s). by repeat split. }
  destruct (p c && match hi with Some O => false | _ => true end) eqn:Hc; [|by apply Hstop].
  destruct (rep_greedy p (Nat.pred lo) (Nat.pred <$> hi) (Some c) s (consume c opens) caps k)
    as [r|] eqn:Hr; [|by apply Hstop].
  injection H as ->. apply andb_true_iff in Hc as [Hc _].
  destruct (IH _ _ _ _ Hr) as (s1 & s2 & -> & Hall & Hlo & Hk).
  exists (c :: s1), s2. split; [done|]. split; [by constructor|].
  split; [cbn [length]; lia|]. by rewrite prev_after_cons.
Qed.

Section MatchInversion.
Context (U : unicode_db).

Lemma rmatch_chr_inv cs prev s opens caps k x :
  rmatch U (Chr cs) prev s opens caps k = Some x ->
  exists c s', s = c :: s' /\ cset_mem U cs c = true
               /\ k (Some c) s' (consume c opens) caps = Some x.
Proof.
  cbn [rmatch]. destruct s as [|c s']; [done|].
  destruct (cset_mem U cs c) eqn:Hc; [|done]. intros H. by exists c, s'.
Qed.

Lemma rmatch_alt_inv r1 r2 prev s opens caps k x :
  rmatch U (Alt r1 r2) prev s opens caps k = Some x ->
  rmatch U r1 prev s opens caps k = Some x \/ rmatch U r2 prev s opens caps k = Some x.
Proof.
  cbn [rmatch]. destruct (rmatch U r1 prev s opens caps k); [by left|by right].
Qed.

(** A pair of two character sets. *)
Lemma rmatch_chr2_inv cs1 cs2 prev s opens caps k x :
  rmatch U (Cat (Chr cs1) (Chr cs2)) prev s opens caps k = Some x ->
  exists c1 c2 s', s = c1 :: c2 :: s' /\ cset_mem U cs1 c1 = true
    /\ cset_mem U cs2 c2 = true
    /\ exists p o, k p s' o caps = Some x.
Proof.
  cbn [rmatch]. intros H.
  destruct s as [|c1 [|c2 s']]; try done.
  - by destruct (cset_mem U cs1 c1).
  - destruct (cset_mem U cs1 c1) eqn:H1; [|done].
    destruct (cset_mem U cs2 c2) eqn:H2; [|done]. exists c1, c2, s'. eauto 10.
Qed.

(** The group of [%d] reads one character, or two of which the second
    is a digit. *)
Lemma rmatch_day_inv prev s opens caps k x :
  rmatch U (directive_regex DirDay) prev s opens caps k = Some x ->
  (exists c1 s', s = c1 :: s' /\ exists p o c, k p s' o c = Some x)
  \/ (exists c1 c2 s', s = c1 :: c2 :: s'
        /\ (Ascii7.isdigit c2 = true \/ cset_mem U CDigit c2 = true)
        /\ exists p o c, k p s' o c = Some x).
Proof.
  unfold directive_regex, lit_digit, digit_range.
  change (rmatch U (Grp ?r) prev s opens caps k)
    with (rmatch U r prev s ([] :: opens) caps (fun prev' s' opens' caps' =>
            let oc := close_group opens' caps' in k prev' s' oc.1 oc.2)).
  intros H.
  apply rmatch_alt_inv in H as [H|H].
  { apply rmatch_chr2_inv in H as (c1 & c2 & s' & -> & _ & H2 & p & o & H).
    right. exists c1, c2, s'. split; [done|]. split; [|by eauto].
    left. cbn [cset_mem] in H2. revert H2. unfold Ascii7.isdigit, Ascii7.in_range.
    rewrite !andb_true_iff, !N.leb_le. lia. }
  apply rmatch_alt_inv in H as [H|H].
  { apply rmatch_chr2_inv in H as (c1 & c2 & s' & -> & _ & H2 & p & o & H).
    right. exists c1, c2, s'. split; [done|]. split; [by right|by eauto]. }
  apply rmatch_alt_inv in H as [H|H].
  { apply rmatch_chr2_inv in H as (c1 & c2 & s' & -> & _ & H2 & p & o & H).
    right. exists c1, c2, s'. split; [done|]. split; [|by eauto].
    left. cbn [cset_mem] in H2. revert H2. unfold Ascii7.isdigit, Ascii7.in_range.
    rewrite !andb_true_iff, !N.leb_le. lia. }
  apply rmatch_alt_inv in H as [H|H].
  { apply rmatch_chr_inv in H as (c1 & s' & -> & _ & H). left. exists c1, s'. eauto 10. }
  apply rmatch_chr2_inv in H as (c1 & c2 & s' & -> & _ & H2 & p & o & H).
  right. exists c1, c2, s'. split; [done|]. split; [|by eauto].
  left. cbn [cset_mem] in H2. revert H2. unfold Ascii7.isdigit, Ascii7.in_range.
  rewrite !andb_true_iff, !N.leb_le. lia.
Qed.

(** The group of [%m] reads one or two characters. *)
Lemma rmatch_month_inv prev s opens caps k x :
  rmatch U (directive_regex DirMonth) prev s opens caps k = Some x ->
  exists ms s', s = ms ++ s' /\ (1 <= length ms <= 2)%nat
                /\ exists p o c, k p s' o c = Some x.
Proof.
  unfold directive_regex, lit_digit, digit_range.
  change (rmatch U (Grp ?r) prev s opens caps k)
    with (rmatch U r prev s ([] :: opens) caps (fun prev' s' opens' caps' =>
            let oc := close_group opens' caps' in k prev' s' oc.1 oc.2)).
  intros H.
  apply rmatch_alt_inv in H as [H|H].
  { apply rmatch_chr2_inv in H as (c1 & c2 & s' & -> & _ & _ & p & o & H).
    exists [c1; c2], s'. split; [done|]. split; [cbn; lia|by eauto]. }
  apply rmatch_alt_inv in H as [H|H].
  { apply rmatch_chr2_inv in H as (c1 & c2 & s' & -> & _ & _ & p & o & H).
    exists [c1; c2], s'. split; [done|]. split; [cbn; lia|by eauto]. }
  apply rmatch_chr_inv in H as (c1 & s' & -> & _ & H).
  exists [c1], s'. split; [done|]. split; [cbn; lia|by eauto 10].
Qed.

(** The group of [%Y] reads four digits. *)
Lemma rmatch_year_inv prev s opens caps k x :
  rmatch U (directive_regex DirYear) prev s opens caps k = Some x ->
  exists ys s', s = ys ++ s' /\ length ys = 4%nat
                /\ Forall (fun c => cset_mem U CDigit c = true) ys
                /\ exists p o c, k p s' o c = Some x.
Proof.
  unfold directive_regex. cbn [rmatch]. intros H.
  destruct s as [|c1 [|c2 [|c3 [|c4 s']]]];
    repeat match type of H with
           | context [cset_mem U CDigit ?c] => destruct (cset_mem U CDigit c) eqn:?
           end; try done.
  exists [c1; c2; c3; c4], s'. split; [done|]. split; [done|].
  split; [by repeat constructor|by eauto].
Qed.

Lemma rmatch_lit_inv a r prev s opens caps k x :
  rmatch U (Cat (Chr (CLit a)) r) prev s opens caps k = Some x ->
  exists s', s = a :: s' /\ exists p o, rmatch U r p s' o caps k = Some x.
Proof.
  change (rmatch U (Cat ?r1 ?r2) ?p ?s ?o ?c ?k)
    with (rmatch U r1 p s o c (fun p' s' o' c' => rmatch U r2 p' s' o' c' k)).
  intros (c & s' & -> & Hc%N.eqb_eq & H)%rmatch_chr_inv. subst c.
  exists s'. eauto.
Qed.

Local Ltac step_cat H :=
  change (rmatch U (Cat ?r1 ?r2) ?p ?s ?o ?c ?k)
    with (rmatch U r1 p s o c (fun p' s' o' c' => rmatch U r2 p' s' o' c' k)) in H.

(** A day-first format reads a day of one or two characters, the
    separator, a month of one or two characters, the separator and four
    digits. *)
Lemma re_match_dmy_inv sep' s x :
  re_match U (format_regex [FDir DirDay; FLit sep'; FDir DirMonth; FLit sep'; FDir DirYear])
    s = Some x ->
  exists ds ms ys,
    s = ds ++ sep' :: ms ++ sep' :: ys ++ x.1
    /\ (1 <= length ds <= 2)%nat
    /\ (forall c1 c2, ds = [c1; c2] ->
          Ascii7.isdigit c2 = true \/ cset_mem U CDigit c2 = true)
    /\ (1 <= length ms <= 2)%nat
    /\ length ys = 4%nat
    /\ Forall (fun c => cset_mem U CDigit c = true) ys.
Proof.
  unfold re_match, format_regex. cbn [fmap list_fmap cat_all foldr]. intros H.
  step_cat H.
  assert (Hrest : forall p s' o c,
    rmatch U (Cat (Chr (CLit sep'))
                (Cat (directive_regex DirMonth)
                   (Cat (Chr (CLit sep')) (Cat (directive_regex DirYear) Eps))))
      p s' o c accept = Some x ->
    exists ms ys, s' = sep' :: ms ++ sep' :: ys ++ x.1
      /\ (1 <= length ms <= 2)%nat /\ length ys = 4%nat
      /\ Forall (fun c => cset_mem U CDigit c = true) ys).
  { clear H. intros p s' o c H.
    apply rmatch_lit_inv in H as (s1 & -> & p1 & o1 & H). step_cat H.
    apply rmatch_month_inv in H as (ms & s2 & -> & Hms & p2 & o2 & c2 & H).
    cbv beta in H. apply rmatch_lit_inv in H as (s3 & -> & p3 & o3 & H). step_cat H.
    apply rmatch_year_inv in H as (ys & s4 & -> & Hys & Hdig & p4 & o4 & c4 & H).
    cbv beta in H. cbn [rmatch] in H. unfold accept in H. injection H as <-.
    by exists ms, ys. }
  apply rmatch_day_inv in H as [(c1 & s' & -> & p & o & c & H)
                                |(c1 & c2 & s' & -> & Hc2 & p & o & c & H)].
  - cbv beta in H. destruct (Hrest _ _ _ _ H) as (ms & ys & -> & Hms & Hys & Hdig).
    exists [c1], ms, ys. repeat split; try done; cbn [length]; lia.
  - cbv beta in H. destruct (Hrest _ _ _ _ H) as (ms & ys & -> & Hms & Hys & Hdig).
    exists [c1; c2], ms, ys. split; [done|]. split; [cbn [length]; lia|].
    split; [by intros ? ? [= <- <-]|done].
Qed.

(** The year-first format reads four digits, a hyphen, a month of one
    or two characters, a hyphen and a day of one or two characters. *)
Lemma re_match_ymd_inv s x :
  re_match U (format_regex [FDir DirYear; FLit 45; FDir DirMonth; FLit 45; FDir DirDay])
    s = Some x ->
  exists ys ms ds,
    s = ys ++ 45%N :: ms ++ 45%N :: ds ++ x.1
    /\ length ys = 4%nat
    /\ Forall (fun c => cset_mem U CDigit c = true) ys
    /\ (1 <= length ms <= 2)%nat
    /\ (1 <= length ds <= 2)%nat.
Proof.
  unfold re_match, format_regex. cbn [fmap list_fmap cat_all foldr]. intros H.
  step_cat H.
  apply rmatch_year_inv in H as (ys & s1 & -> & Hys & Hdig & p1 & o1 & c1 & H).
  cbv beta in H. apply rmatch_lit_inv in H as (s2 & -> & p2 & o2 & H). step_cat H.
  apply rmatch_month_inv in H as (ms & s3 & -> & Hms & p3 & o3 & c3 & H).
  cbv beta in H. apply rmatch_lit_inv in H as (s4 & -> & p4 & o4 & H). step_cat H.
  apply rmatch_day_inv in H as [(d1 & s' & -> & p & o & c & H)
                                |(d1 & d2 & s' & -> & _ & p & o & c & H)];
    cbv beta in H; cbn [rmatch] in H; unfold accept in H; injection H as <-.
  - exists ys, ms, [d1]. repeat split; try done; cbn [length]; lia.
  - exists ys, ms, [d1; d2]. repeat split; try done; cbn [length]; lia.
Qed.

Lemma rmatch_rep_inv cs lo hi prev s opens caps k x :
  rmatch U (Rep cs lo hi) prev s opens caps k = Some x ->
  exists s1 s2, s = s1 ++ s2 /\ Forall (fun c => cset_mem U cs c = true) s1
    /\ (lo <= length s1)%nat /\ exists p o c, k p s2 o c = Some x.
Proof.
  cbn [rmatch]. intros (s1 & s2 & -> & Hall & Hlo & H)%rep_greedy_inv.
  exists s1, s2. eauto 10.
Qed.

Lemma rmatch_grp_rep_inv cs lo hi prev s opens caps k x :
  rmatch U (Grp (Rep cs lo hi)) prev s opens caps k = Some x ->
  exists s1 s2, s = s1 ++ s2 /\ Forall (fun c => cset_mem U cs c = true) s1
    /\ (lo <= length s1)%nat /\ exists p o c, k p s2 o c = Some x.
Proof.
  cbn [rmatch]. intros (s1 & s2 & -> & Hall & Hlo & H)%rep_greedy_inv.
  exists s1, s2. eauto 10.
Qed.

(** The named-month pattern reads at least eight characters, each a
    digit, whitespace or a word character. *)
Lemma re_match_named_inv s x :
  re_match U named_month_re s = Some x ->
  exists pre, s = pre ++ x.1 /\ (8 <= length pre)%nat
              /\ Forall (fun c => named_class U c = true) pre.
Proof.
  unfold re_match, named_month_re. intros H. step_cat H.
  apply rmatch_grp_rep_inv in H as (ds & s1 & -> & Hds & Hlds & p1 & o1 & c1 & H).
  cbv beta in H. step_cat H.
  apply rmatch_rep_inv in H as (ws1 & s2 & -> & Hws1 & Hlws1 & p2 & o2 & c2 & H).
  cbv beta in H. step_cat H.
  apply rmatch_grp_rep_inv in H as (name & s3 & -> & Hname & Hlname & p3 & o3 & c3 & H).
  cbv beta in H. step_cat H.
  apply rmatch_rep_inv in H as (ws2 & s4 & -> & Hws2 & Hlws2 & p4 & o4 & c4 & H).
  cbv beta in H.
  apply rmatch_grp_rep_inv in H as (ys & s5 & -> & Hys & Hlys & p5 & o5 & c5 & H).
  unfold accept in H. injection H as <-. cbn [fst].
  exists (ds ++ ws1 ++ name ++ ws2 ++ ys). split; [by rewrite <- !app_assoc|].
  split; [rewrite !length_app; lia|].
  unfold named_class. repeat apply Forall_app_2.
  - eapply Forall_impl; [exact Hds|]. by intros c ->.
  - eapply Forall_impl; [exact Hws1|]. intros c ->. by rewrite orb_true_r.
  - eapply Forall_impl; [exact Hname|]. intros c ->. by rewrite orb_true_r.
  - eapply Forall_impl; [exact Hws2|]. intros c ->. by rewrite orb_true_r.
  - eapply Forall_impl; [exact Hys|]. by intros c ->.
Qed.
End MatchInversion.

Section MatchExclusion.
Context (U : unicode_db) (HU : ascii_faithful U).

Local Abbreviation dmy_items := (fun sep' : N =>
  [FDir DirDay; FLit sep'; FDir DirMonth; FLit sep'; FDir DirYear]).
Local Abbreviation ymd_items :=
  [FDir DirYear; FLit 45%N; FDir DirMonth; FLit 45%N; FDir DirDay].

Lemma separator_classes sep :
  sep ∈ [46; 47; 45]%N ->
  named_class U sep = false /\ cset_mem U CDigit sep = false
  /\ Ascii7.isdigit sep = false /\ uni_isspace U sep = false.
Proof.
  intros Hsep. destruct (separator_facts sep Hsep) as (Hnd & Ha & Hns).
  assert (Hd : cset_mem U CDigit sep = false).
  { cbn [cset_mem]. rewrite (af_decimal U HU sep Ha). unfold Ascii7.decimal.
    rewrite Hnd. apply bool_decide_eq_false_2. by intros [? ?]. }
  assert (Hs : uni_isspace U sep = false) by by rewrite (af_isspace U HU sep Ha).
  split; [|done]. unfold named_class. rewrite Hd. cbn [cset_mem orb].
  rewrite Hs, (af_isword U HU sep Ha). clear -Hsep.
  repeat (apply elem_of_cons in Hsep as [->|Hsep]; [done|]). by apply elem_of_nil in Hsep.
Qed.

Lemma named_lookup s x i c :
  re_match U named_month_re s = Some x -> (i < 8)%nat -> s !! i = Some c ->
  named_class U c = true.
Proof.
  intros (pre & -> & Hlen & Hall)%re_match_named_inv Hi Hc.
  assert (Hc' : pre !! i = Some c).
  { rewrite <- (lookup_app_l pre x.1 i) by lia. exact Hc. }
  rewrite Forall_forall in Hall. apply Hall. by eapply list_elem_of_lookup_2.
Qed.

Lemma dmy_lookup sep' s x :
  re_match U (format_regex (dmy_items sep')) s = Some x ->
  ((s !! 1%nat = Some sep')
   \/ (s !! 2%nat = Some sep'
       /\ exists c2, s !! 1%nat = Some c2
                     /\ (Ascii7.isdigit c2 = true \/ cset_mem U CDigit c2 = true)))
  /\ (length s <= 10 + length x.1)%nat.
Proof.
  intros (ds & ms & ys & -> & Hds & Hc2 & Hms & Hys & _)%re_match_dmy_inv. split.
  - destruct ds as [|c1 [|c2 [|c3 ds]]]; cbn [length] in Hds; [lia| | |lia].
    + by left.
    + right. split; [done|]. exists c2. split; [done|]. by eapply Hc2.
  - rewrite !length_app. cbn [length]. rewrite !length_app. cbn [length].
    rewrite length_app. lia.
Qed.

Lemma ymd_lookup s x :
  re_match U (format_regex ymd_items) s = Some x ->
  s !! 4%nat = Some 45%N
  /\ (exists c1 c2, s !! 1%nat = Some c1 /\ cset_mem U CDigit c1 = true
                    /\ s !! 2%nat = Some c2 /\ cset_mem U CDigit c2 = true)
  /\ (length s <= 10 + length x.1)%nat.
Proof.
  intros (ys & ms & ds & -> & Hys & Hdig & Hms & Hds)%re_match_ymd_inv.
  destruct ys as [|y1 [|y2 [|y3 [|y4 [|y5 ys]]]]]; try done.
  apply Forall_cons in Hdig as [_ [H2 [H3 _]%Forall_cons]%Forall_cons].
  split; [done|]. split; [by exists y2, y3|].
  cbn [app length]. rewrite !length_app. cbn [length]. rewrite length_app. lia.
Qed.

Lemma digitish_not_separator sep c :
  sep ∈ [46; 47; 45]%N ->
  Ascii7.isdigit c = true \/ cset_mem U CDigit c = true -> c <> sep.
Proof.
  intros Hsep Hc ->. destruct (separator_classes sep Hsep) as (_ & Hd & Hnd & _).
  destruct Hc; congruence.
Qed.

(** A text the named-month pattern matches is accepted by no numeric
    format. *)
Lemma named_excludes_dmy sep' s x x' :
  sep' ∈ [46; 47; 45]%N ->
  re_match U named_month_re s = Some x ->
  re_match U (format_regex (dmy_items sep')) s = Some x' -> False.
Proof.
  intros Hsep Hn [Hpos _]%dmy_lookup.
  destruct (separator_classes sep' Hsep) as (Hcl & _).
  destruct Hpos as [H1|[H2 _]].
  - rewrite (named_lookup s x 1 sep' Hn) in Hcl; [done|lia|done].
  - rewrite (named_lookup s x 2 sep' Hn) in Hcl; [done|lia|done].
Qed.

Lemma named_excludes_ymd s x x' :
  re_match U named_month_re s = Some x ->
  re_match U (format_regex ymd_items) s = Some x' -> False.
Proof.
  intros Hn (H4 & _)%ymd_lookup.
  destruct (separator_classes 45%N) as (Hcl & _); [set_solver|].
  rewrite (named_lookup s x 4 45%N Hn) in Hcl; [done|lia|done].
Qed.

Lemma dmy_excludes_dmy sep1 sep2 s x1 x2 :
  sep1 ∈ [46; 47; 45]%N -> sep2 ∈ [46; 47; 45]%N ->
  re_match U (format_regex (dmy_items sep1)) s = Some x1 ->
  re_match U (format_regex (dmy_items sep2)) s = Some x2 -> sep1 = sep2.
Proof.
  intros Hs1 Hs2 [H1 _]%dmy_lookup [H2 _]%dmy_lookup.
  destruct H1 as [H1|[H1 (c & Hc & Hd)]], H2 as [H2|[H2 (c' & Hc' & Hd')]].
  - congruence.
  - rewrite H1 in Hc'. injection Hc' as <-.
    by destruct (digitish_not_separator sep1 sep1 Hs1 Hd').
  - rewrite H2 in Hc. injection Hc as <-.
    by destruct (digitish_not_separator sep2 sep2 Hs2 Hd).
  - congruence.
Qed.

Lemma dmy_excludes_ymd sep' s x1 x2 :
  sep' ∈ [46; 47; 45]%N ->
  re_match U (format_regex (dmy_items sep')) s = Some x1 ->
  re_match U (format_regex ymd_items) s = Some x2 -> False.
Proof.
  intros Hsep [H1 _]%dmy_lookup (_ & (c1 & c2 & Hc1 & Hd1 & Hc2 & Hd2) & _)%ymd_lookup.
  destruct H1 as [H1|[H1 _]].
  - rewrite H1 in Hc1. injection Hc1 as <-.
    destruct (digitish_not_separator sep' sep' Hsep); [by right|done].
  - rewrite H1 in Hc2. injection Hc2 as <-.
    destruct (digitish_not_separator sep' sep' Hsep); [by right|done].
Qed.

Lemma numeric_format_cases fmt items :
  fmt ∈ numeric_formats -> parse_format fmt = Some items ->
  (exists sep', sep' ∈ [46; 47; 45]%N /\ fmt = fmt_dmy sep' /\ items = dmy_items sep')
  \/ (fmt = fmt_ymd /\ items = ymd_items).
Proof.
  rewrite numeric_formats_eq. intros Hin Hp.
  repeat (apply elem_of_cons in Hin as [->|Hin];
          [first [ left; eexists; split; [|split; [reflexivity|]];
                   [set_solver|by injection Hp as <-]
                 | right; split; [done|by injection Hp as <-] ]|]).
  by apply elem_of_nil in Hin.
Qed.

(** At most one numeric format matches the start of a text. *)
Lemma formats_exclusive fmt1 items1 fmt2 items2 s x1 x2 :
  fmt1 ∈ numeric_formats -> parse_format fmt1 = Some items1 ->
  fmt2 ∈ numeric_formats -> parse_format fmt2 = Some items2 ->
  re_match U (format_regex items1) s = Some x1 ->
  re_match U (format_regex items2) s = Some x2 ->
  fmt1 = fmt2.
Proof.
  intros Hin1 Hp1 Hin2 Hp2 Hm1 Hm2.
  destruct (numeric_format_cases fmt1 items1 Hin1 Hp1)
    as [(sep1 & Hs1 & -> & ->)|[-> ->]],
    (numeric_format_cases fmt2 items2 Hin2 Hp2) as [(sep2 & Hs2 & -> & ->)|[-> ->]].
  - by rewrite (dmy_excludes_dmy sep1 sep2 s x1 x2).
  - by destruct (dmy_excludes_ymd sep1 s x1 x2).
  - by destruct (dmy_excludes_ymd sep2 s x2 x1).
  - done.
Qed.

Lemma numeric_format_parses fmt :
  fmt ∈ numeric_formats -> exists items, parse_format fmt = Some items.
Proof.
  rewrite numeric_formats_eq. intros Hin.
  repeat (apply elem_of_cons in Hin as [->|Hin]; [by eexists|]).
  by apply elem_of_nil in Hin.
Qed.

Lemma named_excludes_format fmt items s x x' :
  fmt ∈ numeric_formats -> parse_format fmt = Some items ->
  re_match U named_month_re s = Some x ->
  re_match U (format_regex items) s = Some x' -> False.
Proof.
  intros Hin Hp Hn Hm.
  destruct (numeric_format_cases fmt items Hin Hp) as [(sep' & Hs & -> & ->)|[-> ->]].
  - by eapply named_excludes_dmy.
  - by eapply named_excludes_ymd.
Qed.

Lemma try_formats_all_raise fmts s :
  (forall fmt, fmt ∈ fmts -> strptime U s fmt = Raise ValueError) ->
  try_formats U fmts s = Ok None.
Proof.
  induction fmts as [|fmt fmts IH]; intros H; [done|]. cbn [try_formats].
  rewrite H by apply list_elem_of_here. cbn [rbind except_value_error].
  apply IH. intros f Hf. apply H. by apply list_elem_of_further.
Qed.

Lemma strptime_unmatched s fmt items :
  parse_format fmt = Some items ->
  (forall groups, re_match U (format_regex items) s <> Some ([], groups)) ->
  strptime U s fmt = Raise ValueError.
Proof.
  intros Hp Hno. unfold strptime. rewrite Hp.
  destruct (re_match U (format_regex items) s) as [[[|c rest] groups]|] eqn:Hm; try done.
  by destruct (Hno groups).
Qed.

(** When the named-month pattern matches, no numeric format applies. *)
Lemma try_formats_when_named s x :
  re_match U named_month_re s = Some x ->
  try_formats U numeric_formats s = Ok None.
Proof.
  intros Hn. apply try_formats_all_raise. intros fmt Hin.
  destruct (numeric_format_parses fmt Hin) as [items Hp].
  apply (strptime_unmatched s fmt items Hp). intros groups Hm.
  by eapply named_excludes_format.
Qed.

Lemma named_month_attempt_unmatched s :
  re_match U named_month_re s = None -> named_month_attempt U s = Ok None.
Proof. intros H. unfold named_month_attempt. by rewrite H. Qed.

(** The numbers read in the text form no date: no value. *)
Lemma parse_date_invalid_numbers s y m d :
  matched_numbers U s y m d ->
  DT._check_date_fields y m d = false ->
  parse_date U s = Ok None.
Proof.
  intros [(rest & day & name & year & c & num & Hm & Hdict & Hy & Hmo & Hd)
         |(fmt & items & groups & f & Hin & Hp & Hm & Hf & -> & -> & ->)] Hbad.
  - unfold parse_date, named_month_attempt. rewrite Hm, Hdict, Hy, Hmo, Hd.
    cbn [rbind]. rewrite of_ymd_check, Hbad. cbn [rbind except_value_error].
    by eapply try_formats_when_named.
  - unfold parse_date. rewrite named_month_attempt_unmatched.
    2:{ destruct (re_match U named_month_re s) as [x|] eqn:Hn; [|done].
        by destruct (named_excludes_format fmt items s x _ Hin Hp Hn Hm). }
    cbn [rbind]. apply try_formats_all_raise. intros fmt' Hin'.
    destruct (decide (fmt' = fmt)) as [->|Hne].
    + unfold strptime. rewrite Hp, Hm, Hf. cbn [rbind].
      change (match f_year f with Some y => y | None => 1900%Z end)
        with (default 1900%Z (f_year f)).
      by rewrite of_ymd_check, Hbad.
    + destruct (numeric_format_parses fmt' Hin') as [items' Hp'].
      apply (strptime_unmatched s fmt' items' Hp'). intros groups' Hm'.
      apply Hne. by eapply (formats_exclusive fmt' items' fmt items).
Qed.

(** The numeric formats read at most ten characters, and refuse text
    of which something is left. *)
Lemma try_formats_long_text s :
  (10 < length s)%nat -> try_formats U numeric_formats s = Ok None.
Proof.
  intros Hlen. apply try_formats_all_raise. intros fmt Hin.
  destruct (numeric_format_parses fmt Hin) as [items Hp].
  apply (strptime_unmatched s fmt items Hp). intros groups Hm.
  destruct (numeric_format_cases fmt items Hin Hp) as [(sep' & Hs & -> & ->)|[-> ->]].
  - apply dmy_lookup in Hm as [_ Hl]. cbn [fst length] in Hl. lia.
  - apply ymd_lookup in Hm as (_ & _ & Hl). cbn [fst length] in Hl. lia.
Qed.
End MatchExclusion.

Section MatchedNumbers.
Context (U : unicode_db).

(** A date [parse_date] returns is the date of the numbers it read. *)
Lemma named_month_attempt_matched s t :
  named_month_attempt U s = Ok (Some t) ->
  matched_numbers U s (DT.year t) (DT.month t) (DT.day t).
Proof.
  unfold named_month_attempt. intros H. left.
  destruct (re_match U named_month_re s) as [[rest [|day [|name [|year [|? ?]]]]]|]
    eqn:Hm; try done.
  destruct (dict_get ro_months (lower U name)) as [[|c num]|] eqn:Hd; try done.
  destruct (py_int U year) as [y|[]] eqn:Hy; try done.
  destruct (py_int U (c :: num)) as [m|[]] eqn:Hmo; try done.
  destruct (py_int U day) as [d|[]] eqn:Hday; try done.
  cbn [rbind] in H.
  destruct (DT.of_ymd y m d) as [t'|[]] eqn:Ht; try done.
  cbn [rbind except_value_error] in H. injection H as <-.
  apply of_ymd_inv in Ht as [_ ->]. cbn [DT.year DT.month DT.day].
  by exists rest, day, name, year, c, num.
Qed.

Lemma try_formats_matched fmts s t :
  fmts ⊆ numeric_formats ->
  try_formats U fmts s = Ok (Some t) ->
  matched_numbers U s (DT.year t) (DT.month t) (DT.day t).
Proof.
  induction fmts as [|fmt fmts IH]; intros Hsub H; [done|].
  cbn [try_formats] in H.
  destruct (strptime U s fmt) as [t'|e] eqn:Ht; cbn [rbind except_value_error] in H.
  - injection H as <-. right. unfold strptime in Ht.
    destruct (parse_format fmt) as [items|] eqn:Hp; [|done].
    destruct (re_match U (format_regex items) s) as [[[|? ?] groups]|] eqn:Hm; try done.
    destruct (assign_groups U _ _) as [f|e] eqn:Hf; [|done]. cbn [rbind] in Ht.
    apply of_ymd_inv in Ht as [_ ->]. cbn [DT.year DT.month DT.day].
    exists fmt, items, groups, f. split; [apply Hsub, list_elem_of_here|].
    by repeat split.
  - apply strptime_raises in Ht as ->. apply IH; [|done].
    intros f Hf. apply Hsub. by apply list_elem_of_further.
Qed.

Lemma parse_date_matched s t :
  parse_date U s = Ok (Some t) ->
  matched_numbers U s (DT.year t) (DT.month t) (DT.day t).
Proof.
  unfold parse_date. intros H.
  destruct (named_month_attempt_returns U s) as ([t'|] & Hn & _); rewrite Hn in H;
    cbn [rbind] in H.
  - injection H as <-. by apply named_month_attempt_matched.
  - by eapply try_formats_matched.
Qed.
End MatchedNumbers.

Section ParseDateProperties.
Context (U : unicode_db).
Local Open Scope Z_scope.

(** C4.  [parse_date] never raises: on every text it returns, either no
    value or a valid calendar date, which is then the date of the numbers
    it read in the text.  It returns no value on every text that matches
    no known pattern, and on every text in which the numbers it reads,
    the groups of the named-month pattern with a month name or the groups
    of the numeric format that accepts the text, form no valid calendar
    date; among these are the renderings [dd.mm.yyyy], [dd/mm/yyyy],
    [dd-mm-yyyy], [yyyy-mm-dd] and [dd <month name> yyyy] of such
    numbers. *)
Theorem parse_date_invalid_is_absent :
  (forall s, exists o,
      parse_date U s = Ok o /\ from_option calendar_date True o
      /\ forall t, o = Some t ->
            matched_numbers U s (DT.year t) (DT.month t) (DT.day t))
  /\ (forall s, matches_no_pattern U s -> parse_date U s = Ok None)
  /\ (ascii_faithful U ->
      forall s y m d,
        matched_numbers U s y m d ->
        DT._check_date_fields y m d = false ->
        parse_date U s = Ok None)
  /\ (ascii_faithful U ->
      forall y m d,
        0 <= y < 10000 -> 0 <= m < 100 -> 0 <= d < 100 ->
        DT._check_date_fields y m d = false ->
        (forall sep, sep ∈ [46; 47; 45]%N ->
                     parse_date U (render_dmy sep y m d) = Ok None)
        /\ parse_date U (render_ymd y m d) = Ok None
        /\ (forall i name,
              ro_month_names !! i = Some name -> m = Z.of_nat i + 1 ->
              parse_date U (render2 d ++ [32%N] ++ name ++ [32%N] ++ render4 y)
              = Ok None)).
Proof.
  split.
  { intros s. destruct (parse_date_returns U s) as (o & Ho & Hc).
    exists o. split; [done|]. split; [done|]. intros t ->.
    by apply parse_date_matched. }
  split; [apply parse_date_no_pattern|].
  split; [intros HU s y m d; by apply parse_date_invalid_numbers|].
  intros HU y m d Hy Hm Hd Hbad. split; [|split].
  - intros sep Hsep. by rewrite (parse_date_render_dmy U HU), Hbad.
  - by rewrite (parse_date_render_ymd U HU), Hbad.
  - intros i name Hi ->. by rewrite (parse_date_render_named U HU i), Hbad.
Qed.

(** C5.  For every valid calendar date, [parse_date] maps its four
    numeric renderings [dd.mm.yyyy], [dd/mm/yyyy], [dd-mm-yyyy] and
    [yyyy-mm-dd] to that date. *)
Theorem parse_date_numeric_renderings (y m d : Z) :
  ascii_faithful U ->
  DT._check_date_fields y m d = true ->
  parse_date U (render_dmy 46 y m d) = Ok (Some (DT.mk y m d 0 0 0 0 None))
  /\ parse_date U (render_dmy 47 y m d) = Ok (Some (DT.mk y m d 0 0 0 0 None))
  /\ parse_date U (render_dmy 45 y m d) = Ok (Some (DT.mk y m d 0 0 0 0 None))
  /\ parse_date U (render_ymd y m d) = Ok (Some (DT.mk y m d 0 0 0 0 None)).
Proof.
  intros HU Hok.
  destruct (check_date_fields_bounds y m d Hok) as (Hy & Hm & Hd).
  rewrite !(parse_date_render_dmy U HU), (parse_date_render_ymd U HU), Hok
    by (lia || set_solver).
  done.
Qed.
End ParseDateProperties.

Lemma parse_date_invalid_is_absent_witness :
  parse_date Ascii7.db (u "31 Februarie 2025") = Ok None
  /\ parse_date Ascii7.db (u "31.4.2026") = Ok None
  /\ parse_date Ascii7.db (u "2026-2-30") = Ok None
  /\ parse_date Ascii7.db (u "31.02.2025") = Ok None.
Proof.
  split; [|split; [|split]].
  - apply (proj1 (proj2 (proj2 (parse_date_invalid_is_absent Ascii7.db))) ascii7_faithful
             (u "31 Februarie 2025") 2025 2 31)%Z; [|vm_compute; reflexivity].
    left. exists [], (u "31"), (u "Februarie"), (u "2025"), 48%N, [50%N].
    repeat split; vm_compute; reflexivity.
  - apply (proj1 (proj2 (proj2 (parse_date_invalid_is_absent Ascii7.db))) ascii7_faithful
             (u "31.4.2026") 2026 4 31)%Z; [|vm_compute; reflexivity].
    right. exists (u "%d.%m.%Y"),
      [FDir DirDay; FLit 46%N; FDir DirMonth; FLit 46%N; FDir DirYear],
      [u "31"; u "4"; u "2026"], (mk_ymd (Some 2026%Z) 4 31).
    split; [apply list_elem_of_here|]. repeat split; vm_compute; reflexivity.
  - apply (proj1 (proj2 (proj2 (parse_date_invalid_is_absent Ascii7.db))) ascii7_faithful
             (u "2026-2-30") 2026 2 30)%Z; [|vm_compute; reflexivity].
    right. exists (u "%Y-%m-%d"),
      [FDir DirYear; FLit 45%N; FDir DirMonth; FLit 45%N; FDir DirDay],
      [u "2026"; u "2"; u "30"], (mk_ymd (Some 2026%Z) 2 30).
    split; [do 3 apply list_elem_of_further; apply list_elem_of_here|].
    repeat split; vm_compute; reflexivity.
  - refine (proj1 (proj2 (proj2 (proj2 (parse_date_invalid_is_absent Ascii7.db)))
                     ascii7_faithful 2025 2 31 _ _ _ _)%Z 46%N _).
    + lia.
    + lia.
    + lia.
    + vm_compute. reflexivity.
    + apply list_elem_of_here.
Defined.

Lemma parse_date_numeric_renderings_witness :
  parse_date Ascii7.db (u "04.11.2026") = Ok (Some (DT.mk 2026 11 4 0 0 0 0 None))
  /\ parse_date Ascii7.db (u "04/11/2026") = Ok (Some (DT.mk 2026 11 4 0 0 0 0 None))
  /\ parse_date Ascii7.db (u "04-11-2026") = Ok (Some (DT.mk 2026 11 4 0 0 0 0 None))
  /\ parse_date Ascii7.db (u "2026-11-04") = Ok (Some (DT.mk 2026 11 4 0 0 0 0 None)).
Proof.
  apply (parse_date_numeric_renderings Ascii7.db 2026 11 4 ascii7_faithful).
  vm_compute. reflexivity.
Defined.

(** ** Numeric dates followed by more text *)

Section DateTrailing.
Local Abbreviation A := Ascii7.db.

Lemma re_match_dmy_rest sep sep' d1 d2 m1 m2 y1 y2 y3 y4 rest :
  Ascii7.isdigit d1 = true -> Ascii7.isdigit d2 = true ->
  Ascii7.isdigit m1 = true -> Ascii7.isdigit m2 = true ->
  Ascii7.isdigit y1 = true -> Ascii7.isdigit y2 = true ->
  Ascii7.isdigit y3 = true -> Ascii7.isdigit y4 = true ->
  Ascii7.isdigit sep' = false ->
  re_match A (format_regex [FDir DirDay; FLit sep'; FDir DirMonth; FLit sep'; FDir DirYear])
    (d1 :: d2 :: sep :: m1 :: m2 :: sep :: y1 :: y2 :: y3 :: y4 :: rest)
  = if (sep =? sep')%N && day2_ok d1 d2 && month2_ok m1 m2
    then Some (rest, [[d1; d2]; [m1; m2]; [y1; y2; y3; y4]])
    else None.
Proof.
  intros Hd1 Hd2 Hm1 Hm2 Hy1 Hy2 Hy3 Hy4 Hsep'.
  unfold re_match, format_regex. cbn [fmap list_fmap cat_all foldr].
  set (tail := Cat (Chr (CLit sep')) (Cat (directive_regex DirYear) Eps)).
  set (mid := Cat (directive_regex DirMonth) tail).
  assert (Htail : forall p caps,
    rmatch A tail p (sep :: y1 :: y2 :: y3 :: y4 :: rest) [] caps accept
    = if (sep =? sep')%N then Some (rest, caps ++ [[y1; y2; y3; y4]]) else None).
  { intros p caps. subst tail. rewrite rmatch_lit. destruct (sep =? sep')%N; [|done].
    cbn [rmatch]. by rewrite rmatch_year. }
  assert (Hdigit : forall c p rest' caps r, Ascii7.isdigit c = true ->
    rmatch A (Cat (Chr (CLit sep')) r) p (c :: rest') [] caps accept = None).
  { intros c p rest' caps r Hc. by rewrite rmatch_lit, digit_neq. }
  assert (Hmid : forall p caps,
    rmatch A mid p (m1 :: m2 :: sep :: y1 :: y2 :: y3 :: y4 :: rest) [] caps accept
    = if (sep =? sep')%N && month2_ok m1 m2
      then Some (rest, (caps ++ [[m1; m2]]) ++ [[y1; y2; y3; y4]]) else None).
  { intros p caps. subst mid. cbn [rmatch].
    destruct (month2_ok m1 m2) eqn:Hm.
    - destruct (sep =? sep')%N eqn:Hs; cbn [andb].
      + eapply rmatch_month_ok; [done..|]. by rewrite Htail, ?Hs.
      + apply rmatch_month_fail; [done..| |].
        * intros _. by rewrite Htail, ?Hs.
        * intros _. subst tail. by apply Hdigit.
    - rewrite andb_false_r. apply rmatch_month_fail; [done..| |].
      + intros ?. congruence.
      + intros _. subst tail. by apply Hdigit. }
  cbn [rmatch]. fold tail. fold mid.
  destruct (day2_ok d1 d2) eqn:Hd.
  - destruct ((sep =? sep')%N && month2_ok m1 m2) eqn:Hsm.
    + apply andb_true_iff in Hsm as [Hs Hm]. rewrite Hs, Hm. cbn [andb].
      eapply rmatch_day_ok; [done..|]. cbv beta. cbn [cset_mem consume fmap list_fmap].
      by rewrite Hs, Hmid, ?Hs, ?Hm.
    + replace ((sep =? sep')%N && true && month2_ok m1 m2) with false
        by (by rewrite andb_true_r, Hsm).
      apply rmatch_day_fail; [done..| |].
      * intros _. cbv beta. cbn [cset_mem consume fmap list_fmap].
        destruct (sep =? sep')%N eqn:Hs; [|done]. by rewrite Hmid, ?Hs, ?Hsm.
      * intros _. cbv beta. cbn [cset_mem]. by rewrite digit_neq.
  - rewrite andb_false_r. cbn [andb]. apply rmatch_day_fail; [done..| |].
    + intros ?. congruence.
    + intros _. cbv beta. cbn [cset_mem]. by rewrite digit_neq.
Qed.

Lemma re_match_ymd_rest y1 y2 y3 y4 m1 m2 d1 d2 rest :
  Ascii7.isdigit d1 = true -> Ascii7.isdigit d2 = true ->
  Ascii7.isdigit m1 = true -> Ascii7.isdigit m2 = true ->
  Ascii7.isdigit y1 = true -> Ascii7.isdigit y2 = true ->
  Ascii7.isdigit y3 = true -> Ascii7.isdigit y4 = true ->
  re_match A (format_regex [FDir DirYear; FLit 45; FDir DirMonth; FLit 45; FDir DirDay])
    (y1 :: y2 :: y3 :: y4 :: 45 :: m1 :: m2 :: 45 :: d1 :: d2 :: rest)%N
  = if month2_ok m1 m2
    then if day2_ok d1 d2
         then Some (rest, [[y1; y2; y3; y4]; [m1; m2]; [d1; d2]])
         else if nonzero_digit d1
              then Some (d2 :: rest, [[y1; y2; y3; y4]; [m1; m2]; [d1]])
              else None
    else None.
Proof.
  intros Hd1 Hd2 Hm1 Hm2 Hy1 Hy2 Hy3 Hy4.
  unfold re_match, format_regex. cbn [fmap list_fmap cat_all foldr].
  set (dayr := Cat (directive_regex DirDay) Eps).
  assert (Hday : forall p caps,
    rmatch A dayr p (d1 :: d2 :: rest) [] caps accept
    = if day2_ok d1 d2 then Some (rest, caps ++ [[d1; d2]])
      else if nonzero_digit d1 then Some (d2 :: rest, caps ++ [[d1]]) else None).
  { intros p caps. subst dayr. cbn [rmatch].
    destruct (day2_ok d1 d2) eqn:Hd.
    - by eapply rmatch_day_ok.
    - destruct (nonzero_digit d1) eqn:Hnz.
      + by eapply rmatch_day_single.
      + apply rmatch_day_fail; [done..| |]; intros ?; congruence. }
  cbn [rmatch]. fold dayr. rewrite rmatch_year by done. cbv beta.
  cbn [cset_mem consume fmap list_fmap]. rewrite N.eqb_refl.
  destruct (month2_ok m1 m2) eqn:Hm.
  - destruct (if day2_ok d1 d2 then _ else _) as [x|] eqn:Hx.
    + eapply rmatch_month_ok; [done..|]. cbv beta.
      cbn [cset_mem consume fmap list_fmap]. rewrite N.eqb_refl.
      rewrite Hday. cbn [app]. exact Hx.
    + apply rmatch_month_fail; [done..| |].
      * intros _. cbv beta. cbn [cset_mem consume fmap list_fmap]. rewrite N.eqb_refl.
        rewrite Hday. cbn [app]. exact Hx.
      * intros _. cbv beta. cbn [cset_mem]. by rewrite digit_neq.
  - apply rmatch_month_fail; [done..| |].
    + intros ?. congruence.
    + intros _. cbv beta. cbn [cset_mem]. by rewrite digit_neq.
Qed.
End DateTrailing.

Section DateExtras.
Context (U : unicode_db) (HU : ascii_faithful U).
Local Open Scope Z_scope.

Lemma strptime_trailing_dmy sep sep' d1 d2 m1 m2 y1 y2 y3 y4 c rest :
  Ascii7.isdigit d1 = true -> Ascii7.isdigit d2 = true ->
  Ascii7.isdigit m1 = true -> Ascii7.isdigit m2 = true ->
  Ascii7.isdigit y1 = true -> Ascii7.isdigit y2 = true ->
  Ascii7.isdigit y3 = true -> Ascii7.isdigit y4 = true ->
  sep ∈ [46; 47; 45]%N -> sep' ∈ [46; 47; 45]%N -> ascii_str (c :: rest) ->
  strptime U (d1 :: d2 :: sep :: m1 :: m2 :: sep :: y1 :: y2 :: y3 :: y4 :: c :: rest)
    (fmt_dmy sep') = Raise ValueError.
Proof.
  intros Hd1 Hd2 Hm1 Hm2 Hy1 Hy2 Hy3 Hy4 Hsep Hsep' Hrest.
  destruct (separator_facts sep Hsep) as (_ & Ha & _).
  destruct (separator_facts sep' Hsep') as (Hnd & _ & _).
  unfold strptime. rewrite (parse_format_dmy sep' Hsep').
  rewrite (re_match_agree U HU) by ascii_text.
  rewrite re_match_dmy_rest by done.
  by destruct ((sep =? sep')%N && day2_ok d1 d2 && month2_ok m1 m2).
Qed.

Lemma strptime_trailing_ymd y1 y2 y3 y4 m1 m2 d1 d2 c rest :
  Ascii7.isdigit d1 = true -> Ascii7.isdigit d2 = true ->
  Ascii7.isdigit m1 = true -> Ascii7.isdigit m2 = true ->
  Ascii7.isdigit y1 = true -> Ascii7.isdigit y2 = true ->
  Ascii7.isdigit y3 = true -> Ascii7.isdigit y4 = true ->
  ascii_str (c :: rest) ->
  strptime U (y1 :: y2 :: y3 :: y4 :: 45 :: m1 :: m2 :: 45 :: d1 :: d2 :: c :: rest)%N
    fmt_ymd = Raise ValueError.
Proof.
  intros Hd1 Hd2 Hm1 Hm2 Hy1 Hy2 Hy3 Hy4 Hrest. unfold strptime.
  change (parse_format fmt_ymd)
    with (Some [FDir DirYear; FLit 45%N; FDir DirMonth; FLit 45%N; FDir DirDay]).
  cbv beta iota. rewrite (re_match_agree U HU) by ascii_text.
  rewrite re_match_ymd_rest by done.
  by destruct (month2_ok m1 m2), (day2_ok d1 d2), (nonzero_digit d1).
Qed.

Lemma try_formats_trailing_dmy sep y m d c rest :
  sep ∈ [46; 47; 45]%N -> 0 <= y < 10000 -> 0 <= m < 100 -> 0 <= d < 100 ->
  ascii_str (c :: rest) ->
  try_formats U numeric_formats (render_dmy sep y m d ++ c :: rest) = Ok None.
Proof.
  intros Hsep Hy Hm Hd Hrest.
  destruct (render_digits d Hd) as (Hd1 & Hd2 & _).
  destruct (render_digits m Hm) as (Hm1 & Hm2 & _).
  destruct (render4_digits y Hy) as (Hy1 & Hy2 & Hy3 & Hy4 & _).
  destruct (separator_facts sep Hsep) as (Hnd & Ha & Hns).
  unfold render_dmy, render2, render4. cbn [app].
  rewrite numeric_formats_eq. cbn [try_formats].
  rewrite !strptime_trailing_dmy by (done || set_solver).
  rewrite (strptime_ymd_on_dmy U HU); [done|done|ascii_text].
Qed.

Lemma try_formats_trailing_ymd y m d c rest :
  0 <= y < 10000 -> 0 <= m < 100 -> 0 <= d < 100 ->
  ascii_str (c :: rest) ->
  try_formats U numeric_formats (render_ymd y m d ++ c :: rest) = Ok None.
Proof.
  intros Hy Hm Hd Hrest.
  destruct (render_digits d Hd) as (Hd1 & Hd2 & _).
  destruct (render_digits m Hm) as (Hm1 & Hm2 & _).
  destruct (render4_digits y Hy) as (Hy1 & Hy2 & Hy3 & Hy4 & _).
  unfold render_ymd, render2, render4. cbn [app].
  rewrite numeric_formats_eq. cbn [try_formats].
  rewrite !(strptime_dmy_on_digits U HU) by (done || set_solver || ascii_text).
  by rewrite strptime_trailing_ymd.
Qed.

Lemma named_month_attempt_render_dmy sep y m d rest :
  sep ∈ [46; 47; 45]%N -> 0 <= y < 10000 -> 0 <= m < 100 -> 0 <= d < 100 ->
  ascii_str rest ->
  named_month_attempt U (render_dmy sep y m d ++ rest) = Ok None.
Proof.
  intros Hsep Hy Hm Hd Hrest.
  destruct (render_digits d Hd) as (Hd1 & Hd2 & _).
  destruct (render_digits m Hm) as (Hm1 & Hm2 & _).
  destruct (render4_digits y Hy) as (Hy1 & Hy2 & Hy3 & Hy4 & _).
  destruct (separator_facts sep Hsep) as (Hnd & Ha & Hns).
  unfold render_dmy, render2, render4. cbn [app].
  apply (named_month_attempt_digits U HU); [done..|ascii_text].
Qed.

Lemma named_month_attempt_render_ymd y m d rest :
  0 <= y < 10000 -> 0 <= m < 100 -> 0 <= d < 100 -> ascii_str rest ->
  named_month_attempt U (render_ymd y m d ++ rest) = Ok None.
Proof.
  intros Hy Hm Hd Hrest.
  destruct (render_digits d Hd) as (Hd1 & Hd2 & _).
  destruct (render_digits m Hm) as (Hm1 & Hm2 & _).
  destruct (render4_digits y Hy) as (Hy1 & Hy2 & Hy3 & Hy4 & _).
  unfold render_ymd, render2, render4. cbn [app].
  apply (named_month_attempt_digits U HU);
    [done|done|by apply digit_is_ascii|by apply digit_isspace|ascii_text].
Qed.

Lemma space_classes c :
  space_regular U -> uni_isspace U c = true ->
  cset_mem U CSpace c = true /\ cset_mem U CDigit c = false
  /\ cset_mem U CWord c = false /\ Ascii7.isdigit c = false.
Proof.
  intros HS Hc. destruct (HS c Hc) as [Hd Hw]. cbn [cset_mem].
  rewrite Hd, Hw. split; [done|]. split.
  { apply bool_decide_eq_false_2. by intros [? ?]. }
  split; [done|]. destruct (Ascii7.isdigit c) eqn:E; [|done].
  rewrite (uni_digit_not_space U HU c E) in Hc. done.
Qed.

(** The named-month pattern refuses text with a separator of the numeric
    forms among its first eight characters. *)
Lemma named_month_attempt_at_separator s sep i :
  sep ∈ [46; 47; 45]%N -> (i < 8)%nat -> s !! i = Some sep ->
  named_month_attempt U s = Ok None.
Proof.
  intros Hsep Hi Hs. unfold named_month_attempt.
  destruct (re_match U named_month_re s) as [x|] eqn:Hm; [|done].
  pose proof (named_lookup U s x i sep Hm Hi Hs) as Hc.
  destruct (separator_classes U HU sep Hsep) as [Hn _]. congruence.
Qed.

(** The numeric formats refuse text that starts with one or two digits
    and a whitespace character. *)
Lemma try_formats_after_day_space ds w rest :
  space_regular U ->
  Forall (fun c => Ascii7.isdigit c = true) ds -> (1 <= length ds <= 2)%nat ->
  uni_isspace U w = true ->
  try_formats U numeric_formats (ds ++ w :: rest) = Ok None.
Proof.
  intros HS Hds Hlds Hw.
  destruct (space_classes w HS Hw) as (_ & Hwd & _ & Hwa).
  assert (Hnotsep : forall sep', sep' ∈ [46; 47; 45]%N -> w <> sep').
  { intros sep' Hsep' ->.
    destruct (separator_classes U HU sep' Hsep') as (_ & _ & _ & Hns). congruence. }
  apply try_formats_all_raise. intros fmt Hin.
  destruct (numeric_format_parses fmt Hin) as [items Hp].
  apply (strptime_unmatched U _ fmt items Hp). intros groups Hm.
  destruct (numeric_format_cases U HU fmt items Hin Hp) as [(sep' & Hs & -> & ->)|[-> ->]].
  - apply dmy_lookup in Hm as [[H1|(H2 & c2 & H1 & Hc2)] _].
    + destruct ds as [|c1 [|c2 [|c3 ds]]]; cbn [length] in Hlds; [lia| | |lia].
      * injection H1 as ->. by apply (Hnotsep sep').
      * apply Forall_cons in Hds as [_ [Hd2 _]%Forall_cons]. injection H1 as ->.
        by apply (digitish_not_separator U HU sep' sep' Hs); [left|].
    + destruct ds as [|c1 [|c3 [|c4 ds]]]; cbn [length] in Hlds; [lia| | |lia].
      * injection H1 as <-. destruct Hc2; congruence.
      * injection H2 as ->. by apply (Hnotsep sep').
  - apply ymd_lookup in Hm as (_ & (c1 & c2 & H1 & Hc1 & H2 & Hc2) & _).
    destruct ds as [|d1 [|d2 [|d3 ds]]]; cbn [length] in Hlds; [lia| | |lia].
    + injection H1 as <-. congruence.
    + injection H2 as <-. congruence.
Qed.


(** X2.  The numeric forms must be the whole text: a numeric rendering of
    any numbers followed by one more character or more, of any kind, is
    not parsed. *)
Theorem parse_date_trailing_text (y m d : Z) (c : N) (rest : str) :
  (forall sep, sep ∈ [46; 47; 45]%N ->
               parse_date U (render_dmy sep y m d ++ c :: rest) = Ok None)
  /\ parse_date U (render_ymd y m d ++ c :: rest) = Ok None.
Proof.
  split.
  - intros sep Hsep. unfold parse_date.
    rewrite (named_month_attempt_at_separator _ sep 2); [|done|lia|reflexivity]. cbn [rbind].
    apply (try_formats_long_text U HU).
    unfold render_dmy, render2, render4. cbn [app length]. lia.
  - unfold parse_date.
    rewrite (named_month_attempt_at_separator _ 45%N 4); [|set_solver|lia|reflexivity].
    cbn [rbind].
    apply (try_formats_long_text U HU).
    unfold render_ymd, render2, render4. cbn [app length]. lia.
Qed.

(** X3.  The parser of [fonduri_structurale] never raises on a string,
    on which it returns no value or a valid calendar date; it returns no
    value on the empty string and on every other falsy value; on a truthy
    value that is no string it raises [TypeError]; on the four numeric
    renderings it agrees with the parser of [finantare_ro]; on text that
    starts with one or two digits and a whitespace character, as a date
    with a named month does, it returns no value, whatever follows. *)
Theorem fonduri_parse_date_numeric_only :
  (forall s, exists o, FonduriStructurale.parse_date U (JStr s) = Ok o
                       /\ from_option calendar_date True o)
  /\ (forall v, truthy v = false -> FonduriStructurale.parse_date U v = Ok None)
  /\ (forall v, truthy v = true -> (forall s, v <> JStr s) ->
        FonduriStructurale.parse_date U v = Raise TypeError)
  /\ (forall y m d, 0 <= y < 10000 -> 0 <= m < 100 -> 0 <= d < 100 ->
        (forall sep, sep ∈ [46; 47; 45]%N ->
           FonduriStructurale.parse_date U (JStr (render_dmy sep y m d))
           = parse_date U (render_dmy sep y m d))
        /\ FonduriStructurale.parse_date U (JStr (render_ymd y m d))
           = parse_date U (render_ymd y m d))
  /\ (space_regular U ->
      forall ds w rest,
        Forall (fun c => Ascii7.isdigit c = true) ds -> (1 <= length ds <= 2)%nat ->
        uni_isspace U w = true ->
        FonduriStructurale.parse_date U (JStr (ds ++ w :: rest)) = Ok None).
Proof.
  split; [|split; [|split; [|split]]].
  - intros [|c s]; [by exists None|]. apply try_formats_returns.
  - intros v Hv. unfold FonduriStructurale.parse_date. by rewrite Hv.
  - intros v Hv Hns. unfold FonduriStructurale.parse_date. rewrite Hv. cbn [negb].
    destruct v; try done. by destruct (Hns s).
  - intros y m d Hy Hm Hd. split.
    + intros sep Hsep. unfold parse_date.
      pose proof (named_month_attempt_render_dmy sep y m d [] Hsep Hy Hm Hd) as H.
      rewrite app_nil_r in H. rewrite H by constructor. cbn [rbind].
      unfold render_dmy, render2. reflexivity.
    + unfold parse_date.
      pose proof (named_month_attempt_render_ymd y m d [] Hy Hm Hd) as H.
      rewrite app_nil_r in H. rewrite H by constructor. cbn [rbind].
      unfold render_ymd, render4. reflexivity.
  - intros HS ds w rest Hds Hlds Hw.
    assert (Hne : truthy (JStr (ds ++ w :: rest)) = true).
    { cbn [truthy]. rewrite length_app. cbn [length].
      by replace (length ds + S (length rest))%nat with (S (length ds + length rest)) by lia. }
    unfold FonduriStructurale.parse_date. rewrite Hne. cbn [negb].
    by apply try_formats_after_day_space.
Qed.
End DateExtras.

Lemma ascii7_space_regular : space_regular Ascii7.db.
Proof.
  intros c. cbn [Ascii7.db uni_isspace uni_decimal uni_isword].
  intros [Ha Hs]%andb_true_iff. destruct (space_facts c Hs) as (_ & Hd & Hw).
  unfold Ascii7.decimal. by rewrite Hd, Hw, andb_false_r.
Qed.

Lemma nbsp_db_faithful : ascii_faithful nbsp_db.
Proof.
  split; cbn [nbsp_db Ascii7.db uni_isword uni_isspace uni_decimal uni_lower_at].
  - by intros c ->.
  - intros c Hc. rewrite Hc. cbn [andb].
    destruct (N.eqb_spec c 0xa0) as [->|_]; [done|]. by rewrite orb_false_r.
  - done.
  - done.
Qed.

Lemma nbsp_db_space_regular : space_regular nbsp_db.
Proof.
  intros c. cbn [nbsp_db Ascii7.db uni_isspace uni_decimal uni_isword].
  intros [H|H]%orb_true_iff.
  - by apply ascii7_space_regular.
  - apply N.eqb_eq in H as ->. done.
Qed.


(** "04.11.2026" followed by an ideograph. *)
Lemma parse_date_trailing_text_witness :
  parse_date Ascii7.db (u "04.11.2026" ++ [0x4e2d]%N) = Ok None.
Proof.
  refine (proj1 (parse_date_trailing_text Ascii7.db ascii7_faithful
                   2026 11 4 0x4e2d%N [])%Z 46%N _).
  apply list_elem_of_here.
Defined.

(** "15 aprilie 2026" with no-break spaces. *)
Lemma fonduri_parse_date_numeric_only_witness :
  FonduriStructurale.parse_date nbsp_db
    (JStr (u "15" ++ [0x00a0]%N ++ u "aprilie" ++ [0x00a0]%N ++ u "2026")) = Ok None
  /\ FonduriStructurale.parse_date nbsp_db (JInt 20261118) = Raise TypeError.
Proof.
  split.
  - refine (proj2 (proj2 (proj2 (proj2
              (fonduri_parse_date_numeric_only nbsp_db nbsp_db_faithful))))
              nbsp_db_space_regular (u "15") 0x00a0%N
              (u "aprilie" ++ [0x00a0]%N ++ u "2026") _ _ _).
    + by repeat constructor.
    + cbn. lia.
    + reflexivity.
  - refine (proj1 (proj2 (proj2
              (fonduri_parse_date_numeric_only nbsp_db nbsp_db_faithful)))
              (JInt 20261118) _ _); done.
Defined.

(** ** More on the tracker *)

Lemma NoDup_list_filter {A} (f : A -> bool) (l : list A) :
  NoDup l -> NoDup (List.filter f l).
Proof.
  induction 1 as [|x l Hx Hl IH]; [constructor|]. cbn [List.filter].
  destruct (f x); [|done]. constructor; [|done].
  intros Hin. apply Hx. apply list_elem_of_In, filter_In in Hin as [Hin _].
  by apply list_elem_of_In.
Qed.

Lemma cleanup_old_funding_run (current_ids : gset str) (w : world) :
  exists w',
    cleanup_old_funding current_ids w
    = (Ok (size (dom (funding (seen w)) ∖ current_ids)), w')
    /\ dom (funding (seen w')) = dom (funding (seen w)) ∩ current_ids
    /\ ticks w' = ticks w /\ last_updated (seen w') = last_updated (seen w).
Proof.
  unfold cleanup_old_funding, mbind, get_funding, put_funding, mret.
  set (old := List.filter _ _).
  assert (Hold : forall fid, fid ∈ old
            <-> fid ∈ dom (funding (seen w)) /\ fid ∉ current_ids).
  { intros fid. subst old. rewrite list_elem_of_In, filter_In, <- list_elem_of_In.
    by rewrite elem_of_elements, bool_decide_eq_true. }
  assert (Hnd : NoDup old).
  { subst old. apply NoDup_list_filter, NoDup_elements. }
  assert (Hlen : length old = size (dom (funding (seen w)) ∖ current_ids)).
  { rewrite <- (size_list_to_set (C := gset str) old Hnd).
    f_equal. apply set_eq. intros fid. rewrite elem_of_list_to_set, Hold. set_solver. }
  eexists. split; [by rewrite <- Hlen|]. split; [|done].
  - cbn [seen funding]. apply set_eq. intros fid.
    rewrite elem_of_dom, foldl_delete_lookup, elem_of_intersection, elem_of_dom.
    case_bool_decide as Hin.
    + apply Hold in Hin as [_ Hn]. split; [by intros [? ?]|tauto].
    + split; [|tauto]. intros Hs. split; [done|].
      destruct (decide (fid ∈ current_ids)); [done|]. exfalso. apply Hin, Hold.
      split; [by apply elem_of_dom|done].
Qed.

Section TrackerExtras.
Context (U : unicode_db) (fromisoformat : str -> option datetime)
        (clock : nat -> datetime).

Local Abbreviation closing := (is_closing_soon fromisoformat clock).
Local Abbreviation loop := (process_loop U fromisoformat clock).
Local Abbreviation safe := (fun it => deadline_is_naive fromisoformat it = true).

Lemma is_closing_soon_aware f w :
  deadline_is_naive fromisoformat f = false ->
  closing f w = (Raise TypeError, {| seen := seen w; ticks := S (ticks w) |}).
Proof.
  unfold deadline_is_naive, is_closing_soon.
  destruct (deadline_date f) as [[|d|[|c s]]|]; try done.
  - intros H. apply bool_decide_eq_false in H. apply within_14_days_aware.
    by destruct (DT.utcoffset d); [eauto|].
  - destruct (fromisoformat (c :: s)) as [d|]; [|done].
    intros H. apply bool_decide_eq_false in H. apply within_14_days_aware.
    by destruct (DT.utcoffset d); [eauto|].
Qed.

(** When the loop returns, the items added as new have distinct ids,
    none of which was a key of the database, and the database has grown
    by exactly these ids. *)
Lemma process_loop_new items nm am w r w1 :
  loop items nm am w = (Ok r, w1) ->
  exists dn da,
    r = (nm ++ dn, am ++ da)
    /\ NoDup (item_id <$> dn)
    /\ (forall o, o ∈ dn -> funding (seen w) !! item_id o = None)
    /\ dom (funding (seen w1))
       = dom (funding (seen w)) ∪ list_to_set (item_id <$> dn)
    /\ dn `sublist_of` da
    /\ (forall o, o ∈ da -> exists it, it ∈ items /\ classified U it o).
Proof.
  revert nm am w. induction items as [|item rest IH]; intros nm am w Hrun.
  { injection Hrun as <- <-. exists [], []. rewrite !app_nil_r.
    split; [done|]. split; [constructor|]. split; [by intros ? ?%elem_of_nil|].
    split; [|split; [done|by intros ? ?%elem_of_nil]].
    rewrite fmap_nil, list_to_set_nil. by rewrite (right_id_L ∅ (∪)). }
  rewrite process_loop_cons in Hrun.
  destruct (match_keywords U item) as [|k ks] eqn:Hkw.
  { destruct (IH _ _ _ Hrun) as (dn & da & -> & Hnd & Hnone & Hdom & Hsub & Hcl).
    exists dn, da. repeat (split; [done|]).
    intros o' Hin. destruct (Hcl o' Hin) as (it & ? & ?). exists it.
    split; [by right|done]. }
  pose proof (classified_cons U item k ks) as Hcls.
  pose proof (is_closing_soon_seen fromisoformat clock item w) as Hs.
  destruct (closing item w) as [[cs|e] w0]; [|done]. cbn [snd] in Hs.
  cbn zeta in Hrun. set (o := annotate item (k :: ks) (any_high_priority (k :: ks)) cs) in *.
  destruct (funding (seen w0) !! item_id item) as [rec|] eqn:Hl.
  - destruct (IH _ _ _ Hrun) as (dn & da & -> & Hnd & Hnone & Hdom & Hsub & Hcl).
    exists dn, (o :: da). rewrite <- app_assoc. split; [done|]. split; [done|].
    split; [by rewrite <- Hs|]. split; [by rewrite <- Hs|].
    split; [by apply sublist_cons|].
    intros o' [->|Hin]%elem_of_cons.
    + exists item. split; [by left|]. by apply Hcls.
    + destruct (Hcl o' Hin) as (it & ? & ?). exists it. split; [by right|done].
  - destruct (IH _ _ _ Hrun) as (dn & da & -> & Hnd & Hnone & Hdom & Hsub & Hcl).
    unfold record_new in Hnone, Hdom; cbn [seen funding] in Hnone, Hdom.
    exists (o :: dn), (o :: da). rewrite <- !app_assoc. split; [done|].
    split; [|split; [|split; [|split]]].
    + rewrite fmap_cons. apply NoDup_cons. split; [|done].
      intros (o' & Hid & Hin)%list_elem_of_fmap_1.
      specialize (Hnone o' Hin). rewrite <- Hid in Hnone.
      change (item_id o) with (item_id item) in Hnone.
      by rewrite lookup_insert_eq in Hnone.
    + intros o' [->|Hin]%elem_of_cons.
      * change (item_id o) with (item_id item). by rewrite <- Hs.
      * specialize (Hnone o' Hin).
        apply lookup_insert_None in Hnone as [Hnone _]. by rewrite <- Hs.
    + rewrite Hdom, dom_insert_L, Hs, fmap_cons. cbn [list_to_set foldr].
      change (item_id o) with (item_id item). set_solver.
    + by apply sublist_skip.
    + intros o' [->|Hin]%elem_of_cons.
      * exists item. split; [by left|]. by apply Hcls.
      * destruct (Hcl o' Hin) as (it & ? & ?). exists it. split; [by right|done].
Qed.

(** X4.  A deadline with a time zone on a matching item aborts the run:
    [process_funding] raises [TypeError] at that item, the database keeps
    what the items before it added and gets nothing more, and [main]
    raises likewise, before pruning and before [last_updated] is set. *)
Theorem aware_deadline_aborts_run (send : opportunity -> list str -> bool)
    (pre post : list opportunity) (item : opportunity) (w : world) :
  Forall safe pre ->
  matching U item = true ->
  deadline_is_naive fromisoformat item = false ->
  exists w1,
    process_funding U fromisoformat clock (pre ++ item :: post) w = (Raise TypeError, w1)
    /\ main U fromisoformat clock send (pre ++ item :: post) w = (Raise TypeError, w1)
    /\ seen w1 = seen (process_funding U fromisoformat clock pre w).2.
Proof.
  intros Hpre Hm Haware.
  destruct (process_loop_returns U fromisoformat clock pre [] [] w Hpre)
    as (dn & da & w0 & Heq & _).
  assert (Hrun : process_funding U fromisoformat clock (pre ++ item :: post) w
                 = (Raise TypeError, {| seen := seen w0; ticks := S (ticks w0) |})).
  { unfold process_funding. rewrite process_loop_app, Heq, process_loop_cons.
    destruct (match_keywords U item) as [|k ks] eqn:Hkw.
    { by rewrite (matching_nil U _ Hkw) in Hm. }
    by rewrite is_closing_soon_aware. }
  eexists. split; [exact Hrun|]. split.
  - by apply main_raises.
  - unfold process_funding. by rewrite Heq.
Qed.

(** X5.  Whenever [process_funding] returns, the items it reports as new
    have pairwise distinct ids, none of these ids was a key of the
    database before, every one is a key afterwards, the database has
    gained exactly these keys, and the new items are among the matching
    ones in the same order. *)
Theorem new_matching_once (items new all : list opportunity) (w w1 : world) :
  process_funding U fromisoformat clock items w = (Ok (new, all), w1) ->
  NoDup (item_id <$> new)
  /\ (forall o, o ∈ new -> funding (seen w) !! item_id o = None)
  /\ dom (funding (seen w1)) = dom (funding (seen w)) ∪ list_to_set (item_id <$> new)
  /\ new `sublist_of` all.
Proof.
  intros Hrun. destruct (process_loop_new items [] [] w _ w1 Hrun)
    as (dn & da & [= -> ->] & Hnd & Hnone & Hdom & Hsub & _).
  done.
Qed.

(** X6.  After a run of [main] that returns, the keys of the database
    are the scraped ids that were keys before or belong to an item
    reported as new; the number of records removed is the number of
    former keys that were not scraped; [last_updated] is set. *)
Theorem main_database_keys (send : opportunity -> list str -> bool)
    (items : list opportunity) (w w' : world) (r : run) :
  main U fromisoformat clock send items w = (Ok r, w') ->
  dom (funding (seen w'))
  = (dom (funding (seen w)) ∪ list_to_set (item_id <$> run_new_matching r))
    ∩ list_to_set (item_id <$> items)
  /\ run_removed r
     = size (dom (funding (seen w)) ∖ list_to_set (C := gset str) (item_id <$> items))
  /\ is_Some (last_updated (seen w')).
Proof.
  intros Hmain. unfold main in Hmain. unfold mbind at 1 in Hmain.
  destruct (process_funding U fromisoformat clock items w) as [[[new all]|e] w1] eqn:Hp;
    [|done].
  destruct (process_loop_new items [] [] w _ w1 Hp)
    as (dn & da & [= -> ->] & Hnd & Hnone & Hdom & Hsub & Hcl).
  assert (Hnew : list_to_set (C := gset str) (item_id <$> dn)
                 ⊆ list_to_set (item_id <$> items)).
  { intros fid (o & -> & Hin)%elem_of_list_to_set%list_elem_of_fmap_1.
    destruct (Hcl o) as (it & Hit & [cs ->]); [by eapply elem_of_sublist|].
    apply elem_of_list_to_set. cbn [item_id annotate]. by apply list_elem_of_fmap_2. }
  cbn [fst snd] in Hmain.
  destruct (cleanup_old_funding_run (list_to_set (item_id <$> items)) w1)
    as (w2 & Hc & Hd2 & Ht2 & Hl2).
  unfold mbind at 1 in Hmain. rewrite Hc in Hmain.
  unfold mbind, now, put_last_updated, mret in Hmain.
  injection Hmain as <- <-. cbn [seen funding last_updated run_new_matching run_removed].
  split; [by rewrite Hd2, Hdom|]. split; [|by eauto].
  f_equal. rewrite Hdom. set_solver.
Qed.
End TrackerExtras.

Lemma cleanup_old_funding_noop (current_ids : gset str) (w : world) :
  dom (funding (seen w)) ⊆ current_ids ->
  funding (seen (cleanup_old_funding current_ids w).2) = funding (seen w).
Proof.
  intros Hsub. apply map_eq. intros fid. rewrite cleanup_old_funding_lookup.
  case_bool_decide as Hin; [done|]. symmetry. apply not_elem_of_dom. set_solver.
Qed.

Lemma scrape_all_sources_cons o (b : list (result (list opportunity))) :
  scrape_all_sources (o :: b)
  = match o with Ok items => items | Raise _ => [] end ++ scrape_all_sources b.
Proof.
  unfold scrape_all_sources. cbn [foldl].
  assert (H : forall acc : list opportunity,
    foldl (fun all_funding outcome =>
             match outcome with
             | Ok items => all_funding ++ items
             | Raise _ => all_funding
             end) acc b
    = acc ++ foldl (fun all_funding outcome =>
                      match outcome with
                      | Ok items => all_funding ++ items
                      | Raise _ => all_funding
                      end) [] b).
  { induction b as [|o' b IH]; intros acc; [by rewrite app_nil_r|].
    cbn [foldl]. rewrite IH, (IH (match o' with Ok items => [] ++ items | Raise _ => [] end)).
    destruct o'; [by rewrite app_assoc|done]. }
  rewrite H. by destruct o.
Qed.

Lemma scrape_all_sources_app (a b : list (result (list opportunity))) :
  scrape_all_sources (a ++ b) = scrape_all_sources a ++ scrape_all_sources b.
Proof.
  induction a as [|o a IH]; [done|].
  by rewrite <- app_comm_cons, !scrape_all_sources_cons, IH, app_assoc.
Qed.

Section RunExtras.
Context (U : unicode_db) (fromisoformat : str -> option datetime)
        (clock : nat -> datetime).

Local Abbreviation safe := (fun it => deadline_is_naive fromisoformat it = true).

(** X7.  The answer of the notifier is not kept: whatever it answered
    for the new items of a run, a second run over the same items finds
    nothing new, hands nothing to the notifier and leaves the records as
    they are. *)
Theorem failed_notification_not_retried
    (send send' : opportunity -> list str -> bool)
    (items : list opportunity) (w : world) :
  Forall safe items ->
  exists r w1 r2 w2,
    main U fromisoformat clock send items w = (Ok r, w1)
    /\ main U fromisoformat clock send' items w1 = (Ok r2, w2)
    /\ run_new_matching r2 = []
    /\ run_notified r2 = []
    /\ run_notification_count r2 = 0%nat
    /\ funding (seen w2) = funding (seen w1).
Proof.
  intros Hsafe.
  destruct (process_loop_returns U fromisoformat clock items [] [] w Hsafe)
    as (new & all & wp & Heq & _ & _ & _ & _ & Hseen).
  cbn [app] in Heq.
  destruct (main_after_process U fromisoformat clock send items w _ wp Heq)
    as (removed & w1 & Hmain1 & Hf1).
  assert (Hseen1 : forall it, it ∈ items -> matching U it = true ->
            is_Some (funding (seen w1) !! item_id it)).
  { intros it Hin Hm. rewrite Hf1, cleanup_old_funding_lookup.
    rewrite bool_decide_eq_true_2; [by apply Hseen|].
    apply elem_of_list_to_set. by apply list_elem_of_fmap_2. }
  destruct (process_loop_all_seen U fromisoformat clock items [] [] w1 Hsafe Hseen1)
    as (da & wq & Heq2 & Hs2).
  cbn [app] in Heq2.
  destruct (main_after_process U fromisoformat clock send' items w1 _ wq Heq2)
    as (removed2 & w2 & Hmain2 & Hf2).
  eexists _, w1, _, w2. split; [exact Hmain1|]. split; [exact Hmain2|].
  cbn [run_new_matching run_notified run_notification_count fst snd fmap list_fmap
       List.filter length].
  repeat (split; [done|]).
  rewrite Hf2, cleanup_old_funding_noop; [by rewrite Hs2|].
  rewrite Hs2, Hf1. intros fid Hfid. apply elem_of_dom in Hfid.
  rewrite cleanup_old_funding_lookup in Hfid.
  case_bool_decide; [done|]. by destruct Hfid.
Qed.

(** X8.  [scrape_all_sources] returns the items of the scrapers that
    succeeded, in the scrapers' order, and a scraper that raised
    contributes nothing; when every scraper raises, the run that follows
    removes every record from the database and reports nothing. *)
Theorem scrape_outage_forgets (send : opportunity -> list str -> bool)
    (w : world) :
  (forall a b e, scrape_all_sources (a ++ Raise e :: b) = scrape_all_sources (a ++ b))
  /\ (forall lists, scrape_all_sources (Ok <$> lists) = concat lists)
  /\ (forall outcomes,
        Forall (fun o => exists e, o = Raise e) outcomes ->
        exists r w',
          main U fromisoformat clock send (scrape_all_sources outcomes) w = (Ok r, w')
          /\ funding (seen w') = ∅
          /\ run_removed r = size (funding (seen w))
          /\ run_all_matching r = []
          /\ run_notified r = []).
Proof.
  split; [|split].
  - intros a b e. by rewrite !scrape_all_sources_app, scrape_all_sources_cons.
  - intros lists. induction lists as [|l lists IH]; [done|].
    by rewrite fmap_cons, scrape_all_sources_cons, IH.
  - intros outcomes Hall.
    assert (Hnone : scrape_all_sources outcomes = []).
    { induction Hall as [|o outcomes [e ->] _ IH]; [done|].
      by rewrite scrape_all_sources_cons, IH. }
    rewrite Hnone. unfold main. unfold mbind at 1.
    cbn [process_funding process_loop mret fst snd fmap list_fmap].
    destruct (cleanup_old_funding_run (list_to_set []) w) as (wc & Hc & Hd & _).
    unfold mbind at 1. rewrite Hc. unfold mbind, now, put_last_updated, mret.
    eexists _, _. split; [reflexivity|].
    cbn [seen funding run_removed run_all_matching run_notified].
    rewrite list_to_set_nil in Hd |- *. split; [|split; [|done]].
    + apply (dom_empty_iff_L (D := gset str)). rewrite Hd. set_solver.
    + by rewrite difference_empty_L, size_dom.
Qed.
End RunExtras.

(** X9.  [cleanup_old_funding] returns the number of keys that are not
    among the current ids, which is the number of records the database
    loses; the keys left are current ids; a second pruning with the same
    ids removes nothing. *)
Theorem cleanup_old_funding_count (current_ids : gset str) (w : world) :
  exists w',
    cleanup_old_funding current_ids w
    = (Ok (size (dom (funding (seen w)) ∖ current_ids)), w')
    /\ (size (funding (seen w'))
        + size (dom (funding (seen w)) ∖ current_ids)
        = size (funding (seen w)))%nat
    /\ dom (funding (seen w')) ⊆ current_ids
    /\ (cleanup_old_funding current_ids w').1 = Ok 0%nat
    /\ seen (cleanup_old_funding current_ids w').2 = seen w'.
Proof.
  destruct (cleanup_old_funding_run current_ids w) as (w' & Hc & Hd & _).
  exists w'. split; [exact Hc|].
  assert (Hsub : dom (funding (seen w')) ⊆ current_ids) by (rewrite Hd; set_solver).
  split; [|split; [exact Hsub|]].
  - assert (H1 : size (dom (funding (seen w'))) = size (funding (seen w')))
      by apply size_dom.
    assert (H2 : size (dom (funding (seen w))) = size (funding (seen w)))
      by apply size_dom.
    rewrite <- H1, <- H2, Hd.
    pose proof (size_difference_alt (C := gset str) (dom (funding (seen w))) current_ids)
      as H3.
    assert (H4 : (size (dom (funding (seen w)) ∩ current_ids)
                  <= size (dom (funding (seen w))))%nat).
    { apply subseteq_size. set_solver. }
    lia.
  - destruct (cleanup_old_funding_run current_ids w') as (w'' & Hc' & _ & _ & Hl).
    pose proof (cleanup_old_funding_noop current_ids w' Hsub) as Hf.
    rewrite Hc' in Hf |- *. cbn [fst snd] in Hf |- *. split.
    + do 2 f_equal. apply size_empty_iff. set_solver.
    + destruct (seen w''), (seen w'). cbn in *. by subst.
Qed.

Section DeadlineExtras.
Context (U : unicode_db) (fromisoformat : str -> option datetime)
        (clock : nat -> datetime).

(** X10.  A deadline that a date parser of the scrapers returned never
    makes [is_closing_soon] raise: the parsers build dates without time
    zone, which can be subtracted from the clock reading. *)
Theorem parsed_deadline_never_aborts (s : str) (v : json_value) (t : datetime)
    (f : opportunity) (w : world) :
  parse_date U s = Ok (Some t) \/ FonduriStructurale.parse_date U v = Ok (Some t) ->
  deadline_date f = Some (PyDatetime t) ->
  exists b w', is_closing_soon fromisoformat clock f w = (Ok b, w')
               /\ seen w' = seen w.
Proof.
  intros Hparse Hf.
  assert (Hcal : calendar_date t).
  { destruct Hparse as [Hp|Hp].
    - destruct (parse_date_returns U s) as (o & Ho & Hc). rewrite Hp in Ho.
      by injection Ho as <-.
    - unfold FonduriStructurale.parse_date in Hp.
      destruct (negb (truthy v)); [done|]. destruct v as [| | | |s'| |]; try done.
      destruct (try_formats_returns U numeric_formats s') as (o & Ho & Hc).
      rewrite Hp in Ho. by injection Ho as <-. }
  apply is_closing_soon_safe. unfold deadline_is_naive. rewrite Hf.
  apply bool_decide_eq_true. destruct Hcal as [_ ->]. reflexivity.
Qed.
End DeadlineExtras.

Lemma aware_deadline_aborts_run_witness :
  exists w1,
    process_funding Ascii7.db fromisoformat_basic clock_nov4
      ([item_ong] ++ item_aware :: [item_steam]) fresh_world = (Raise TypeError, w1)
    /\ main Ascii7.db fromisoformat_basic clock_nov4 always_delivered
         ([item_ong] ++ item_aware :: [item_steam]) fresh_world = (Raise TypeError, w1)
    /\ seen w1 = seen (process_funding Ascii7.db fromisoformat_basic clock_nov4
                         [item_ong] fresh_world).2.
Proof.
  apply (aware_deadline_aborts_run Ascii7.db fromisoformat_basic clock_nov4
           always_delivered [item_ong] [item_steam] item_aware fresh_world).
  - repeat constructor.
  - vm_compute. reflexivity.
  - reflexivity.
Defined.

Lemma new_matching_once_witness :
  exists new all w1,
    process_funding Ascii7.db fromisoformat_basic clock_nov4
      [item_ong; item_ong_retitled] fresh_world = (Ok (new, all), w1)
    /\ NoDup (item_id <$> new)
    /\ (forall o, o ∈ new -> funding (seen fresh_world) !! item_id o = None)
    /\ dom (funding (seen w1))
       = dom (funding (seen fresh_world)) ∪ list_to_set (item_id <$> new)
    /\ new `sublist_of` all.
Proof.
  destruct (process_loop_returns Ascii7.db fromisoformat_basic clock_nov4
              [item_ong; item_ong_retitled] [] [] fresh_world)
    as (new & all & w1 & Heq & _).
  { repeat constructor. }
  exists new, all, w1. split; [exact Heq|].
  exact (new_matching_once Ascii7.db fromisoformat_basic clock_nov4 _ _ _ _ _ Heq).
Defined.

Lemma main_database_keys_witness :
  exists r w',
    main Ascii7.db fromisoformat_basic clock_nov4 never_delivered
      [item_festival; item_steam] world_with_ong = (Ok r, w')
    /\ dom (funding (seen w'))
       = (dom (funding (seen world_with_ong))
          ∪ list_to_set (item_id <$> run_new_matching r))
         ∩ list_to_set (item_id <$> [item_festival; item_steam])
    /\ run_removed r
       = size (dom (funding (seen world_with_ong))
               ∖ list_to_set (C := gset str) (item_id <$> [item_festival; item_steam]))
    /\ is_Some (last_updated (seen w')).
Proof.
  destruct (process_loop_returns Ascii7.db fromisoformat_basic clock_nov4
              [item_festival; item_steam] [] [] world_with_ong)
    as (new & all & w1 & Heq & _).
  { repeat constructor. }
  destruct (main_after_process Ascii7.db fromisoformat_basic clock_nov4 never_delivered
              _ _ _ _ Heq) as (removed & w2 & Hmain & _).
  eexists _, w2. split; [exact Hmain|].
  exact (main_database_keys Ascii7.db fromisoformat_basic clock_nov4 never_delivered
           _ _ _ _ Hmain).
Defined.

Lemma failed_notification_not_retried_witness :
  exists r w1 r2 w2,
    main Ascii7.db fromisoformat_basic clock_nov4 never_delivered
      [item_ong; item_steam] fresh_world = (Ok r, w1)
    /\ main Ascii7.db fromisoformat_basic clock_nov4 always_delivered
         [item_ong; item_steam] w1 = (Ok r2, w2)
    /\ run_new_matching r2 = []
    /\ run_notified r2 = []
    /\ run_notification_count r2 = 0%nat
    /\ funding (seen w2) = funding (seen w1).
Proof.
  apply (failed_notification_not_retried Ascii7.db fromisoformat_basic clock_nov4
           never_delivered always_delivered [item_ong; item_steam] fresh_world).
  repeat constructor.
Defined.

Lemma scrape_outage_forgets_witness :
  exists r w',
    main Ascii7.db fromisoformat_basic clock_nov4 always_delivered
      (scrape_all_sources [Raise ValueError; Raise TypeError]) world_with_ong = (Ok r, w')
    /\ funding (seen w') = ∅
    /\ run_removed r = size (funding (seen world_with_ong))
    /\ run_all_matching r = []
    /\ run_notified r = [].
Proof.
  apply (proj2 (proj2 (scrape_outage_forgets Ascii7.db fromisoformat_basic clock_nov4
                         always_delivered world_with_ong))).
  repeat constructor; eauto.
Defined.

Lemma parsed_deadline_never_aborts_witness :
  exists b w',
    is_closing_soon fromisoformat_basic clock_nov4 item_steam fresh_world = (Ok b, w')
    /\ seen w' = seen fresh_world.
Proof.
  apply (parsed_deadline_never_aborts Ascii7.db fromisoformat_basic clock_nov4
           (u "18.11.2026") (JStr (u "18.11.2026")) (at_time 2026 11 18 0 0)
           item_steam fresh_world).
  - left. vm_compute. reflexivity.
  - reflexivity.
Defined.

(** ** More on the notifier *)

Lemma replace_char_other c : c ∉ replacements.*1 -> replace_char c = c.
Proof.
  unfold replace_char. generalize replacements.
  intros rs. induction rs as [|r rs IH]; intros Hnot; [done|].
  cbn [foldl]. rewrite fmap_cons in Hnot.
  apply not_elem_of_cons in Hnot as [Hne Hnot].
  destruct (N.eqb_spec c r.1) as [->|_]; [done|]. by apply IH.
Qed.

Lemma replace_char_ascii c : is_ascii c = true -> replace_char c = c.
Proof.
  intros Hc. apply replace_char_other. intros Hin.
  assert (H : Forall (fun k => is_ascii k = false) replacements.*1)
    by (by repeat constructor).
  rewrite Forall_forall in H. specialize (H _ Hin). congruence.
Qed.

Section NotifierExtras.
Context (U : unicode_db) (HL : latin_decomposition U).

Lemma sanitize_header_ascii_text text :
  ascii_undecomposed U -> ascii_str text -> sanitize_header U text = text.
Proof.
  intros HA Htext. rewrite sanitize_header_bind by done.
  induction Htext as [|c text Hc _ IH]; [done|].
  rewrite bind_cons, IH, (HA c Hc), bind_cons, bind_nil, app_nil_r.
  unfold sanitize_char. by rewrite (replace_char_ascii c Hc), Hc.
Qed.

(** X11.  [sanitize_header] leaves text of ASCII characters as it is;
    hence sanitizing twice is the same as sanitizing once. *)
Theorem sanitize_header_idempotent (text : str) :
  ascii_undecomposed U ->
  (ascii_str text -> sanitize_header U text = text)
  /\ sanitize_header U (sanitize_header U text) = sanitize_header U text.
Proof.
  intros HA. split; [by apply sanitize_header_ascii_text|].
  apply sanitize_header_ascii_text; [done|]. apply sanitize_header_ascii.
Qed.


(** X13.  The [Title] header of a notification holds ASCII characters
    only, whatever the item's title; for a title of ASCII characters it
    is ["Finantare: "] followed by the first 60 characters of the title,
    and by ["..."] exactly when the title is longer than that. *)
Theorem notification_title_ascii (f : opportunity) :
  ascii_str (notification_title U f)
  /\ (ascii_undecomposed U -> ascii_str (title f) ->
      notification_title U f
      = u "Finantare: " ++ take 60 (title f)
        ++ (if (60 <? length (title f))%nat then u "..." else [])).
Proof.
  split.
  - unfold notification_title.
    assert (Hhead : ascii_str (u "Finantare: ")) by (by apply ascii_str_forallb).
    assert (Hdots : ascii_str (u "...")) by (by apply ascii_str_forallb).
    pose proof (sanitize_header_ascii U (take 60 (title f))) as Hbody.
    destruct (60 <? length (title f))%nat; unfold ascii_str;
      rewrite ?Forall_app; auto.
  - intros HA Ht. unfold notification_title.
    rewrite sanitize_header_ascii_text; [|done|by apply Forall_take].
    destruct (60 <? length (title f))%nat; [by rewrite <- app_assoc|].
    by rewrite app_nil_r.
Qed.
End NotifierExtras.

Section PriorityExtras.
Context (U : unicode_db) (HU : ascii_faithful U).

(** X14.  For keywords of the configured lists, the [Priority] header
    is ["high"] exactly when one of the matched keywords is among the six
    urgent ones; every such item has its [is_high_priority] flag set,
    but not the other way round: an item matched by ["grant"] alone is
    of high priority and is notified with ["default"]. *)
Theorem notification_priority_high (matched : list str) :
  Forall (fun k => k ∈ ALL_KEYWORDS) matched ->
  (notification_priority U matched = u "high"
   <-> exists k, k ∈ matched /\ k ∈ urgent_keywords)
  /\ (notification_priority U matched = u "high" ->
      any_high_priority matched = true)
  /\ notification_priority U [u "grant"] = u "default"
  /\ any_high_priority [u "grant"] = true.
Proof.
  intros Hall.
  assert (Hiff : notification_priority U matched = u "high"
                 <-> exists k, k ∈ matched /\ k ∈ urgent_keywords).
  { unfold notification_priority.
    destruct (existsb _ matched) eqn:Hex.
    - split; [intros _|done]. apply existsb_exists in Hex as (k & Hin & Hk).
      apply list_elem_of_In in Hin. apply bool_decide_eq_true in Hk.
      rewrite Forall_forall in Hall.
      destruct (keyword_facts U HU k (Hall k Hin)) as (_ & Hlow & _).
      rewrite Hlow in Hk. eauto.
    - split; [done|]. intros (k & Hin & Hk). exfalso.
      assert (existsb (fun k => bool_decide (lower U k ∈ urgent_keywords)) matched = true);
        [|congruence].
      apply existsb_exists. exists k. split; [by apply list_elem_of_In|].
      apply bool_decide_eq_true. rewrite Forall_forall in Hall.
      destruct (keyword_facts U HU k (Hall k Hin)) as (_ & Hlow & _).
      by rewrite Hlow. }
  split; [exact Hiff|]. split; [|split].
  - intros (k & Hin & Hk)%Hiff. apply any_high_priority_true. exists k.
    split; [done|]. clear -Hk. unfold urgent_keywords in Hk.
    repeat (apply elem_of_cons in Hk as [->|Hk];
            [refine (bool_decide_unpack (_ ∈ _) _); vm_compute; exact I|]).
    by apply elem_of_nil in Hk.
  - unfold notification_priority. cbn [existsb].
    destruct (keyword_facts U HU (u "grant")) as (_ & -> & _).
    { refine (bool_decide_unpack (_ ∈ _) _). vm_compute. exact I. }
    rewrite bool_decide_eq_false_2; [done|].
    refine (bool_decide_unpack (_ ∉ _) _). vm_compute. exact I.
  - vm_compute. reflexivity.
Qed.
End PriorityExtras.

Lemma annotate_flags it kws hp cs :
  kws <> [] ->
  matched_keywords (annotate it kws hp cs) <> None
  /\ matched_keywords (annotate it kws hp cs) <> Some []
  /\ is_Some (is_high_priority (annotate it kws hp cs))
  /\ is_Some (closing_soon (annotate it kws hp cs)).
Proof.
  intros Hne. cbn [matched_keywords is_high_priority closing_soon annotate].
  repeat split; [done|by intros [= ->]|by eauto..].
Qed.

Section MatchingExtras.
Context (U : unicode_db) (fromisoformat : str -> option datetime)
        (clock : nat -> datetime).

(** X15.  On items with naive deadlines [process_funding] returns; its
    list of matching items holds the scraped items that match a keyword,
    each once per occurrence and in scrape order, whatever the database
    holds, each with its keywords, its priority flag and its
    closing-soon flag set. *)
Theorem all_matching_in_scrape_order (items : list opportunity) (w : world) :
  Forall (fun it => deadline_is_naive fromisoformat it = true) items ->
  exists new all w1,
    process_funding U fromisoformat clock items w = (Ok (new, all), w1)
    /\ Forall2 (classified U) (List.filter (matching U) items) all
    /\ length all = length (List.filter (matching U) items)
    /\ Forall (fun o => matched_keywords o <> None /\ matched_keywords o <> Some []
                        /\ is_Some (is_high_priority o) /\ is_Some (closing_soon o)) all.
Proof.
  intros Hsafe.
  destruct (process_loop_returns U fromisoformat clock items [] [] w Hsafe)
    as (new & all & w1 & Heq & Hall & _).
  cbn [app] in Heq. exists new, all, w1. split; [exact Heq|]. split; [exact Hall|].
  split; [symmetry; by eapply Forall2_length|].
  assert (Hm : Forall (fun it => matching U it = true) (List.filter (matching U) items)).
  { apply Forall_forall. intros x Hx. apply list_elem_of_In, filter_In in Hx. tauto. }
  clear Heq. revert Hm Hall. generalize (List.filter (matching U) items). intros l Hm Hall.
  revert Hm. induction Hall as [|it o l' da [cs ->] _ IH]; intros Hm; [constructor|].
  apply Forall_cons in Hm as [Hit Hm]. constructor; [|by apply IH].
  apply annotate_flags. destruct (matching_true_inv U it Hit) as (k & ks & Hkw).
  rewrite Hkw. discriminate.
Qed.
End MatchingExtras.

Lemma romanian_db_ascii : ascii_undecomposed romanian_db.
Proof.
  intros c Hc. unfold is_ascii in Hc. apply N.ltb_lt in Hc.
  cbn [romanian_db uni_decomp]. unfold romanian_letters. cbn [List.find fst].
  repeat match goal with
         | |- context [(?k =? c)%N] =>
             destruct (N.eqb_spec k c) as [<-|_]; [lia|]
         end.
  reflexivity.
Qed.

Lemma sanitize_header_idempotent_witness :
  (ascii_str (u "Educatie") -> sanitize_header romanian_db (u "Educatie") = u "Educatie")
  /\ sanitize_header romanian_db (sanitize_header romanian_db (u "Educatie"))
     = sanitize_header romanian_db (u "Educatie").
Proof.
  exact (sanitize_header_idempotent romanian_db romanian_db_latin (u "Educatie")
           romanian_db_ascii).
Defined.


Lemma notification_title_ascii_witness :
  notification_title romanian_db item_ong
  = u "Finantare: " ++ take 60 (title item_ong)
    ++ (if (60 <? length (title item_ong))%nat then u "..." else []).
Proof.
  apply (proj2 (notification_title_ascii romanian_db romanian_db_latin item_ong)
           romanian_db_ascii).
  by apply ascii_str_forallb.
Defined.

Lemma notification_priority_high_witness :
  (notification_priority Ascii7.db [u "ong"; u "granturi"] = u "high"
   <-> exists k, k ∈ [u "ong"; u "granturi"] /\ k ∈ urgent_keywords)
  /\ (notification_priority Ascii7.db [u "ong"; u "granturi"] = u "high" ->
      any_high_priority [u "ong"; u "granturi"] = true)
  /\ notification_priority Ascii7.db [u "grant"] = u "default"
  /\ any_high_priority [u "grant"] = true.
Proof.
  apply (notification_priority_high Ascii7.db ascii7_faithful [u "ong"; u "granturi"]).
  repeat constructor; refine (bool_decide_unpack (_ ∈ _) _); vm_compute; exact I.
Defined.

Lemma all_matching_in_scrape_order_witness :
  exists new all w1,
    process_funding Ascii7.db fromisoformat_basic clock_nov4
      [item_ong; item_general; item_steam] world_with_ong = (Ok (new, all), w1)
    /\ Forall2 (classified Ascii7.db)
         (List.filter (matching Ascii7.db) [item_ong; item_general; item_steam]) all
    /\ length all
       = length (List.filter (matching Ascii7.db) [item_ong; item_general; item_steam])
    /\ Forall (fun o => matched_keywords o <> None /\ matched_keywords o <> Some []
                        /\ is_Some (is_high_priority o) /\ is_Some (closing_soon o)) all.
Proof.
  apply (all_matching_in_scrape_order Ascii7.db fromisoformat_basic clock_nov4
           [item_ong; item_general; item_steam] world_with_ong).
  repeat constructor.
Defined.

(** ** Days and months without a leading zero *)

Section DateShort.
Local Abbreviation A := Ascii7.db.

Lemma rmatch_day_short c1 c2 prev rest caps k :
  Ascii7.isdigit c1 = true -> Ascii7.isdigit c2 = false ->
  rmatch A (directive_regex DirDay) prev (c1 :: c2 :: rest) [] caps k
  = if nonzero_digit c1 then k (Some c1) (c2 :: rest) [] (caps ++ [[c1]]) else None.
Proof.
  intros H1 H2.
  pose proof (nondigit_in_range 48 49 c2 H2 ltac:(lia) ltac:(lia)) as E1.
  pose proof (nondigit_in_range 49 57 c2 H2 ltac:(lia) ltac:(lia)) as E2.
  pose proof (cset_mem_nondigit c2 H2) as E3. cbn [cset_mem] in E3.
  unfold directive_regex, lit_digit, digit_range.
  change (48 + 0)%N with 48%N. change (48 + 1)%N with 49%N.
  change (48 + 2)%N with 50%N. change (48 + 3)%N with 51%N.
  change (48 + 9)%N with 57%N.
  cbn [rmatch cset_mem consume fmap list_fmap close_group fst snd].
  rewrite E1, E2, E3.
  digit_cases H1; cbn [N.eqb Pos.eqb Ascii7.in_range N.leb N.compare Pos.compare
    Pos.compare_cont andb reverse rev_append fst snd nonzero_digit];
    try reflexivity; by destruct (k _ _ _ _).
Qed.

Lemma rmatch_month_short c1 c2 prev rest caps k :
  Ascii7.isdigit c1 = true -> Ascii7.isdigit c2 = false ->
  rmatch A (directive_regex DirMonth) prev (c1 :: c2 :: rest) [] caps k
  = if nonzero_digit c1 then k (Some c1) (c2 :: rest) [] (caps ++ [[c1]]) else None.
Proof.
  intros H1 H2.
  pose proof (nondigit_in_range 48 50 c2 H2 ltac:(lia) ltac:(lia)) as E1.
  pose proof (nondigit_in_range 49 57 c2 H2 ltac:(lia) ltac:(lia)) as E2.
  unfold directive_regex, lit_digit, digit_range.
  change (48 + 0)%N with 48%N. change (48 + 1)%N with 49%N.
  change (48 + 2)%N with 50%N. change (48 + 9)%N with 57%N.
  cbn [rmatch cset_mem consume fmap list_fmap close_group fst snd].
  rewrite E1, E2.
  digit_cases H1; cbn [N.eqb Pos.eqb Ascii7.in_range N.leb N.compare Pos.compare
    Pos.compare_cont andb reverse rev_append fst snd nonzero_digit];
    try reflexivity; by destruct (k _ _ _ _).
Qed.

Lemma rmatch_day_end c1 prev caps k :
  Ascii7.isdigit c1 = true ->
  rmatch A (directive_regex DirDay) prev [c1] [] caps k
  = if nonzero_digit c1 then k (Some c1) [] [] (caps ++ [[c1]]) else None.
Proof.
  intros H1. digit_cases H1; vm_compute; try reflexivity; by destruct (k _ _ _ _).
Qed.

Lemma rmatch_day_text ds sep rest prev caps k :
  Forall (fun c => Ascii7.isdigit c = true) ds -> (1 <= length ds <= 2)%nat ->
  Ascii7.isdigit sep = false -> refuses_digits k ->
  rmatch A (directive_regex DirDay) prev (ds ++ sep :: rest) [] caps k
  = if day_text_ok ds then k (last ds) (sep :: rest) [] (caps ++ [ds]) else None.
Proof.
  intros Hds Hl Hsep Hk.
  destruct ds as [|c1 [|c2 [|c3 ds]]]; cbn [length] in Hl; [lia| | |lia].
  - apply Forall_cons in Hds as [H1 _]. cbn [app day_text_ok last].
    by apply rmatch_day_short.
  - apply Forall_cons in Hds as [H1 [H2 _]%Forall_cons]. cbn [app day_text_ok last].
    destruct (day2_ok c1 c2) eqn:Hok.
    + destruct (k (Some c2) (sep :: rest) [] (caps ++ [[c1; c2]])) as [x|] eqn:Hx.
      * by eapply rmatch_day_ok.
      * apply rmatch_day_fail; [done..| |]; intros _; [done|by apply Hk].
    + apply rmatch_day_fail; [done..| |]; intros ?; [congruence|by apply Hk].
Qed.

Lemma rmatch_month_text ms sep rest prev caps k :
  Forall (fun c => Ascii7.isdigit c = true) ms -> (1 <= length ms <= 2)%nat ->
  Ascii7.isdigit sep = false -> refuses_digits k ->
  rmatch A (directive_regex DirMonth) prev (ms ++ sep :: rest) [] caps k
  = if month_text_ok ms then k (last ms) (sep :: rest) [] (caps ++ [ms]) else None.
Proof.
  intros Hms Hl Hsep Hk.
  destruct ms as [|c1 [|c2 [|c3 ms]]]; cbn [length] in Hl; [lia| | |lia].
  - apply Forall_cons in Hms as [H1 _]. cbn [app month_text_ok last].
    by apply rmatch_month_short.
  - apply Forall_cons in Hms as [H1 [H2 _]%Forall_cons]. cbn [app month_text_ok last].
    destruct (month2_ok c1 c2) eqn:Hok.
    + destruct (k (Some c2) (sep :: rest) [] (caps ++ [[c1; c2]])) as [x|] eqn:Hx.
      * by eapply rmatch_month_ok.
      * apply rmatch_month_fail; [done..| |]; intros _; [done|by apply Hk].
    + apply rmatch_month_fail; [done..| |]; intros ?; [congruence|by apply Hk].
Qed.

Lemma refuses_digits_lit sep' r k :
  Ascii7.isdigit sep' = false ->
  refuses_digits (fun p s o c => rmatch A (Cat (Chr (CLit sep')) r) p s o c k).
Proof.
  intros Hsep c p rest opens caps Hc. cbn [rmatch cset_mem]. by rewrite digit_neq.
Qed.

(** [%d<sep'>%m<sep'>%Y] on a day and a month of one or two digits and
    a year of four. *)
Lemma re_match_dmy_text sep sep' ds ms y1 y2 y3 y4 :
  Forall (fun c => Ascii7.isdigit c = true) ds -> (1 <= length ds <= 2)%nat ->
  Forall (fun c => Ascii7.isdigit c = true) ms -> (1 <= length ms <= 2)%nat ->
  Ascii7.isdigit y1 = true -> Ascii7.isdigit y2 = true ->
  Ascii7.isdigit y3 = true -> Ascii7.isdigit y4 = true ->
  Ascii7.isdigit sep = false -> Ascii7.isdigit sep' = false ->
  re_match A (format_regex [FDir DirDay; FLit sep'; FDir DirMonth; FLit sep'; FDir DirYear])
    (ds ++ sep :: ms ++ sep :: [y1; y2; y3; y4])
  = if day_text_ok ds && (sep =? sep')%N && month_text_ok ms
    then Some ([], [ds; ms; [y1; y2; y3; y4]]) else None.
Proof.
  intros Hds Hlds Hms Hlms Hy1 Hy2 Hy3 Hy4 Hsep Hsep'.
  unfold re_match, format_regex. cbn [fmap list_fmap cat_all foldr].
  change (rmatch A (Cat ?r1 ?r2) ?p ?s ?o ?c ?k)
    with (rmatch A r1 p s o c (fun p' s' o' c' => rmatch A r2 p' s' o' c' k)).
  rewrite rmatch_day_text; [|done..|by apply refuses_digits_lit].
  destruct (day_text_ok ds); [|done]. cbn [andb].
  rewrite rmatch_lit. destruct (sep =? sep')%N eqn:Hs; [|done]. cbn [andb].
  change (rmatch A (Cat ?r1 ?r2) ?p ?s ?o ?c ?k)
    with (rmatch A r1 p s o c (fun p' s' o' c' => rmatch A r2 p' s' o' c' k)).
  rewrite rmatch_month_text; [|done..|by apply refuses_digits_lit].
  destruct (month_text_ok ms); [|done].
  rewrite rmatch_lit, Hs. cbn [rmatch]. by rewrite rmatch_year.
Qed.
End DateShort.

Section DateShort2.
Local Abbreviation A := Ascii7.db.

Lemma rmatch_day_at_end ds prev caps :
  Forall (fun c => Ascii7.isdigit c = true) ds ->
  day_text_ok ds = true ->
  rmatch A (Cat (directive_regex DirDay) Eps) prev ds [] caps accept
  = Some ([], caps ++ [ds]).
Proof.
  intros Hds Hok. cbn [rmatch].
  destruct ds as [|c1 [|c2 [|c3 ds]]]; cbn [day_text_ok] in Hok; try done.
  - apply Forall_cons in Hds as [H1 _]. by rewrite rmatch_day_end, Hok.
  - apply Forall_cons in Hds as [H1 [H2 _]%Forall_cons]. by eapply rmatch_day_ok.
Qed.

Lemma re_match_ymd_text y1 y2 y3 y4 ms ds :
  Forall (fun c => Ascii7.isdigit c = true) ds ->
  Forall (fun c => Ascii7.isdigit c = true) ms -> (1 <= length ms <= 2)%nat ->
  Ascii7.isdigit y1 = true -> Ascii7.isdigit y2 = true ->
  Ascii7.isdigit y3 = true -> Ascii7.isdigit y4 = true ->
  month_text_ok ms = true -> day_text_ok ds = true ->
  re_match A (format_regex [FDir DirYear; FLit 45; FDir DirMonth; FLit 45; FDir DirDay])
    (y1 :: y2 :: y3 :: y4 :: 45%N :: ms ++ 45%N :: ds)
  = Some ([], [[y1; y2; y3; y4]; ms; ds]).
Proof.
  intros Hds Hms Hlms Hy1 Hy2 Hy3 Hy4 Hmok Hdok.
  unfold re_match, format_regex. cbn [fmap list_fmap cat_all foldr].
  change (rmatch A (Cat ?r1 ?r2) ?p ?s ?o ?c ?k)
    with (rmatch A r1 p s o c (fun p' s' o' c' => rmatch A r2 p' s' o' c' k)).
  rewrite rmatch_year by done. rewrite rmatch_lit, N.eqb_refl.
  change (rmatch A (Cat ?r1 ?r2) ?p ?s ?o ?c ?k)
    with (rmatch A r1 p s o c (fun p' s' o' c' => rmatch A r2 p' s' o' c' k)).
  rewrite rmatch_month_text; [|done..|by apply refuses_digits_lit].
  rewrite Hmok, rmatch_lit, N.eqb_refl.
  by rewrite rmatch_day_at_end.
Qed.

Lemma named_month_one_digit c1 c2 rest :
  Ascii7.isdigit c1 = true -> Ascii7.isdigit c2 = false ->
  cset_mem A CSpace c2 = false ->
  re_match A named_month_re (c1 :: c2 :: rest) = None.
Proof.
  intros H1 H2 H3. unfold re_match, named_month_re.
  cbn [rmatch rep_greedy Nat.pred fmap option_fmap option_map].
  rewrite (cset_mem_digit c1 H1), (cset_mem_nondigit c2 H2).
  cbn [andb consume fmap list_fmap close_group fst snd rep_greedy].
  by rewrite H3.
Qed.
End DateShort2.

Lemma short_text n :
  (0 <= n < 100)%Z ->
  forall t, t ∈ [short n; render2 n] ->
    Forall (fun c => Ascii7.isdigit c = true) t
    /\ (1 <= length t <= 2)%nat
    /\ decimal_value t = n
    /\ day_text_ok t = ((1 <=? n) && (n <=? 31))%Z
    /\ month_text_ok t = ((1 <=? n) && (n <=? 12))%Z.
Proof.
  intros Hn t Ht.
  assert (H2 : Forall (fun c => Ascii7.isdigit c = true) (render2 n)
               /\ (1 <= length (render2 n) <= 2)%nat
               /\ decimal_value (render2 n) = n
               /\ day_text_ok (render2 n) = ((1 <=? n) && (n <=? 31))%Z
               /\ month_text_ok (render2 n) = ((1 <=? n) && (n <=? 12))%Z).
  { assert (0 <= n / 10 <= 9)%Z by (Z.div_mod_to_equations; lia).
    assert (0 <= n mod 10 <= 9)%Z by (Z.div_mod_to_equations; lia).
    unfold render2. cbn [day_text_ok month_text_ok length].
    rewrite day2_ok_render, month2_ok_render by done.
    split; [by repeat constructor; apply digit_char_isdigit|].
    split; [lia|]. split; [|done].
    unfold decimal_value. cbn [foldl]. rewrite !digit_char_value by lia.
    Z.div_mod_to_equations; lia. }
  apply elem_of_cons in Ht as [->|Ht]; [|by apply list_elem_of_singleton in Ht as ->].
  unfold short. destruct (Z.ltb_spec n 10) as [Hlt|Hge]; [|exact H2].
  cbn [day_text_ok month_text_ok length].
  split; [by repeat constructor; apply digit_char_isdigit; lia|].
  split; [lia|]. split.
  { unfold decimal_value. cbn [foldl]. rewrite digit_char_value by lia. lia. }
  assert (Hnz : nonzero_digit (digit_char n) = (1 <=? n)%Z).
  { unfold nonzero_digit, digit_char. apply eq_true_iff_eq.
    rewrite andb_true_iff, !N.leb_le, Z.leb_le. lia. }
  rewrite Hnz. split; apply eq_true_iff_eq;
    rewrite andb_true_iff, !Z.leb_le; lia.
Qed.

Section DateShortParse.
Context (U : unicode_db) (HU : ascii_faithful U).
Local Open Scope Z_scope.

Lemma strptime_dmy_text sep sep' ds ms y1 y2 y3 y4 :
  Forall (fun c => Ascii7.isdigit c = true) ds -> (1 <= length ds <= 2)%nat ->
  Forall (fun c => Ascii7.isdigit c = true) ms -> (1 <= length ms <= 2)%nat ->
  Ascii7.isdigit y1 = true -> Ascii7.isdigit y2 = true ->
  Ascii7.isdigit y3 = true -> Ascii7.isdigit y4 = true ->
  sep ∈ [46; 47; 45]%N -> sep' ∈ [46; 47; 45]%N ->
  strptime U (ds ++ sep :: ms ++ sep :: [y1; y2; y3; y4]) (fmt_dmy sep')
  = if day_text_ok ds && (sep =? sep')%N && month_text_ok ms
    then DT.of_ymd (decimal_value [y1; y2; y3; y4]) (decimal_value ms) (decimal_value ds)
    else Raise ValueError.
Proof.
  intros Hds Hlds Hms Hlms Hy1 Hy2 Hy3 Hy4 Hsep Hsep'.
  destruct (separator_facts sep Hsep) as (Hnd & Ha & _).
  destruct (separator_facts sep' Hsep') as (Hnd' & _ & _).
  unfold strptime. rewrite (parse_format_dmy sep' Hsep').
  rewrite (re_match_agree U HU).
  2:{ apply Forall_app_2; [eapply Forall_impl; [exact Hds|]; by apply digit_is_ascii|].
      constructor; [done|].
      apply Forall_app_2; [eapply Forall_impl; [exact Hms|]; by apply digit_is_ascii|].
      ascii_text. }
  rewrite re_match_dmy_text by done.
  destruct (day_text_ok ds && (sep =? sep')%N && month_text_ok ms); [|done].
  change (zip (directives _) _)
    with [(DirDay, ds); (DirMonth, ms); (DirYear, [y1; y2; y3; y4])].
  cbn [assign_groups].
  rewrite !(py_int_digits U HU); [done|done|by repeat constructor| |done| |done].
  - intros ->. cbn [length] in Hlms. lia.
  - intros ->. cbn [length] in Hlds. lia.
Qed.

Lemma strptime_ymd_text y1 y2 y3 y4 ms ds :
  Forall (fun c => Ascii7.isdigit c = true) ds -> (1 <= length ds <= 2)%nat ->
  Forall (fun c => Ascii7.isdigit c = true) ms -> (1 <= length ms <= 2)%nat ->
  Ascii7.isdigit y1 = true -> Ascii7.isdigit y2 = true ->
  Ascii7.isdigit y3 = true -> Ascii7.isdigit y4 = true ->
  month_text_ok ms = true -> day_text_ok ds = true ->
  strptime U (y1 :: y2 :: y3 :: y4 :: 45%N :: ms ++ 45%N :: ds) fmt_ymd
  = DT.of_ymd (decimal_value [y1; y2; y3; y4]) (decimal_value ms) (decimal_value ds).
Proof.
  intros Hds Hlds Hms Hlms Hy1 Hy2 Hy3 Hy4 Hmok Hdok. unfold strptime.
  change (parse_format fmt_ymd)
    with (Some [FDir DirYear; FLit 45%N; FDir DirMonth; FLit 45%N; FDir DirDay]).
  cbv beta iota. rewrite (re_match_agree U HU).
  2:{ do 5 (constructor; [first [done | by apply digit_is_ascii]|]).
      apply Forall_app_2; [eapply Forall_impl; [exact Hms|]; by apply digit_is_ascii|].
      constructor; [done|]. eapply Forall_impl; [exact Hds|]. by apply digit_is_ascii. }
  rewrite re_match_ymd_text by done.
  change (zip (directives _) _)
    with [(DirYear, [y1; y2; y3; y4]); (DirMonth, ms); (DirDay, ds)].
  cbn [assign_groups].
  rewrite !(py_int_digits U HU); [done| |done| |done|done|by repeat constructor].
  - intros ->. cbn [length] in Hlds. lia.
  - intros ->. cbn [length] in Hlms. lia.
Qed.

Lemma named_month_attempt_separator ds sep rest :
  Forall (fun c => Ascii7.isdigit c = true) ds -> (1 <= length ds <= 2)%nat ->
  sep ∈ [46; 47; 45]%N -> ascii_str rest ->
  named_month_attempt U (ds ++ sep :: rest) = Ok None.
Proof.
  intros Hds Hlds Hsep Hrest.
  destruct (separator_facts sep Hsep) as (Hnd & Ha & Hns).
  destruct ds as [|c1 [|c2 [|c3 ds]]]; cbn [length] in Hlds; [lia| | |lia].
  - apply Forall_cons in Hds as [H1 _]. cbn [app]. unfold named_month_attempt.
    rewrite (re_match_agree U HU) by ascii_text.
    rewrite named_month_one_digit; [done..|].
    cbn [cset_mem Ascii7.db uni_isspace]. by rewrite Ha, Hns.
  - apply Forall_cons in Hds as [H1 [H2 _]%Forall_cons]. cbn [app].
    by apply (named_month_attempt_digits U HU).
Qed.

(** X16.  The leading zero of the day and of the month is optional in
    the numeric forms: for every valid calendar date, the day-first
    renderings with any of the three separators and the year-first
    rendering, with day and month written with or without leading zero,
    are parsed to that date. *)
Theorem parse_date_without_leading_zero (y m d : Z) (ds ms : str) :
  DT._check_date_fields y m d = true ->
  ds ∈ [short d; render2 d] -> ms ∈ [short m; render2 m] ->
  (forall sep, sep ∈ [46; 47; 45]%N ->
     parse_date U (ds ++ [sep] ++ ms ++ [sep] ++ render4 y)
     = Ok (Some (DT.mk y m d 0 0 0 0 None)))
  /\ parse_date U (render4 y ++ [45%N] ++ ms ++ [45%N] ++ ds)
     = Ok (Some (DT.mk y m d 0 0 0 0 None)).
Proof.
  intros Hok Hd Hm.
  destruct (check_date_fields_bounds y m d Hok) as (Hy & Hmb & Hdb).
  destruct (short_text d ltac:(lia) ds Hd) as (Hds & Hlds & Hdv & Hdok & _).
  destruct (short_text m ltac:(lia) ms Hm) as (Hms & Hlms & Hmv & _ & Hmok).
  destruct (render4_digits y ltac:(lia)) as (Hy1 & Hy2 & Hy3 & Hy4 & Hyv).
  assert (Hdok' : day_text_ok ds = true).
  { rewrite Hdok. apply andb_true_iff. rewrite !Z.leb_le. lia. }
  assert (Hmok' : month_text_ok ms = true).
  { rewrite Hmok. apply andb_true_iff. rewrite !Z.leb_le. lia. }
  assert (Hyval : decimal_value (render4 y) = y).
  { unfold decimal_value, render4. cbn [foldl]. lia. }
  assert (Hams : ascii_str ms).
  { eapply Forall_impl; [exact Hms|]. by apply digit_is_ascii. }
  assert (Hads : ascii_str ds).
  { eapply Forall_impl; [exact Hds|]. by apply digit_is_ascii. }
  split.
  - intros sep Hsep. destruct (separator_facts sep Hsep) as (Hnd & Ha & Hns).
    unfold parse_date. cbn [app].
    rewrite named_month_attempt_separator; [|done..|].
    2:{ apply Forall_app_2; [done|]. unfold render4. ascii_text. }
    cbn [rbind]. rewrite numeric_formats_eq. cbn [try_formats]. unfold render4.
    rewrite !strptime_dmy_text by (done || set_solver).
    rewrite Hdok', Hmok'. fold (render4 y). rewrite Hyval, Hmv, Hdv, of_ymd_check, Hok.
    cbn [andb].
    repeat (apply elem_of_cons in Hsep as [->|Hsep]; [reflexivity|]).
    by apply elem_of_nil in Hsep.
  - unfold parse_date, render4. cbn [app].
    rewrite (named_month_attempt_digits U HU);
      [|done|done|by apply digit_is_ascii|by apply digit_isspace|].
    2:{ constructor; [by apply digit_is_ascii|]. constructor; [done|].
        apply Forall_app_2; [done|]. by constructor. }
    cbn [rbind]. rewrite numeric_formats_eq. cbn [try_formats].
    rewrite !(strptime_dmy_on_digits U HU); try (done || set_solver).
    2,3,4: constructor; [by apply digit_is_ascii|]; constructor; [done|];
           apply Forall_app_2; [done|]; by constructor.
    cbn [rbind except_value_error].
    rewrite strptime_ymd_text by done.
    fold (render4 y). by rewrite Hyval, Hmv, Hdv, of_ymd_check, Hok.
Qed.
End DateShortParse.

Lemma parse_date_without_leading_zero_witness :
  parse_date Ascii7.db (u "4.1.2026") = Ok (Some (DT.mk 2026 1 4 0 0 0 0 None)).
Proof.
  refine (proj1 (parse_date_without_leading_zero Ascii7.db ascii7_faithful
                   2026 1 4 (u "4") (u "1") _ _ _)%Z 46%N _).
  - vm_compute. reflexivity.
  - apply list_elem_of_here.
  - apply list_elem_of_here.
  - apply list_elem_of_here.
Defined.

(** ** What the deadline patterns of the scrapers capture *)

Section DateCaptured.
Local Abbreviation A := Ascii7.db.


End DateCaptured.

Section DateCapturedParse.
Context (U : unicode_db) (HU : ascii_faithful U).
Local Open Scope Z_scope.



End DateCapturedParse.


(** ** The description of a detail page *)


Section DescriptionFacts.
Context (U : unicode_db).

Local Abbreviation word := (fun w : str =>
  w <> [] /\ Forall (fun c => uni_isspace U c = false) w).











End DescriptionFacts.


(** A text of 2999 letters, a space and one more word is cut off after
    the space: its description has 3000 characters and ends in a space,
    and building the description again from it removes that space. *)
Example description_cut_after_space :
  let text := replicate 2999 97%N ++ u " b" in
  length (description_of_text Ascii7.db text) = 3000
  /\ last (description_of_text Ascii7.db text) = Some 32%N
  /\ ends_in_space Ascii7.db (description_of_text Ascii7.db text) = true
  /\ length (description_of_text Ascii7.db (description_of_text Ascii7.db text)) = 2999.
Proof. vm_compute. done. Qed.

(** "  Apel   de proiecte " becomes "Apel de proiecte". *)
Example description_of_text_apel :
  description_of_text Ascii7.db (u "  Apel   de proiecte ") = u "Apel de proiecte".
Proof. vm_compute. reflexivity. Qed.
